(** * YoutubeSEO_Bot backend: the two FastAPI handlers of [app.py]

    A shallow embedding of [src/app.py] and the properties of its
    [/trending] fan-out and of the [/generate-image] validation.

    Conventions of the embedding
    - a Python [str] is a [string] holding its UTF-8 encoding; [str.upper]
      and [str.lower] are those of CPython 3.11, with the case tables of
      Unicode 14.0 and the final-sigma rule of [str.lower];
    - a Python [int] is a [Z];
    - a dict literal with fixed keys is a record, [pn_map] (a dict that is
      looked up) is a [gmap], the set [allowed] is a [gset];
    - a call that can raise returns an [outcome]; the [Exception] is
      identified with its [str(e)], which is all the code ever reads of it;
    - the process environment and the upstream services (feed parser, trends
      provider, forum API, image search) are the fields of one [World];
    - a handler returns the list of calls it made next to its HTTP result,
      so that "nothing was invoked" is a statement about that list. *)

From stdpp Require Import gmap strings list.
From Stdlib Require Import ZArith Ascii.

Open Scope string_scope.
Open Scope Z_scope.

(* ------------------------------------------------------------------ *)
(** ** Python values used by the handlers *)

(** The result of a call that either returns or raises an [Exception]. *)
Inductive outcome (A : Type) : Type :=
| Returned (a : A)
| Raised (e : string).
Arguments Returned {A} a.
Arguments Raised {A} e.

(** What FastAPI sends back for a handler: its return value, an
    [HTTPException] it raised, or an exception nobody caught. *)
Inductive http (A : Type) : Type :=
| Respond (a : A)
| HTTPException (status_code : Z) (detail : string)
| Uncaught (e : string).
Arguments Respond {A} a.
Arguments HTTPException {A} status_code detail.
Arguments Uncaught {A} e.

(** The status line of an [http] result: 200 for a returned body, the
    status of the [HTTPException], 500 for an uncaught exception. *)
Definition status_of {A} (r : http A) : Z :=
  match r with
  | Respond _ => 200
  | HTTPException s _ => s
  | Uncaught _ => 500
  end.

(** *** [str.upper] and [str.lower]

    A [str] is held as its UTF-8 encoding, one character being one sequence
    of one to four bytes.  Both functions work character by character: an
    ASCII letter is shifted, any other character is looked up in the case
    table of the interpreter (CPython 3.11, Unicode 14.0), and a character
    without an entry is kept.  An entry can hold up to three characters
    (the upper case of the sharp s is [SS]).  [str.lower] has one rule that
    looks at the neighbours: a capital sigma becomes the final sigma after
    a cased character and not before one, case-ignorable characters being
    skipped on both sides. *)

Definition ascii_lower (c : ascii) : ascii :=
  let n := N_of_ascii c in
  if ((65 <=? n) && (n <=? 90))%N then ascii_of_N (n + 32) else c.

Definition ascii_upper (c : ascii) : ascii :=
  let n := N_of_ascii c in
  if ((97 <=? n) && (n <=? 122))%N then ascii_of_N (n - 32) else c.

(** The number of bytes of the UTF-8 sequence that the byte [c] starts; a
    byte that starts none stands alone. *)
Definition utf8_len (c : ascii) : nat :=
  let n := N_of_ascii c in
  if (n <? 192)%N then 1%nat
  else if (n <? 224)%N then 2%nat
  else if (n <? 240)%N then 3%nat
  else 4%nat.

(** Lookup in a case table. *)
Fixpoint assoc (k : string) (t : list (string * string)) : option string :=
  match t with
  | [] => None
  | (k', v) :: t' => if String.eqb k k' then Some v else assoc k t'
  end.

(** Membership in a list of ranges of characters; the byte order of UTF-8
    is the order of the code points. *)
Definition in_ranges (u : list ascii) (t : list (string * string)) : bool :=
  let s := String.string_of_list_ascii u in
  existsb (fun r => String.leb r.1 s && String.leb s r.2) t.

(** The upper case of every character other than the ASCII letters that
    has one. *)
Definition UPPER_TABLE : list (string * string) := [
  ("µ", "Μ"); ("ß", "SS"); ("à", "À"); ("á", "Á"); ("â", "Â");
  ("ã", "Ã"); ("ä", "Ä"); ("å", "Å"); ("æ", "Æ"); ("ç", "Ç");
  ("è", "È"); ("é", "É"); ("ê", "Ê"); ("ë", "Ë"); ("ì", "Ì");
  ("í", "Í"); ("î", "Î"); ("ï", "Ï"); ("ð", "Ð"); ("ñ", "Ñ");
  ("ò", "Ò"); ("ó", "Ó"); ("ô", "Ô"); ("õ", "Õ"); ("ö", "Ö");
  ("ø", "Ø"); ("ù", "Ù"); ("ú", "Ú"); ("û", "Û"); ("ü", "Ü");
  ("ý", "Ý"); ("þ", "Þ"); ("ÿ", "Ÿ"); ("ā", "Ā"); ("ă", "Ă");
  ("ą", "Ą"); ("ć", "Ć"); ("ĉ", "Ĉ"); ("ċ", "Ċ"); ("č", "Č");
  ("ď", "Ď"); ("đ", "Đ"); ("ē", "Ē"); ("ĕ", "Ĕ"); ("ė", "Ė");
  ("ę", "Ę"); ("ě", "Ě"); ("ĝ", "Ĝ"); ("ğ", "Ğ"); ("ġ", "Ġ");
  ("ģ", "Ģ"); ("ĥ", "Ĥ"); ("ħ", "Ħ"); ("ĩ", "Ĩ"); ("ī", "Ī");
  ("ĭ", "Ĭ"); ("į", "Į"); ("ı", "I"); ("ĳ", "Ĳ"); ("ĵ", "Ĵ");
  ("ķ", "Ķ"); ("ĺ", "Ĺ"); ("ļ", "Ļ"); ("ľ", "Ľ"); ("ŀ", "Ŀ");
  ("ł", "Ł"); ("ń", "Ń"); ("ņ", "Ņ"); ("ň", "Ň"); ("ŉ", "ʼN");
  ("ŋ", "Ŋ"); ("ō", "Ō"); ("ŏ", "Ŏ"); ("ő", "Ő"); ("œ", "Œ");
  ("ŕ", "Ŕ"); ("ŗ", "Ŗ"); ("ř", "Ř"); ("ś", "Ś"); ("ŝ", "Ŝ");
  ("ş", "Ş"); ("š", "Š"); ("ţ", "Ţ"); ("ť", "Ť"); ("ŧ", "Ŧ");
  ("ũ", "Ũ"); ("ū", "Ū"); ("ŭ", "Ŭ"); ("ů", "Ů"); ("ű", "Ű");
  ("ų", "Ų"); ("ŵ", "Ŵ"); ("ŷ", "Ŷ"); ("ź", "Ź"); ("ż", "Ż");
  ("ž", "Ž"); ("ſ", "S"); ("ƀ", "Ƀ"); ("ƃ", "Ƃ"); ("ƅ", "Ƅ");
  ("ƈ", "Ƈ"); ("ƌ", "Ƌ"); ("ƒ", "Ƒ"); ("ƕ", "Ƕ"); ("ƙ", "Ƙ");
  ("ƚ", "Ƚ"); ("ƞ", "Ƞ"); ("ơ", "Ơ"); ("ƣ", "Ƣ"); ("ƥ", "Ƥ");
  ("ƨ", "Ƨ"); ("ƭ", "Ƭ"); ("ư", "Ư"); ("ƴ", "Ƴ"); ("ƶ", "Ƶ");
  ("ƹ", "Ƹ"); ("ƽ", "Ƽ"); ("ƿ", "Ƿ"); ("ǅ", "Ǆ"); ("ǆ", "Ǆ");
  ("ǈ", "Ǉ"); ("ǉ", "Ǉ"); ("ǋ", "Ǌ"); ("ǌ", "Ǌ"); ("ǎ", "Ǎ");
  ("ǐ", "Ǐ"); ("ǒ", "Ǒ"); ("ǔ", "Ǔ"); ("ǖ", "Ǖ"); ("ǘ", "Ǘ");
  ("ǚ", "Ǚ"); ("ǜ", "Ǜ"); ("ǝ", "Ǝ"); ("ǟ", "Ǟ"); ("ǡ", "Ǡ");
  ("ǣ", "Ǣ"); ("ǥ", "Ǥ"); ("ǧ", "Ǧ"); ("ǩ", "Ǩ"); ("ǫ", "Ǫ");
  ("ǭ", "Ǭ"); ("ǯ", "Ǯ"); ("ǰ", "J̌"); ("ǲ", "Ǳ"); ("ǳ", "Ǳ");
  ("ǵ", "Ǵ"); ("ǹ", "Ǹ"); ("ǻ", "Ǻ"); ("ǽ", "Ǽ"); ("ǿ", "Ǿ");
  ("ȁ", "Ȁ"); ("ȃ", "Ȃ"); ("ȅ", "Ȅ"); ("ȇ", "Ȇ"); ("ȉ", "Ȉ");
  ("ȋ", "Ȋ"); ("ȍ", "Ȍ"); ("ȏ", "Ȏ"); ("ȑ", "Ȑ"); ("ȓ", "Ȓ");
  ("ȕ", "Ȕ"); ("ȗ", "Ȗ"); ("ș", "Ș"); ("ț", "Ț"); ("ȝ", "Ȝ");
  ("ȟ", "Ȟ"); ("ȣ", "Ȣ"); ("ȥ", "Ȥ"); ("ȧ", "Ȧ"); ("ȩ", "Ȩ");
  ("ȫ", "Ȫ"); ("ȭ", "Ȭ"); ("ȯ", "Ȯ"); ("ȱ", "Ȱ"); ("ȳ", "Ȳ");
  ("ȼ", "Ȼ"); ("ȿ", "Ȿ"); ("ɀ", "Ɀ"); ("ɂ", "Ɂ"); ("ɇ", "Ɇ");
  ("ɉ", "Ɉ"); ("ɋ", "Ɋ"); ("ɍ", "Ɍ"); ("ɏ", "Ɏ"); ("ɐ", "Ɐ");
  ("ɑ", "Ɑ"); ("ɒ", "Ɒ"); ("ɓ", "Ɓ"); ("ɔ", "Ɔ"); ("ɖ", "Ɖ");
  ("ɗ", "Ɗ"); ("ə", "Ə"); ("ɛ", "Ɛ"); ("ɜ", "Ɜ"); ("ɠ", "Ɠ");
  ("ɡ", "Ɡ"); ("ɣ", "Ɣ"); ("ɥ", "Ɥ"); ("ɦ", "Ɦ"); ("ɨ", "Ɨ");
  ("ɩ", "Ɩ"); ("ɪ", "Ɪ"); ("ɫ", "Ɫ"); ("ɬ", "Ɬ"); ("ɯ", "Ɯ");
  ("ɱ", "Ɱ"); ("ɲ", "Ɲ"); ("ɵ", "Ɵ"); ("ɽ", "Ɽ"); ("ʀ", "Ʀ");
  ("ʂ", "Ʂ"); ("ʃ", "Ʃ"); ("ʇ", "Ʇ"); ("ʈ", "Ʈ"); ("ʉ", "Ʉ");
  ("ʊ", "Ʊ"); ("ʋ", "Ʋ"); ("ʌ", "Ʌ"); ("ʒ", "Ʒ"); ("ʝ", "Ʝ");
  ("ʞ", "Ʞ"); ("ͅ", "Ι"); ("ͱ", "Ͱ"); ("ͳ", "Ͳ"); ("ͷ", "Ͷ");
  ("ͻ", "Ͻ"); ("ͼ", "Ͼ"); ("ͽ", "Ͽ"); ("ΐ", "Ϊ́"); ("ά", "Ά");
  ("έ", "Έ"); ("ή", "Ή"); ("ί", "Ί"); ("ΰ", "Ϋ́"); ("α", "Α");
  ("β", "Β"); ("γ", "Γ"); ("δ", "Δ"); ("ε", "Ε"); ("ζ", "Ζ");
  ("η", "Η"); ("θ", "Θ"); ("ι", "Ι"); ("κ", "Κ"); ("λ", "Λ");
  ("μ", "Μ"); ("ν", "Ν"); ("ξ", "Ξ"); ("ο", "Ο"); ("π", "Π");
  ("ρ", "Ρ"); ("ς", "Σ"); ("σ", "Σ"); ("τ", "Τ"); ("υ", "Υ");
  ("φ", "Φ"); ("χ", "Χ"); ("ψ", "Ψ"); ("ω", "Ω"); ("ϊ", "Ϊ");
  ("ϋ", "Ϋ"); ("ό", "Ό"); ("ύ", "Ύ"); ("ώ", "Ώ"); ("ϐ", "Β");
  ("ϑ", "Θ"); ("ϕ", "Φ"); ("ϖ", "Π"); ("ϗ", "Ϗ"); ("ϙ", "Ϙ");
  ("ϛ", "Ϛ"); ("ϝ", "Ϝ"); ("ϟ", "Ϟ"); ("ϡ", "Ϡ"); ("ϣ", "Ϣ");
  ("ϥ", "Ϥ"); ("ϧ", "Ϧ"); ("ϩ", "Ϩ"); ("ϫ", "Ϫ"); ("ϭ", "Ϭ");
  ("ϯ", "Ϯ"); ("ϰ", "Κ"); ("ϱ", "Ρ"); ("ϲ", "Ϲ"); ("ϳ", "Ϳ");
  ("ϵ", "Ε"); ("ϸ", "Ϸ"); ("ϻ", "Ϻ"); ("а", "А"); ("б", "Б");
  ("в", "В"); ("г", "Г"); ("д", "Д"); ("е", "Е"); ("ж", "Ж");
  ("з", "З"); ("и", "И"); ("й", "Й"); ("к", "К"); ("л", "Л");
  ("м", "М"); ("н", "Н"); ("о", "О"); ("п", "П"); ("р", "Р");
  ("с", "С"); ("т", "Т"); ("у", "У"); ("ф", "Ф"); ("х", "Х");
  ("ц", "Ц"); ("ч", "Ч"); ("ш", "Ш"); ("щ", "Щ"); ("ъ", "Ъ");
  ("ы", "Ы"); ("ь", "Ь"); ("э", "Э"); ("ю", "Ю"); ("я", "Я");
  ("ѐ", "Ѐ"); ("ё", "Ё"); ("ђ", "Ђ"); ("ѓ", "Ѓ"); ("є", "Є");
  ("ѕ", "Ѕ"); ("і", "І"); ("ї", "Ї"); ("ј", "Ј"); ("љ", "Љ");
  ("њ", "Њ"); ("ћ", "Ћ"); ("ќ", "Ќ"); ("ѝ", "Ѝ"); ("ў", "Ў");
  ("џ", "Џ"); ("ѡ", "Ѡ"); ("ѣ", "Ѣ"); ("ѥ", "Ѥ"); ("ѧ", "Ѧ");
  ("ѩ", "Ѩ"); ("ѫ", "Ѫ"); ("ѭ", "Ѭ"); ("ѯ", "Ѯ"); ("ѱ", "Ѱ");
  ("ѳ", "Ѳ"); ("ѵ", "Ѵ"); ("ѷ", "Ѷ"); ("ѹ", "Ѹ"); ("ѻ", "Ѻ");
  ("ѽ", "Ѽ"); ("ѿ", "Ѿ"); ("ҁ", "Ҁ"); ("ҋ", "Ҋ"); ("ҍ", "Ҍ");
  ("ҏ", "Ҏ"); ("ґ", "Ґ"); ("ғ", "Ғ"); ("ҕ", "Ҕ"); ("җ", "Җ");
  ("ҙ", "Ҙ"); ("қ", "Қ"); ("ҝ", "Ҝ"); ("ҟ", "Ҟ"); ("ҡ", "Ҡ");
  ("ң", "Ң"); ("ҥ", "Ҥ"); ("ҧ", "Ҧ"); ("ҩ", "Ҩ"); ("ҫ", "Ҫ");
  ("ҭ", "Ҭ"); ("ү", "Ү"); ("ұ", "Ұ"); ("ҳ", "Ҳ"); ("ҵ", "Ҵ");
  ("ҷ", "Ҷ"); ("ҹ", "Ҹ"); ("һ", "Һ"); ("ҽ", "Ҽ"); ("ҿ", "Ҿ");
  ("ӂ", "Ӂ"); ("ӄ", "Ӄ"); ("ӆ", "Ӆ"); ("ӈ", "Ӈ"); ("ӊ", "Ӊ");
  ("ӌ", "Ӌ"); ("ӎ", "Ӎ"); ("ӏ", "Ӏ"); ("ӑ", "Ӑ"); ("ӓ", "Ӓ");
  ("ӕ", "Ӕ"); ("ӗ", "Ӗ"); ("ә", "Ә"); ("ӛ", "Ӛ"); ("ӝ", "Ӝ");
  ("ӟ", "Ӟ"); ("ӡ", "Ӡ"); ("ӣ", "Ӣ"); ("ӥ", "Ӥ"); ("ӧ", "Ӧ");
  ("ө", "Ө"); ("ӫ", "Ӫ"); ("ӭ", "Ӭ"); ("ӯ", "Ӯ"); ("ӱ", "Ӱ");
  ("ӳ", "Ӳ"); ("ӵ", "Ӵ"); ("ӷ", "Ӷ"); ("ӹ", "Ӹ"); ("ӻ", "Ӻ");
  ("ӽ", "Ӽ"); ("ӿ", "Ӿ"); ("ԁ", "Ԁ"); ("ԃ", "Ԃ"); ("ԅ", "Ԅ");
  ("ԇ", "Ԇ"); ("ԉ", "Ԉ"); ("ԋ", "Ԋ"); ("ԍ", "Ԍ"); ("ԏ", "Ԏ");
  ("ԑ", "Ԑ"); ("ԓ", "Ԓ"); ("ԕ", "Ԕ"); ("ԗ", "Ԗ"); ("ԙ", "Ԙ");
  ("ԛ", "Ԛ"); ("ԝ", "Ԝ"); ("ԟ", "Ԟ"); ("ԡ", "Ԡ"); ("ԣ", "Ԣ");
  ("ԥ", "Ԥ"); ("ԧ", "Ԧ"); ("ԩ", "Ԩ"); ("ԫ", "Ԫ"); ("ԭ", "Ԭ");
  ("ԯ", "Ԯ"); ("ա", "Ա"); ("բ", "Բ"); ("գ", "Գ"); ("դ", "Դ");
  ("ե", "Ե"); ("զ", "Զ"); ("է", "Է"); ("ը", "Ը"); ("թ", "Թ");
  ("ժ", "Ժ"); ("ի", "Ի"); ("լ", "Լ"); ("խ", "Խ"); ("ծ", "Ծ");
  ("կ", "Կ"); ("հ", "Հ"); ("ձ", "Ձ"); ("ղ", "Ղ"); ("ճ", "Ճ");
  ("մ", "Մ"); ("յ", "Յ"); ("ն", "Ն"); ("շ", "Շ"); ("ո", "Ո");
  ("չ", "Չ"); ("պ", "Պ"); ("ջ", "Ջ"); ("ռ", "Ռ"); ("ս", "Ս");
  ("վ", "Վ"); ("տ", "Տ"); ("ր", "Ր"); ("ց", "Ց"); ("ւ", "Ւ");
  ("փ", "Փ"); ("ք", "Ք"); ("օ", "Օ"); ("ֆ", "Ֆ"); ("և", "ԵՒ");
  ("ა", "Ა"); ("ბ", "Ბ"); ("გ", "Გ"); ("დ", "Დ");
  ("ე", "Ე"); ("ვ", "Ვ"); ("ზ", "Ზ"); ("თ", "Თ");
  ("ი", "Ი"); ("კ", "Კ"); ("ლ", "Ლ"); ("მ", "Მ");
  ("ნ", "Ნ"); ("ო", "Ო"); ("პ", "Პ"); ("ჟ", "Ჟ");
  ("რ", "Რ"); ("ს", "Ს"); ("ტ", "Ტ"); ("უ", "Უ");
  ("ფ", "Ფ"); ("ქ", "Ქ"); ("ღ", "Ღ"); ("ყ", "Ყ");
  ("შ", "Შ"); ("ჩ", "Ჩ"); ("ც", "Ც"); ("ძ", "Ძ");
  ("წ", "Წ"); ("ჭ", "Ჭ"); ("ხ", "Ხ"); ("ჯ", "Ჯ");
  ("ჰ", "Ჰ"); ("ჱ", "Ჱ"); ("ჲ", "Ჲ"); ("ჳ", "Ჳ");
  ("ჴ", "Ჴ"); ("ჵ", "Ჵ"); ("ჶ", "Ჶ"); ("ჷ", "Ჷ");
  ("ჸ", "Ჸ"); ("ჹ", "Ჹ"); ("ჺ", "Ჺ"); ("ჽ", "Ჽ");
  ("ჾ", "Ჾ"); ("ჿ", "Ჿ"); ("ᏸ", "Ᏸ"); ("ᏹ", "Ᏹ");
  ("ᏺ", "Ᏺ"); ("ᏻ", "Ᏻ"); ("ᏼ", "Ᏼ"); ("ᏽ", "Ᏽ");
  ("ᲀ", "В"); ("ᲁ", "Д"); ("ᲂ", "О"); ("ᲃ", "С"); ("ᲄ", "Т");
  ("ᲅ", "Т"); ("ᲆ", "Ъ"); ("ᲇ", "Ѣ"); ("ᲈ", "Ꙋ"); ("ᵹ", "Ᵹ");
  ("ᵽ", "Ᵽ"); ("ᶎ", "Ᶎ"); ("ḁ", "Ḁ"); ("ḃ", "Ḃ");
  ("ḅ", "Ḅ"); ("ḇ", "Ḇ"); ("ḉ", "Ḉ"); ("ḋ", "Ḋ");
  ("ḍ", "Ḍ"); ("ḏ", "Ḏ"); ("ḑ", "Ḑ"); ("ḓ", "Ḓ");
  ("ḕ", "Ḕ"); ("ḗ", "Ḗ"); ("ḙ", "Ḙ"); ("ḛ", "Ḛ");
  ("ḝ", "Ḝ"); ("ḟ", "Ḟ"); ("ḡ", "Ḡ"); ("ḣ", "Ḣ");
  ("ḥ", "Ḥ"); ("ḧ", "Ḧ"); ("ḩ", "Ḩ"); ("ḫ", "Ḫ");
  ("ḭ", "Ḭ"); ("ḯ", "Ḯ"); ("ḱ", "Ḱ"); ("ḳ", "Ḳ");
  ("ḵ", "Ḵ"); ("ḷ", "Ḷ"); ("ḹ", "Ḹ"); ("ḻ", "Ḻ");
  ("ḽ", "Ḽ"); ("ḿ", "Ḿ"); ("ṁ", "Ṁ"); ("ṃ", "Ṃ");
  ("ṅ", "Ṅ"); ("ṇ", "Ṇ"); ("ṉ", "Ṉ"); ("ṋ", "Ṋ");
  ("ṍ", "Ṍ"); ("ṏ", "Ṏ"); ("ṑ", "Ṑ"); ("ṓ", "Ṓ");
  ("ṕ", "Ṕ"); ("ṗ", "Ṗ"); ("ṙ", "Ṙ"); ("ṛ", "Ṛ");
  ("ṝ", "Ṝ"); ("ṟ", "Ṟ"); ("ṡ", "Ṡ"); ("ṣ", "Ṣ");
  ("ṥ", "Ṥ"); ("ṧ", "Ṧ"); ("ṩ", "Ṩ"); ("ṫ", "Ṫ");
  ("ṭ", "Ṭ"); ("ṯ", "Ṯ"); ("ṱ", "Ṱ"); ("ṳ", "Ṳ");
  ("ṵ", "Ṵ"); ("ṷ", "Ṷ"); ("ṹ", "Ṹ"); ("ṻ", "Ṻ");
  ("ṽ", "Ṽ"); ("ṿ", "Ṿ"); ("ẁ", "Ẁ"); ("ẃ", "Ẃ");
  ("ẅ", "Ẅ"); ("ẇ", "Ẇ"); ("ẉ", "Ẉ"); ("ẋ", "Ẋ");
  ("ẍ", "Ẍ"); ("ẏ", "Ẏ"); ("ẑ", "Ẑ"); ("ẓ", "Ẓ");
  ("ẕ", "Ẕ"); ("ẖ", "H̱"); ("ẗ", "T̈"); ("ẘ", "W̊");
  ("ẙ", "Y̊"); ("ẚ", "Aʾ"); ("ẛ", "Ṡ"); ("ạ", "Ạ");
  ("ả", "Ả"); ("ấ", "Ấ"); ("ầ", "Ầ"); ("ẩ", "Ẩ");
  ("ẫ", "Ẫ"); ("ậ", "Ậ"); ("ắ", "Ắ"); ("ằ", "Ằ");
  ("ẳ", "Ẳ"); ("ẵ", "Ẵ"); ("ặ", "Ặ"); ("ẹ", "Ẹ");
  ("ẻ", "Ẻ"); ("ẽ", "Ẽ"); ("ế", "Ế"); ("ề", "Ề");
  ("ể", "Ể"); ("ễ", "Ễ"); ("ệ", "Ệ"); ("ỉ", "Ỉ");
  ("ị", "Ị"); ("ọ", "Ọ"); ("ỏ", "Ỏ"); ("ố", "Ố");
  ("ồ", "Ồ"); ("ổ", "Ổ"); ("ỗ", "Ỗ"); ("ộ", "Ộ");
  ("ớ", "Ớ"); ("ờ", "Ờ"); ("ở", "Ở"); ("ỡ", "Ỡ");
  ("ợ", "Ợ"); ("ụ", "Ụ"); ("ủ", "Ủ"); ("ứ", "Ứ");
  ("ừ", "Ừ"); ("ử", "Ử"); ("ữ", "Ữ"); ("ự", "Ự");
  ("ỳ", "Ỳ"); ("ỵ", "Ỵ"); ("ỷ", "Ỷ"); ("ỹ", "Ỹ");
  ("ỻ", "Ỻ"); ("ỽ", "Ỽ"); ("ỿ", "Ỿ"); ("ἀ", "Ἀ");
  ("ἁ", "Ἁ"); ("ἂ", "Ἂ"); ("ἃ", "Ἃ"); ("ἄ", "Ἄ");
  ("ἅ", "Ἅ"); ("ἆ", "Ἆ"); ("ἇ", "Ἇ"); ("ἐ", "Ἐ");
  ("ἑ", "Ἑ"); ("ἒ", "Ἒ"); ("ἓ", "Ἓ"); ("ἔ", "Ἔ");
  ("ἕ", "Ἕ"); ("ἠ", "Ἠ"); ("ἡ", "Ἡ"); ("ἢ", "Ἢ");
  ("ἣ", "Ἣ"); ("ἤ", "Ἤ"); ("ἥ", "Ἥ"); ("ἦ", "Ἦ");
  ("ἧ", "Ἧ"); ("ἰ", "Ἰ"); ("ἱ", "Ἱ"); ("ἲ", "Ἲ");
  ("ἳ", "Ἳ"); ("ἴ", "Ἴ"); ("ἵ", "Ἵ"); ("ἶ", "Ἶ");
  ("ἷ", "Ἷ"); ("ὀ", "Ὀ"); ("ὁ", "Ὁ"); ("ὂ", "Ὂ");
  ("ὃ", "Ὃ"); ("ὄ", "Ὄ"); ("ὅ", "Ὅ"); ("ὐ", "Υ̓");
  ("ὑ", "Ὑ"); ("ὒ", "Υ̓̀"); ("ὓ", "Ὓ"); ("ὔ", "Υ̓́");
  ("ὕ", "Ὕ"); ("ὖ", "Υ̓͂"); ("ὗ", "Ὗ"); ("ὠ", "Ὠ");
  ("ὡ", "Ὡ"); ("ὢ", "Ὢ"); ("ὣ", "Ὣ"); ("ὤ", "Ὤ");
  ("ὥ", "Ὥ"); ("ὦ", "Ὦ"); ("ὧ", "Ὧ"); ("ὰ", "Ὰ");
  ("ά", "Ά"); ("ὲ", "Ὲ"); ("έ", "Έ"); ("ὴ", "Ὴ");
  ("ή", "Ή"); ("ὶ", "Ὶ"); ("ί", "Ί"); ("ὸ", "Ὸ");
  ("ό", "Ό"); ("ὺ", "Ὺ"); ("ύ", "Ύ"); ("ὼ", "Ὼ");
  ("ώ", "Ώ"); ("ᾀ", "ἈΙ"); ("ᾁ", "ἉΙ"); ("ᾂ", "ἊΙ");
  ("ᾃ", "ἋΙ"); ("ᾄ", "ἌΙ"); ("ᾅ", "ἍΙ"); ("ᾆ", "ἎΙ");
  ("ᾇ", "ἏΙ"); ("ᾈ", "ἈΙ"); ("ᾉ", "ἉΙ"); ("ᾊ", "ἊΙ");
  ("ᾋ", "ἋΙ"); ("ᾌ", "ἌΙ"); ("ᾍ", "ἍΙ"); ("ᾎ", "ἎΙ");
  ("ᾏ", "ἏΙ"); ("ᾐ", "ἨΙ"); ("ᾑ", "ἩΙ"); ("ᾒ", "ἪΙ");
  ("ᾓ", "ἫΙ"); ("ᾔ", "ἬΙ"); ("ᾕ", "ἭΙ"); ("ᾖ", "ἮΙ");
  ("ᾗ", "ἯΙ"); ("ᾘ", "ἨΙ"); ("ᾙ", "ἩΙ"); ("ᾚ", "ἪΙ");
  ("ᾛ", "ἫΙ"); ("ᾜ", "ἬΙ"); ("ᾝ", "ἭΙ"); ("ᾞ", "ἮΙ");
  ("ᾟ", "ἯΙ"); ("ᾠ", "ὨΙ"); ("ᾡ", "ὩΙ"); ("ᾢ", "ὪΙ");
  ("ᾣ", "ὫΙ"); ("ᾤ", "ὬΙ"); ("ᾥ", "ὭΙ"); ("ᾦ", "ὮΙ");
  ("ᾧ", "ὯΙ"); ("ᾨ", "ὨΙ"); ("ᾩ", "ὩΙ"); ("ᾪ", "ὪΙ");
  ("ᾫ", "ὫΙ"); ("ᾬ", "ὬΙ"); ("ᾭ", "ὭΙ"); ("ᾮ", "ὮΙ");
  ("ᾯ", "ὯΙ"); ("ᾰ", "Ᾰ"); ("ᾱ", "Ᾱ"); ("ᾲ", "ᾺΙ");
  ("ᾳ", "ΑΙ"); ("ᾴ", "ΆΙ"); ("ᾶ", "Α͂"); ("ᾷ", "Α͂Ι");
  ("ᾼ", "ΑΙ"); ("ι", "Ι"); ("ῂ", "ῊΙ"); ("ῃ", "ΗΙ");
  ("ῄ", "ΉΙ"); ("ῆ", "Η͂"); ("ῇ", "Η͂Ι"); ("ῌ", "ΗΙ");
  ("ῐ", "Ῐ"); ("ῑ", "Ῑ"); ("ῒ", "Ϊ̀"); ("ΐ", "Ϊ́");
  ("ῖ", "Ι͂"); ("ῗ", "Ϊ͂"); ("ῠ", "Ῠ"); ("ῡ", "Ῡ");
  ("ῢ", "Ϋ̀"); ("ΰ", "Ϋ́"); ("ῤ", "Ρ̓"); ("ῥ", "Ῥ");
  ("ῦ", "Υ͂"); ("ῧ", "Ϋ͂"); ("ῲ", "ῺΙ"); ("ῳ", "ΩΙ");
  ("ῴ", "ΏΙ"); ("ῶ", "Ω͂"); ("ῷ", "Ω͂Ι"); ("ῼ", "ΩΙ");
  ("ⅎ", "Ⅎ"); ("ⅰ", "Ⅰ"); ("ⅱ", "Ⅱ"); ("ⅲ", "Ⅲ");
  ("ⅳ", "Ⅳ"); ("ⅴ", "Ⅴ"); ("ⅵ", "Ⅵ"); ("ⅶ", "Ⅶ");
  ("ⅷ", "Ⅷ"); ("ⅸ", "Ⅸ"); ("ⅹ", "Ⅹ"); ("ⅺ", "Ⅺ");
  ("ⅻ", "Ⅻ"); ("ⅼ", "Ⅼ"); ("ⅽ", "Ⅽ"); ("ⅾ", "Ⅾ");
  ("ⅿ", "Ⅿ"); ("ↄ", "Ↄ"); ("ⓐ", "Ⓐ"); ("ⓑ", "Ⓑ");
  ("ⓒ", "Ⓒ"); ("ⓓ", "Ⓓ"); ("ⓔ", "Ⓔ"); ("ⓕ", "Ⓕ");
  ("ⓖ", "Ⓖ"); ("ⓗ", "Ⓗ"); ("ⓘ", "Ⓘ"); ("ⓙ", "Ⓙ");
  ("ⓚ", "Ⓚ"); ("ⓛ", "Ⓛ"); ("ⓜ", "Ⓜ"); ("ⓝ", "Ⓝ");
  ("ⓞ", "Ⓞ"); ("ⓟ", "Ⓟ"); ("ⓠ", "Ⓠ"); ("ⓡ", "Ⓡ");
  ("ⓢ", "Ⓢ"); ("ⓣ", "Ⓣ"); ("ⓤ", "Ⓤ"); ("ⓥ", "Ⓥ");
  ("ⓦ", "Ⓦ"); ("ⓧ", "Ⓧ"); ("ⓨ", "Ⓨ"); ("ⓩ", "Ⓩ");
  ("ⰰ", "Ⰰ"); ("ⰱ", "Ⰱ"); ("ⰲ", "Ⰲ"); ("ⰳ", "Ⰳ");
  ("ⰴ", "Ⰴ"); ("ⰵ", "Ⰵ"); ("ⰶ", "Ⰶ"); ("ⰷ", "Ⰷ");
  ("ⰸ", "Ⰸ"); ("ⰹ", "Ⰹ"); ("ⰺ", "Ⰺ"); ("ⰻ", "Ⰻ");
  ("ⰼ", "Ⰼ"); ("ⰽ", "Ⰽ"); ("ⰾ", "Ⰾ"); ("ⰿ", "Ⰿ");
  ("ⱀ", "Ⱀ"); ("ⱁ", "Ⱁ"); ("ⱂ", "Ⱂ"); ("ⱃ", "Ⱃ");
  ("ⱄ", "Ⱄ"); ("ⱅ", "Ⱅ"); ("ⱆ", "Ⱆ"); ("ⱇ", "Ⱇ");
  ("ⱈ", "Ⱈ"); ("ⱉ", "Ⱉ"); ("ⱊ", "Ⱊ"); ("ⱋ", "Ⱋ");
  ("ⱌ", "Ⱌ"); ("ⱍ", "Ⱍ"); ("ⱎ", "Ⱎ"); ("ⱏ", "Ⱏ");
  ("ⱐ", "Ⱐ"); ("ⱑ", "Ⱑ"); ("ⱒ", "Ⱒ"); ("ⱓ", "Ⱓ");
  ("ⱔ", "Ⱔ"); ("ⱕ", "Ⱕ"); ("ⱖ", "Ⱖ"); ("ⱗ", "Ⱗ");
  ("ⱘ", "Ⱘ"); ("ⱙ", "Ⱙ"); ("ⱚ", "Ⱚ"); ("ⱛ", "Ⱛ");
  ("ⱜ", "Ⱜ"); ("ⱝ", "Ⱝ"); ("ⱞ", "Ⱞ"); ("ⱟ", "Ⱟ");
  ("ⱡ", "Ⱡ"); ("ⱥ", "Ⱥ"); ("ⱦ", "Ⱦ"); ("ⱨ", "Ⱨ");
  ("ⱪ", "Ⱪ"); ("ⱬ", "Ⱬ"); ("ⱳ", "Ⱳ"); ("ⱶ", "Ⱶ");
  ("ⲁ", "Ⲁ"); ("ⲃ", "Ⲃ"); ("ⲅ", "Ⲅ"); ("ⲇ", "Ⲇ");
  ("ⲉ", "Ⲉ"); ("ⲋ", "Ⲋ"); ("ⲍ", "Ⲍ"); ("ⲏ", "Ⲏ");
  ("ⲑ", "Ⲑ"); ("ⲓ", "Ⲓ"); ("ⲕ", "Ⲕ"); ("ⲗ", "Ⲗ");
  ("ⲙ", "Ⲙ"); ("ⲛ", "Ⲛ"); ("ⲝ", "Ⲝ"); ("ⲟ", "Ⲟ");
  ("ⲡ", "Ⲡ"); ("ⲣ", "Ⲣ"); ("ⲥ", "Ⲥ"); ("ⲧ", "Ⲧ");
  ("ⲩ", "Ⲩ"); ("ⲫ", "Ⲫ"); ("ⲭ", "Ⲭ"); ("ⲯ", "Ⲯ");
  ("ⲱ", "Ⲱ"); ("ⲳ", "Ⲳ"); ("ⲵ", "Ⲵ"); ("ⲷ", "Ⲷ");
  ("ⲹ", "Ⲹ"); ("ⲻ", "Ⲻ"); ("ⲽ", "Ⲽ"); ("ⲿ", "Ⲿ");
  ("ⳁ", "Ⳁ"); ("ⳃ", "Ⳃ"); ("ⳅ", "Ⳅ"); ("ⳇ", "Ⳇ");
  ("ⳉ", "Ⳉ"); ("ⳋ", "Ⳋ"); ("ⳍ", "Ⳍ"); ("ⳏ", "Ⳏ");
  ("ⳑ", "Ⳑ"); ("ⳓ", "Ⳓ"); ("ⳕ", "Ⳕ"); ("ⳗ", "Ⳗ");
  ("ⳙ", "Ⳙ"); ("ⳛ", "Ⳛ"); ("ⳝ", "Ⳝ"); ("ⳟ", "Ⳟ");
  ("ⳡ", "Ⳡ"); ("ⳣ", "Ⳣ"); ("ⳬ", "Ⳬ"); ("ⳮ", "Ⳮ");
  ("ⳳ", "Ⳳ"); ("ⴀ", "Ⴀ"); ("ⴁ", "Ⴁ"); ("ⴂ", "Ⴂ");
  ("ⴃ", "Ⴃ"); ("ⴄ", "Ⴄ"); ("ⴅ", "Ⴅ"); ("ⴆ", "Ⴆ");
  ("ⴇ", "Ⴇ"); ("ⴈ", "Ⴈ"); ("ⴉ", "Ⴉ"); ("ⴊ", "Ⴊ");
  ("ⴋ", "Ⴋ"); ("ⴌ", "Ⴌ"); ("ⴍ", "Ⴍ"); ("ⴎ", "Ⴎ");
  ("ⴏ", "Ⴏ"); ("ⴐ", "Ⴐ"); ("ⴑ", "Ⴑ"); ("ⴒ", "Ⴒ");
  ("ⴓ", "Ⴓ"); ("ⴔ", "Ⴔ"); ("ⴕ", "Ⴕ"); ("ⴖ", "Ⴖ");
  ("ⴗ", "Ⴗ"); ("ⴘ", "Ⴘ"); ("ⴙ", "Ⴙ"); ("ⴚ", "Ⴚ");
  ("ⴛ", "Ⴛ"); ("ⴜ", "Ⴜ"); ("ⴝ", "Ⴝ"); ("ⴞ", "Ⴞ");
  ("ⴟ", "Ⴟ"); ("ⴠ", "Ⴠ"); ("ⴡ", "Ⴡ"); ("ⴢ", "Ⴢ");
  ("ⴣ", "Ⴣ"); ("ⴤ", "Ⴤ"); ("ⴥ", "Ⴥ"); ("ⴧ", "Ⴧ");
  ("ⴭ", "Ⴭ"); ("ꙁ", "Ꙁ"); ("ꙃ", "Ꙃ"); ("ꙅ", "Ꙅ");
  ("ꙇ", "Ꙇ"); ("ꙉ", "Ꙉ"); ("ꙋ", "Ꙋ"); ("ꙍ", "Ꙍ");
  ("ꙏ", "Ꙏ"); ("ꙑ", "Ꙑ"); ("ꙓ", "Ꙓ"); ("ꙕ", "Ꙕ");
  ("ꙗ", "Ꙗ"); ("ꙙ", "Ꙙ"); ("ꙛ", "Ꙛ"); ("ꙝ", "Ꙝ");
  ("ꙟ", "Ꙟ"); ("ꙡ", "Ꙡ"); ("ꙣ", "Ꙣ"); ("ꙥ", "Ꙥ");
  ("ꙧ", "Ꙧ"); ("ꙩ", "Ꙩ"); ("ꙫ", "Ꙫ"); ("ꙭ", "Ꙭ");
  ("ꚁ", "Ꚁ"); ("ꚃ", "Ꚃ"); ("ꚅ", "Ꚅ"); ("ꚇ", "Ꚇ");
  ("ꚉ", "Ꚉ"); ("ꚋ", "Ꚋ"); ("ꚍ", "Ꚍ"); ("ꚏ", "Ꚏ");
  ("ꚑ", "Ꚑ"); ("ꚓ", "Ꚓ"); ("ꚕ", "Ꚕ"); ("ꚗ", "Ꚗ");
  ("ꚙ", "Ꚙ"); ("ꚛ", "Ꚛ"); ("ꜣ", "Ꜣ"); ("ꜥ", "Ꜥ");
  ("ꜧ", "Ꜧ"); ("ꜩ", "Ꜩ"); ("ꜫ", "Ꜫ"); ("ꜭ", "Ꜭ");
  ("ꜯ", "Ꜯ"); ("ꜳ", "Ꜳ"); ("ꜵ", "Ꜵ"); ("ꜷ", "Ꜷ");
  ("ꜹ", "Ꜹ"); ("ꜻ", "Ꜻ"); ("ꜽ", "Ꜽ"); ("ꜿ", "Ꜿ");
  ("ꝁ", "Ꝁ"); ("ꝃ", "Ꝃ"); ("ꝅ", "Ꝅ"); ("ꝇ", "Ꝇ");
  ("ꝉ", "Ꝉ"); ("ꝋ", "Ꝋ"); ("ꝍ", "Ꝍ"); ("ꝏ", "Ꝏ");
  ("ꝑ", "Ꝑ"); ("ꝓ", "Ꝓ"); ("ꝕ", "Ꝕ"); ("ꝗ", "Ꝗ");
  ("ꝙ", "Ꝙ"); ("ꝛ", "Ꝛ"); ("ꝝ", "Ꝝ"); ("ꝟ", "Ꝟ");
  ("ꝡ", "Ꝡ"); ("ꝣ", "Ꝣ"); ("ꝥ", "Ꝥ"); ("ꝧ", "Ꝧ");
  ("ꝩ", "Ꝩ"); ("ꝫ", "Ꝫ"); ("ꝭ", "Ꝭ"); ("ꝯ", "Ꝯ");
  ("ꝺ", "Ꝺ"); ("ꝼ", "Ꝼ"); ("ꝿ", "Ꝿ"); ("ꞁ", "Ꞁ");
  ("ꞃ", "Ꞃ"); ("ꞅ", "Ꞅ"); ("ꞇ", "Ꞇ"); ("ꞌ", "Ꞌ");
  ("ꞑ", "Ꞑ"); ("ꞓ", "Ꞓ"); ("ꞔ", "Ꞔ"); ("ꞗ", "Ꞗ");
  ("ꞙ", "Ꞙ"); ("ꞛ", "Ꞛ"); ("ꞝ", "Ꞝ"); ("ꞟ", "Ꞟ");
  ("ꞡ", "Ꞡ"); ("ꞣ", "Ꞣ"); ("ꞥ", "Ꞥ"); ("ꞧ", "Ꞧ");
  ("ꞩ", "Ꞩ"); ("ꞵ", "Ꞵ"); ("ꞷ", "Ꞷ"); ("ꞹ", "Ꞹ");
  ("ꞻ", "Ꞻ"); ("ꞽ", "Ꞽ"); ("ꞿ", "Ꞿ"); ("ꟁ", "Ꟁ");
  ("ꟃ", "Ꟃ"); ("ꟈ", "Ꟈ"); ("ꟊ", "Ꟊ"); ("ꟑ", "Ꟑ");
  ("ꟗ", "Ꟗ"); ("ꟙ", "Ꟙ"); ("ꟶ", "Ꟶ"); ("ꭓ", "Ꭓ");
  ("ꭰ", "Ꭰ"); ("ꭱ", "Ꭱ"); ("ꭲ", "Ꭲ"); ("ꭳ", "Ꭳ");
  ("ꭴ", "Ꭴ"); ("ꭵ", "Ꭵ"); ("ꭶ", "Ꭶ"); ("ꭷ", "Ꭷ");
  ("ꭸ", "Ꭸ"); ("ꭹ", "Ꭹ"); ("ꭺ", "Ꭺ"); ("ꭻ", "Ꭻ");
  ("ꭼ", "Ꭼ"); ("ꭽ", "Ꭽ"); ("ꭾ", "Ꭾ"); ("ꭿ", "Ꭿ");
  ("ꮀ", "Ꮀ"); ("ꮁ", "Ꮁ"); ("ꮂ", "Ꮂ"); ("ꮃ", "Ꮃ");
  ("ꮄ", "Ꮄ"); ("ꮅ", "Ꮅ"); ("ꮆ", "Ꮆ"); ("ꮇ", "Ꮇ");
  ("ꮈ", "Ꮈ"); ("ꮉ", "Ꮉ"); ("ꮊ", "Ꮊ"); ("ꮋ", "Ꮋ");
  ("ꮌ", "Ꮌ"); ("ꮍ", "Ꮍ"); ("ꮎ", "Ꮎ"); ("ꮏ", "Ꮏ");
  ("ꮐ", "Ꮐ"); ("ꮑ", "Ꮑ"); ("ꮒ", "Ꮒ"); ("ꮓ", "Ꮓ");
  ("ꮔ", "Ꮔ"); ("ꮕ", "Ꮕ"); ("ꮖ", "Ꮖ"); ("ꮗ", "Ꮗ");
  ("ꮘ", "Ꮘ"); ("ꮙ", "Ꮙ"); ("ꮚ", "Ꮚ"); ("ꮛ", "Ꮛ");
  ("ꮜ", "Ꮜ"); ("ꮝ", "Ꮝ"); ("ꮞ", "Ꮞ"); ("ꮟ", "Ꮟ");
  ("ꮠ", "Ꮠ"); ("ꮡ", "Ꮡ"); ("ꮢ", "Ꮢ"); ("ꮣ", "Ꮣ");
  ("ꮤ", "Ꮤ"); ("ꮥ", "Ꮥ"); ("ꮦ", "Ꮦ"); ("ꮧ", "Ꮧ");
  ("ꮨ", "Ꮨ"); ("ꮩ", "Ꮩ"); ("ꮪ", "Ꮪ"); ("ꮫ", "Ꮫ");
  ("ꮬ", "Ꮬ"); ("ꮭ", "Ꮭ"); ("ꮮ", "Ꮮ"); ("ꮯ", "Ꮯ");
  ("ꮰ", "Ꮰ"); ("ꮱ", "Ꮱ"); ("ꮲ", "Ꮲ"); ("ꮳ", "Ꮳ");
  ("ꮴ", "Ꮴ"); ("ꮵ", "Ꮵ"); ("ꮶ", "Ꮶ"); ("ꮷ", "Ꮷ");
  ("ꮸ", "Ꮸ"); ("ꮹ", "Ꮹ"); ("ꮺ", "Ꮺ"); ("ꮻ", "Ꮻ");
  ("ꮼ", "Ꮼ"); ("ꮽ", "Ꮽ"); ("ꮾ", "Ꮾ"); ("ꮿ", "Ꮿ");
  ("ﬀ", "FF"); ("ﬁ", "FI"); ("ﬂ", "FL"); ("ﬃ", "FFI"); ("ﬄ", "FFL");
  ("ﬅ", "ST"); ("ﬆ", "ST"); ("ﬓ", "ՄՆ"); ("ﬔ", "ՄԵ");
  ("ﬕ", "ՄԻ"); ("ﬖ", "ՎՆ"); ("ﬗ", "ՄԽ"); ("ａ", "Ａ");
  ("ｂ", "Ｂ"); ("ｃ", "Ｃ"); ("ｄ", "Ｄ"); ("ｅ", "Ｅ");
  ("ｆ", "Ｆ"); ("ｇ", "Ｇ"); ("ｈ", "Ｈ"); ("ｉ", "Ｉ");
  ("ｊ", "Ｊ"); ("ｋ", "Ｋ"); ("ｌ", "Ｌ"); ("ｍ", "Ｍ");
  ("ｎ", "Ｎ"); ("ｏ", "Ｏ"); ("ｐ", "Ｐ"); ("ｑ", "Ｑ");
  ("ｒ", "Ｒ"); ("ｓ", "Ｓ"); ("ｔ", "Ｔ"); ("ｕ", "Ｕ");
  ("ｖ", "Ｖ"); ("ｗ", "Ｗ"); ("ｘ", "Ｘ"); ("ｙ", "Ｙ");
  ("ｚ", "Ｚ"); ("𐐨", "𐐀"); ("𐐩", "𐐁"); ("𐐪", "𐐂");
  ("𐐫", "𐐃"); ("𐐬", "𐐄"); ("𐐭", "𐐅"); ("𐐮", "𐐆");
  ("𐐯", "𐐇"); ("𐐰", "𐐈"); ("𐐱", "𐐉"); ("𐐲", "𐐊");
  ("𐐳", "𐐋"); ("𐐴", "𐐌"); ("𐐵", "𐐍"); ("𐐶", "𐐎");
  ("𐐷", "𐐏"); ("𐐸", "𐐐"); ("𐐹", "𐐑"); ("𐐺", "𐐒");
  ("𐐻", "𐐓"); ("𐐼", "𐐔"); ("𐐽", "𐐕"); ("𐐾", "𐐖");
  ("𐐿", "𐐗"); ("𐑀", "𐐘"); ("𐑁", "𐐙"); ("𐑂", "𐐚");
  ("𐑃", "𐐛"); ("𐑄", "𐐜"); ("𐑅", "𐐝"); ("𐑆", "𐐞");
  ("𐑇", "𐐟"); ("𐑈", "𐐠"); ("𐑉", "𐐡"); ("𐑊", "𐐢");
  ("𐑋", "𐐣"); ("𐑌", "𐐤"); ("𐑍", "𐐥"); ("𐑎", "𐐦");
  ("𐑏", "𐐧"); ("𐓘", "𐒰"); ("𐓙", "𐒱"); ("𐓚", "𐒲");
  ("𐓛", "𐒳"); ("𐓜", "𐒴"); ("𐓝", "𐒵"); ("𐓞", "𐒶");
  ("𐓟", "𐒷"); ("𐓠", "𐒸"); ("𐓡", "𐒹"); ("𐓢", "𐒺");
  ("𐓣", "𐒻"); ("𐓤", "𐒼"); ("𐓥", "𐒽"); ("𐓦", "𐒾");
  ("𐓧", "𐒿"); ("𐓨", "𐓀"); ("𐓩", "𐓁"); ("𐓪", "𐓂");
  ("𐓫", "𐓃"); ("𐓬", "𐓄"); ("𐓭", "𐓅"); ("𐓮", "𐓆");
  ("𐓯", "𐓇"); ("𐓰", "𐓈"); ("𐓱", "𐓉"); ("𐓲", "𐓊");
  ("𐓳", "𐓋"); ("𐓴", "𐓌"); ("𐓵", "𐓍"); ("𐓶", "𐓎");
  ("𐓷", "𐓏"); ("𐓸", "𐓐"); ("𐓹", "𐓑"); ("𐓺", "𐓒");
  ("𐓻", "𐓓"); ("𐖗", "𐕰"); ("𐖘", "𐕱"); ("𐖙", "𐕲");
  ("𐖚", "𐕳"); ("𐖛", "𐕴"); ("𐖜", "𐕵"); ("𐖝", "𐕶");
  ("𐖞", "𐕷"); ("𐖟", "𐕸"); ("𐖠", "𐕹"); ("𐖡", "𐕺");
  ("𐖣", "𐕼"); ("𐖤", "𐕽"); ("𐖥", "𐕾"); ("𐖦", "𐕿");
  ("𐖧", "𐖀"); ("𐖨", "𐖁"); ("𐖩", "𐖂"); ("𐖪", "𐖃");
  ("𐖫", "𐖄"); ("𐖬", "𐖅"); ("𐖭", "𐖆"); ("𐖮", "𐖇");
  ("𐖯", "𐖈"); ("𐖰", "𐖉"); ("𐖱", "𐖊"); ("𐖳", "𐖌");
  ("𐖴", "𐖍"); ("𐖵", "𐖎"); ("𐖶", "𐖏"); ("𐖷", "𐖐");
  ("𐖸", "𐖑"); ("𐖹", "𐖒"); ("𐖻", "𐖔"); ("𐖼", "𐖕");
  ("𐳀", "𐲀"); ("𐳁", "𐲁"); ("𐳂", "𐲂"); ("𐳃", "𐲃");
  ("𐳄", "𐲄"); ("𐳅", "𐲅"); ("𐳆", "𐲆"); ("𐳇", "𐲇");
  ("𐳈", "𐲈"); ("𐳉", "𐲉"); ("𐳊", "𐲊"); ("𐳋", "𐲋");
  ("𐳌", "𐲌"); ("𐳍", "𐲍"); ("𐳎", "𐲎"); ("𐳏", "𐲏");
  ("𐳐", "𐲐"); ("𐳑", "𐲑"); ("𐳒", "𐲒"); ("𐳓", "𐲓");
  ("𐳔", "𐲔"); ("𐳕", "𐲕"); ("𐳖", "𐲖"); ("𐳗", "𐲗");
  ("𐳘", "𐲘"); ("𐳙", "𐲙"); ("𐳚", "𐲚"); ("𐳛", "𐲛");
  ("𐳜", "𐲜"); ("𐳝", "𐲝"); ("𐳞", "𐲞"); ("𐳟", "𐲟");
  ("𐳠", "𐲠"); ("𐳡", "𐲡"); ("𐳢", "𐲢"); ("𐳣", "𐲣");
  ("𐳤", "𐲤"); ("𐳥", "𐲥"); ("𐳦", "𐲦"); ("𐳧", "𐲧");
  ("𐳨", "𐲨"); ("𐳩", "𐲩"); ("𐳪", "𐲪"); ("𐳫", "𐲫");
  ("𐳬", "𐲬"); ("𐳭", "𐲭"); ("𐳮", "𐲮"); ("𐳯", "𐲯");
  ("𐳰", "𐲰"); ("𐳱", "𐲱"); ("𐳲", "𐲲"); ("𑣀", "𑢠");
  ("𑣁", "𑢡"); ("𑣂", "𑢢"); ("𑣃", "𑢣"); ("𑣄", "𑢤");
  ("𑣅", "𑢥"); ("𑣆", "𑢦"); ("𑣇", "𑢧"); ("𑣈", "𑢨");
  ("𑣉", "𑢩"); ("𑣊", "𑢪"); ("𑣋", "𑢫"); ("𑣌", "𑢬");
  ("𑣍", "𑢭"); ("𑣎", "𑢮"); ("𑣏", "𑢯"); ("𑣐", "𑢰");
  ("𑣑", "𑢱"); ("𑣒", "𑢲"); ("𑣓", "𑢳"); ("𑣔", "𑢴");
  ("𑣕", "𑢵"); ("𑣖", "𑢶"); ("𑣗", "𑢷"); ("𑣘", "𑢸");
  ("𑣙", "𑢹"); ("𑣚", "𑢺"); ("𑣛", "𑢻"); ("𑣜", "𑢼");
  ("𑣝", "𑢽"); ("𑣞", "𑢾"); ("𑣟", "𑢿"); ("𖹠", "𖹀");
  ("𖹡", "𖹁"); ("𖹢", "𖹂"); ("𖹣", "𖹃"); ("𖹤", "𖹄");
  ("𖹥", "𖹅"); ("𖹦", "𖹆"); ("𖹧", "𖹇"); ("𖹨", "𖹈");
  ("𖹩", "𖹉"); ("𖹪", "𖹊"); ("𖹫", "𖹋"); ("𖹬", "𖹌");
  ("𖹭", "𖹍"); ("𖹮", "𖹎"); ("𖹯", "𖹏"); ("𖹰", "𖹐");
  ("𖹱", "𖹑"); ("𖹲", "𖹒"); ("𖹳", "𖹓"); ("𖹴", "𖹔");
  ("𖹵", "𖹕"); ("𖹶", "𖹖"); ("𖹷", "𖹗"); ("𖹸", "𖹘");
  ("𖹹", "𖹙"); ("𖹺", "𖹚"); ("𖹻", "𖹛"); ("𖹼", "𖹜");
  ("𖹽", "𖹝"); ("𖹾", "𖹞"); ("𖹿", "𖹟"); ("𞤢", "𞤀");
  ("𞤣", "𞤁"); ("𞤤", "𞤂"); ("𞤥", "𞤃"); ("𞤦", "𞤄");
  ("𞤧", "𞤅"); ("𞤨", "𞤆"); ("𞤩", "𞤇"); ("𞤪", "𞤈");
  ("𞤫", "𞤉"); ("𞤬", "𞤊"); ("𞤭", "𞤋"); ("𞤮", "𞤌");
  ("𞤯", "𞤍"); ("𞤰", "𞤎"); ("𞤱", "𞤏"); ("𞤲", "𞤐");
  ("𞤳", "𞤑"); ("𞤴", "𞤒"); ("𞤵", "𞤓"); ("𞤶", "𞤔");
  ("𞤷", "𞤕"); ("𞤸", "𞤖"); ("𞤹", "𞤗"); ("𞤺", "𞤘");
  ("𞤻", "𞤙"); ("𞤼", "𞤚"); ("𞤽", "𞤛"); ("𞤾", "𞤜");
  ("𞤿", "𞤝"); ("𞥀", "𞤞"); ("𞥁", "𞤟"); ("𞥂", "𞤠");
  ("𞥃", "𞤡")
].

(** The lower case of every character other than the ASCII letters and the
    capital sigma that has one. *)
Definition LOWER_TABLE : list (string * string) := [
  ("À", "à"); ("Á", "á"); ("Â", "â"); ("Ã", "ã"); ("Ä", "ä");
  ("Å", "å"); ("Æ", "æ"); ("Ç", "ç"); ("È", "è"); ("É", "é");
  ("Ê", "ê"); ("Ë", "ë"); ("Ì", "ì"); ("Í", "í"); ("Î", "î");
  ("Ï", "ï"); ("Ð", "ð"); ("Ñ", "ñ"); ("Ò", "ò"); ("Ó", "ó");
  ("Ô", "ô"); ("Õ", "õ"); ("Ö", "ö"); ("Ø", "ø"); ("Ù", "ù");
  ("Ú", "ú"); ("Û", "û"); ("Ü", "ü"); ("Ý", "ý"); ("Þ", "þ");
  ("Ā", "ā"); ("Ă", "ă"); ("Ą", "ą"); ("Ć", "ć"); ("Ĉ", "ĉ");
  ("Ċ", "ċ"); ("Č", "č"); ("Ď", "ď"); ("Đ", "đ"); ("Ē", "ē");
  ("Ĕ", "ĕ"); ("Ė", "ė"); ("Ę", "ę"); ("Ě", "ě"); ("Ĝ", "ĝ");
  ("Ğ", "ğ"); ("Ġ", "ġ"); ("Ģ", "ģ"); ("Ĥ", "ĥ"); ("Ħ", "ħ");
  ("Ĩ", "ĩ"); ("Ī", "ī"); ("Ĭ", "ĭ"); ("Į", "į"); ("İ", "i̇");
  ("Ĳ", "ĳ"); ("Ĵ", "ĵ"); ("Ķ", "ķ"); ("Ĺ", "ĺ"); ("Ļ", "ļ");
  ("Ľ", "ľ"); ("Ŀ", "ŀ"); ("Ł", "ł"); ("Ń", "ń"); ("Ņ", "ņ");
  ("Ň", "ň"); ("Ŋ", "ŋ"); ("Ō", "ō"); ("Ŏ", "ŏ"); ("Ő", "ő");
  ("Œ", "œ"); ("Ŕ", "ŕ"); ("Ŗ", "ŗ"); ("Ř", "ř"); ("Ś", "ś");
  ("Ŝ", "ŝ"); ("Ş", "ş"); ("Š", "š"); ("Ţ", "ţ"); ("Ť", "ť");
  ("Ŧ", "ŧ"); ("Ũ", "ũ"); ("Ū", "ū"); ("Ŭ", "ŭ"); ("Ů", "ů");
  ("Ű", "ű"); ("Ų", "ų"); ("Ŵ", "ŵ"); ("Ŷ", "ŷ"); ("Ÿ", "ÿ");
  ("Ź", "ź"); ("Ż", "ż"); ("Ž", "ž"); ("Ɓ", "ɓ"); ("Ƃ", "ƃ");
  ("Ƅ", "ƅ"); ("Ɔ", "ɔ"); ("Ƈ", "ƈ"); ("Ɖ", "ɖ"); ("Ɗ", "ɗ");
  ("Ƌ", "ƌ"); ("Ǝ", "ǝ"); ("Ə", "ə"); ("Ɛ", "ɛ"); ("Ƒ", "ƒ");
  ("Ɠ", "ɠ"); ("Ɣ", "ɣ"); ("Ɩ", "ɩ"); ("Ɨ", "ɨ"); ("Ƙ", "ƙ");
  ("Ɯ", "ɯ"); ("Ɲ", "ɲ"); ("Ɵ", "ɵ"); ("Ơ", "ơ"); ("Ƣ", "ƣ");
  ("Ƥ", "ƥ"); ("Ʀ", "ʀ"); ("Ƨ", "ƨ"); ("Ʃ", "ʃ"); ("Ƭ", "ƭ");
  ("Ʈ", "ʈ"); ("Ư", "ư"); ("Ʊ", "ʊ"); ("Ʋ", "ʋ"); ("Ƴ", "ƴ");
  ("Ƶ", "ƶ"); ("Ʒ", "ʒ"); ("Ƹ", "ƹ"); ("Ƽ", "ƽ"); ("Ǆ", "ǆ");
  ("ǅ", "ǆ"); ("Ǉ", "ǉ"); ("ǈ", "ǉ"); ("Ǌ", "ǌ"); ("ǋ", "ǌ");
  ("Ǎ", "ǎ"); ("Ǐ", "ǐ"); ("Ǒ", "ǒ"); ("Ǔ", "ǔ"); ("Ǖ", "ǖ");
  ("Ǘ", "ǘ"); ("Ǚ", "ǚ"); ("Ǜ", "ǜ"); ("Ǟ", "ǟ"); ("Ǡ", "ǡ");
  ("Ǣ", "ǣ"); ("Ǥ", "ǥ"); ("Ǧ", "ǧ"); ("Ǩ", "ǩ"); ("Ǫ", "ǫ");
  ("Ǭ", "ǭ"); ("Ǯ", "ǯ"); ("Ǳ", "ǳ"); ("ǲ", "ǳ"); ("Ǵ", "ǵ");
  ("Ƕ", "ƕ"); ("Ƿ", "ƿ"); ("Ǹ", "ǹ"); ("Ǻ", "ǻ"); ("Ǽ", "ǽ");
  ("Ǿ", "ǿ"); ("Ȁ", "ȁ"); ("Ȃ", "ȃ"); ("Ȅ", "ȅ"); ("Ȇ", "ȇ");
  ("Ȉ", "ȉ"); ("Ȋ", "ȋ"); ("Ȍ", "ȍ"); ("Ȏ", "ȏ"); ("Ȑ", "ȑ");
  ("Ȓ", "ȓ"); ("Ȕ", "ȕ"); ("Ȗ", "ȗ"); ("Ș", "ș"); ("Ț", "ț");
  ("Ȝ", "ȝ"); ("Ȟ", "ȟ"); ("Ƞ", "ƞ"); ("Ȣ", "ȣ"); ("Ȥ", "ȥ");
  ("Ȧ", "ȧ"); ("Ȩ", "ȩ"); ("Ȫ", "ȫ"); ("Ȭ", "ȭ"); ("Ȯ", "ȯ");
  ("Ȱ", "ȱ"); ("Ȳ", "ȳ"); ("Ⱥ", "ⱥ"); ("Ȼ", "ȼ"); ("Ƚ", "ƚ");
  ("Ⱦ", "ⱦ"); ("Ɂ", "ɂ"); ("Ƀ", "ƀ"); ("Ʉ", "ʉ"); ("Ʌ", "ʌ");
  ("Ɇ", "ɇ"); ("Ɉ", "ɉ"); ("Ɋ", "ɋ"); ("Ɍ", "ɍ"); ("Ɏ", "ɏ");
  ("Ͱ", "ͱ"); ("Ͳ", "ͳ"); ("Ͷ", "ͷ"); ("Ϳ", "ϳ"); ("Ά", "ά");
  ("Έ", "έ"); ("Ή", "ή"); ("Ί", "ί"); ("Ό", "ό"); ("Ύ", "ύ");
  ("Ώ", "ώ"); ("Α", "α"); ("Β", "β"); ("Γ", "γ"); ("Δ", "δ");
  ("Ε", "ε"); ("Ζ", "ζ"); ("Η", "η"); ("Θ", "θ"); ("Ι", "ι");
  ("Κ", "κ"); ("Λ", "λ"); ("Μ", "μ"); ("Ν", "ν"); ("Ξ", "ξ");
  ("Ο", "ο"); ("Π", "π"); ("Ρ", "ρ"); ("Τ", "τ"); ("Υ", "υ");
  ("Φ", "φ"); ("Χ", "χ"); ("Ψ", "ψ"); ("Ω", "ω"); ("Ϊ", "ϊ");
  ("Ϋ", "ϋ"); ("Ϗ", "ϗ"); ("Ϙ", "ϙ"); ("Ϛ", "ϛ"); ("Ϝ", "ϝ");
  ("Ϟ", "ϟ"); ("Ϡ", "ϡ"); ("Ϣ", "ϣ"); ("Ϥ", "ϥ"); ("Ϧ", "ϧ");
  ("Ϩ", "ϩ"); ("Ϫ", "ϫ"); ("Ϭ", "ϭ"); ("Ϯ", "ϯ"); ("ϴ", "θ");
  ("Ϸ", "ϸ"); ("Ϲ", "ϲ"); ("Ϻ", "ϻ"); ("Ͻ", "ͻ"); ("Ͼ", "ͼ");
  ("Ͽ", "ͽ"); ("Ѐ", "ѐ"); ("Ё", "ё"); ("Ђ", "ђ"); ("Ѓ", "ѓ");
  ("Є", "є"); ("Ѕ", "ѕ"); ("І", "і"); ("Ї", "ї"); ("Ј", "ј");
  ("Љ", "љ"); ("Њ", "њ"); ("Ћ", "ћ"); ("Ќ", "ќ"); ("Ѝ", "ѝ");
  ("Ў", "ў"); ("Џ", "џ"); ("А", "а"); ("Б", "б"); ("В", "в");
  ("Г", "г"); ("Д", "д"); ("Е", "е"); ("Ж", "ж"); ("З", "з");
  ("И", "и"); ("Й", "й"); ("К", "к"); ("Л", "л"); ("М", "м");
  ("Н", "н"); ("О", "о"); ("П", "п"); ("Р", "р"); ("С", "с");
  ("Т", "т"); ("У", "у"); ("Ф", "ф"); ("Х", "х"); ("Ц", "ц");
  ("Ч", "ч"); ("Ш", "ш"); ("Щ", "щ"); ("Ъ", "ъ"); ("Ы", "ы");
  ("Ь", "ь"); ("Э", "э"); ("Ю", "ю"); ("Я", "я"); ("Ѡ", "ѡ");
  ("Ѣ", "ѣ"); ("Ѥ", "ѥ"); ("Ѧ", "ѧ"); ("Ѩ", "ѩ"); ("Ѫ", "ѫ");
  ("Ѭ", "ѭ"); ("Ѯ", "ѯ"); ("Ѱ", "ѱ"); ("Ѳ", "ѳ"); ("Ѵ", "ѵ");
  ("Ѷ", "ѷ"); ("Ѹ", "ѹ"); ("Ѻ", "ѻ"); ("Ѽ", "ѽ"); ("Ѿ", "ѿ");
  ("Ҁ", "ҁ"); ("Ҋ", "ҋ"); ("Ҍ", "ҍ"); ("Ҏ", "ҏ"); ("Ґ", "ґ");
  ("Ғ", "ғ"); ("Ҕ", "ҕ"); ("Җ", "җ"); ("Ҙ", "ҙ"); ("Қ", "қ");
  ("Ҝ", "ҝ"); ("Ҟ", "ҟ"); ("Ҡ", "ҡ"); ("Ң", "ң"); ("Ҥ", "ҥ");
  ("Ҧ", "ҧ"); ("Ҩ", "ҩ"); ("Ҫ", "ҫ"); ("Ҭ", "ҭ"); ("Ү", "ү");
  ("Ұ", "ұ"); ("Ҳ", "ҳ"); ("Ҵ", "ҵ"); ("Ҷ", "ҷ"); ("Ҹ", "ҹ");
  ("Һ", "һ"); ("Ҽ", "ҽ"); ("Ҿ", "ҿ"); ("Ӏ", "ӏ"); ("Ӂ", "ӂ");
  ("Ӄ", "ӄ"); ("Ӆ", "ӆ"); ("Ӈ", "ӈ"); ("Ӊ", "ӊ"); ("Ӌ", "ӌ");
  ("Ӎ", "ӎ"); ("Ӑ", "ӑ"); ("Ӓ", "ӓ"); ("Ӕ", "ӕ"); ("Ӗ", "ӗ");
  ("Ә", "ә"); ("Ӛ", "ӛ"); ("Ӝ", "ӝ"); ("Ӟ", "ӟ"); ("Ӡ", "ӡ");
  ("Ӣ", "ӣ"); ("Ӥ", "ӥ"); ("Ӧ", "ӧ"); ("Ө", "ө"); ("Ӫ", "ӫ");
  ("Ӭ", "ӭ"); ("Ӯ", "ӯ"); ("Ӱ", "ӱ"); ("Ӳ", "ӳ"); ("Ӵ", "ӵ");
  ("Ӷ", "ӷ"); ("Ӹ", "ӹ"); ("Ӻ", "ӻ"); ("Ӽ", "ӽ"); ("Ӿ", "ӿ");
  ("Ԁ", "ԁ"); ("Ԃ", "ԃ"); ("Ԅ", "ԅ"); ("Ԇ", "ԇ"); ("Ԉ", "ԉ");
  ("Ԋ", "ԋ"); ("Ԍ", "ԍ"); ("Ԏ", "ԏ"); ("Ԑ", "ԑ"); ("Ԓ", "ԓ");
  ("Ԕ", "ԕ"); ("Ԗ", "ԗ"); ("Ԙ", "ԙ"); ("Ԛ", "ԛ"); ("Ԝ", "ԝ");
  ("Ԟ", "ԟ"); ("Ԡ", "ԡ"); ("Ԣ", "ԣ"); ("Ԥ", "ԥ"); ("Ԧ", "ԧ");
  ("Ԩ", "ԩ"); ("Ԫ", "ԫ"); ("Ԭ", "ԭ"); ("Ԯ", "ԯ"); ("Ա", "ա");
  ("Բ", "բ"); ("Գ", "գ"); ("Դ", "դ"); ("Ե", "ե"); ("Զ", "զ");
  ("Է", "է"); ("Ը", "ը"); ("Թ", "թ"); ("Ժ", "ժ"); ("Ի", "ի");
  ("Լ", "լ"); ("Խ", "խ"); ("Ծ", "ծ"); ("Կ", "կ"); ("Հ", "հ");
  ("Ձ", "ձ"); ("Ղ", "ղ"); ("Ճ", "ճ"); ("Մ", "մ"); ("Յ", "յ");
  ("Ն", "ն"); ("Շ", "շ"); ("Ո", "ո"); ("Չ", "չ"); ("Պ", "պ");
  ("Ջ", "ջ"); ("Ռ", "ռ"); ("Ս", "ս"); ("Վ", "վ"); ("Տ", "տ");
  ("Ր", "ր"); ("Ց", "ց"); ("Ւ", "ւ"); ("Փ", "փ"); ("Ք", "ք");
  ("Օ", "օ"); ("Ֆ", "ֆ"); ("Ⴀ", "ⴀ"); ("Ⴁ", "ⴁ"); ("Ⴂ", "ⴂ");
  ("Ⴃ", "ⴃ"); ("Ⴄ", "ⴄ"); ("Ⴅ", "ⴅ"); ("Ⴆ", "ⴆ");
  ("Ⴇ", "ⴇ"); ("Ⴈ", "ⴈ"); ("Ⴉ", "ⴉ"); ("Ⴊ", "ⴊ");
  ("Ⴋ", "ⴋ"); ("Ⴌ", "ⴌ"); ("Ⴍ", "ⴍ"); ("Ⴎ", "ⴎ");
  ("Ⴏ", "ⴏ"); ("Ⴐ", "ⴐ"); ("Ⴑ", "ⴑ"); ("Ⴒ", "ⴒ");
  ("Ⴓ", "ⴓ"); ("Ⴔ", "ⴔ"); ("Ⴕ", "ⴕ"); ("Ⴖ", "ⴖ");
  ("Ⴗ", "ⴗ"); ("Ⴘ", "ⴘ"); ("Ⴙ", "ⴙ"); ("Ⴚ", "ⴚ");
  ("Ⴛ", "ⴛ"); ("Ⴜ", "ⴜ"); ("Ⴝ", "ⴝ"); ("Ⴞ", "ⴞ");
  ("Ⴟ", "ⴟ"); ("Ⴠ", "ⴠ"); ("Ⴡ", "ⴡ"); ("Ⴢ", "ⴢ");
  ("Ⴣ", "ⴣ"); ("Ⴤ", "ⴤ"); ("Ⴥ", "ⴥ"); ("Ⴧ", "ⴧ");
  ("Ⴭ", "ⴭ"); ("Ꭰ", "ꭰ"); ("Ꭱ", "ꭱ"); ("Ꭲ", "ꭲ");
  ("Ꭳ", "ꭳ"); ("Ꭴ", "ꭴ"); ("Ꭵ", "ꭵ"); ("Ꭶ", "ꭶ");
  ("Ꭷ", "ꭷ"); ("Ꭸ", "ꭸ"); ("Ꭹ", "ꭹ"); ("Ꭺ", "ꭺ");
  ("Ꭻ", "ꭻ"); ("Ꭼ", "ꭼ"); ("Ꭽ", "ꭽ"); ("Ꭾ", "ꭾ");
  ("Ꭿ", "ꭿ"); ("Ꮀ", "ꮀ"); ("Ꮁ", "ꮁ"); ("Ꮂ", "ꮂ");
  ("Ꮃ", "ꮃ"); ("Ꮄ", "ꮄ"); ("Ꮅ", "ꮅ"); ("Ꮆ", "ꮆ");
  ("Ꮇ", "ꮇ"); ("Ꮈ", "ꮈ"); ("Ꮉ", "ꮉ"); ("Ꮊ", "ꮊ");
  ("Ꮋ", "ꮋ"); ("Ꮌ", "ꮌ"); ("Ꮍ", "ꮍ"); ("Ꮎ", "ꮎ");
  ("Ꮏ", "ꮏ"); ("Ꮐ", "ꮐ"); ("Ꮑ", "ꮑ"); ("Ꮒ", "ꮒ");
  ("Ꮓ", "ꮓ"); ("Ꮔ", "ꮔ"); ("Ꮕ", "ꮕ"); ("Ꮖ", "ꮖ");
  ("Ꮗ", "ꮗ"); ("Ꮘ", "ꮘ"); ("Ꮙ", "ꮙ"); ("Ꮚ", "ꮚ");
  ("Ꮛ", "ꮛ"); ("Ꮜ", "ꮜ"); ("Ꮝ", "ꮝ"); ("Ꮞ", "ꮞ");
  ("Ꮟ", "ꮟ"); ("Ꮠ", "ꮠ"); ("Ꮡ", "ꮡ"); ("Ꮢ", "ꮢ");
  ("Ꮣ", "ꮣ"); ("Ꮤ", "ꮤ"); ("Ꮥ", "ꮥ"); ("Ꮦ", "ꮦ");
  ("Ꮧ", "ꮧ"); ("Ꮨ", "ꮨ"); ("Ꮩ", "ꮩ"); ("Ꮪ", "ꮪ");
  ("Ꮫ", "ꮫ"); ("Ꮬ", "ꮬ"); ("Ꮭ", "ꮭ"); ("Ꮮ", "ꮮ");
  ("Ꮯ", "ꮯ"); ("Ꮰ", "ꮰ"); ("Ꮱ", "ꮱ"); ("Ꮲ", "ꮲ");
  ("Ꮳ", "ꮳ"); ("Ꮴ", "ꮴ"); ("Ꮵ", "ꮵ"); ("Ꮶ", "ꮶ");
  ("Ꮷ", "ꮷ"); ("Ꮸ", "ꮸ"); ("Ꮹ", "ꮹ"); ("Ꮺ", "ꮺ");
  ("Ꮻ", "ꮻ"); ("Ꮼ", "ꮼ"); ("Ꮽ", "ꮽ"); ("Ꮾ", "ꮾ");
  ("Ꮿ", "ꮿ"); ("Ᏸ", "ᏸ"); ("Ᏹ", "ᏹ"); ("Ᏺ", "ᏺ");
  ("Ᏻ", "ᏻ"); ("Ᏼ", "ᏼ"); ("Ᏽ", "ᏽ"); ("Ა", "ა");
  ("Ბ", "ბ"); ("Გ", "გ"); ("Დ", "დ"); ("Ე", "ე");
  ("Ვ", "ვ"); ("Ზ", "ზ"); ("Თ", "თ"); ("Ი", "ი");
  ("Კ", "კ"); ("Ლ", "ლ"); ("Მ", "მ"); ("Ნ", "ნ");
  ("Ო", "ო"); ("Პ", "პ"); ("Ჟ", "ჟ"); ("Რ", "რ");
  ("Ს", "ს"); ("Ტ", "ტ"); ("Უ", "უ"); ("Ფ", "ფ");
  ("Ქ", "ქ"); ("Ღ", "ღ"); ("Ყ", "ყ"); ("Შ", "შ");
  ("Ჩ", "ჩ"); ("Ც", "ც"); ("Ძ", "ძ"); ("Წ", "წ");
  ("Ჭ", "ჭ"); ("Ხ", "ხ"); ("Ჯ", "ჯ"); ("Ჰ", "ჰ");
  ("Ჱ", "ჱ"); ("Ჲ", "ჲ"); ("Ჳ", "ჳ"); ("Ჴ", "ჴ");
  ("Ჵ", "ჵ"); ("Ჶ", "ჶ"); ("Ჷ", "ჷ"); ("Ჸ", "ჸ");
  ("Ჹ", "ჹ"); ("Ჺ", "ჺ"); ("Ჽ", "ჽ"); ("Ჾ", "ჾ");
  ("Ჿ", "ჿ"); ("Ḁ", "ḁ"); ("Ḃ", "ḃ"); ("Ḅ", "ḅ");
  ("Ḇ", "ḇ"); ("Ḉ", "ḉ"); ("Ḋ", "ḋ"); ("Ḍ", "ḍ");
  ("Ḏ", "ḏ"); ("Ḑ", "ḑ"); ("Ḓ", "ḓ"); ("Ḕ", "ḕ");
  ("Ḗ", "ḗ"); ("Ḙ", "ḙ"); ("Ḛ", "ḛ"); ("Ḝ", "ḝ");
  ("Ḟ", "ḟ"); ("Ḡ", "ḡ"); ("Ḣ", "ḣ"); ("Ḥ", "ḥ");
  ("Ḧ", "ḧ"); ("Ḩ", "ḩ"); ("Ḫ", "ḫ"); ("Ḭ", "ḭ");
  ("Ḯ", "ḯ"); ("Ḱ", "ḱ"); ("Ḳ", "ḳ"); ("Ḵ", "ḵ");
  ("Ḷ", "ḷ"); ("Ḹ", "ḹ"); ("Ḻ", "ḻ"); ("Ḽ", "ḽ");
  ("Ḿ", "ḿ"); ("Ṁ", "ṁ"); ("Ṃ", "ṃ"); ("Ṅ", "ṅ");
  ("Ṇ", "ṇ"); ("Ṉ", "ṉ"); ("Ṋ", "ṋ"); ("Ṍ", "ṍ");
  ("Ṏ", "ṏ"); ("Ṑ", "ṑ"); ("Ṓ", "ṓ"); ("Ṕ", "ṕ");
  ("Ṗ", "ṗ"); ("Ṙ", "ṙ"); ("Ṛ", "ṛ"); ("Ṝ", "ṝ");
  ("Ṟ", "ṟ"); ("Ṡ", "ṡ"); ("Ṣ", "ṣ"); ("Ṥ", "ṥ");
  ("Ṧ", "ṧ"); ("Ṩ", "ṩ"); ("Ṫ", "ṫ"); ("Ṭ", "ṭ");
  ("Ṯ", "ṯ"); ("Ṱ", "ṱ"); ("Ṳ", "ṳ"); ("Ṵ", "ṵ");
  ("Ṷ", "ṷ"); ("Ṹ", "ṹ"); ("Ṻ", "ṻ"); ("Ṽ", "ṽ");
  ("Ṿ", "ṿ"); ("Ẁ", "ẁ"); ("Ẃ", "ẃ"); ("Ẅ", "ẅ");
  ("Ẇ", "ẇ"); ("Ẉ", "ẉ"); ("Ẋ", "ẋ"); ("Ẍ", "ẍ");
  ("Ẏ", "ẏ"); ("Ẑ", "ẑ"); ("Ẓ", "ẓ"); ("Ẕ", "ẕ");
  ("ẞ", "ß"); ("Ạ", "ạ"); ("Ả", "ả"); ("Ấ", "ấ");
  ("Ầ", "ầ"); ("Ẩ", "ẩ"); ("Ẫ", "ẫ"); ("Ậ", "ậ");
  ("Ắ", "ắ"); ("Ằ", "ằ"); ("Ẳ", "ẳ"); ("Ẵ", "ẵ");
  ("Ặ", "ặ"); ("Ẹ", "ẹ"); ("Ẻ", "ẻ"); ("Ẽ", "ẽ");
  ("Ế", "ế"); ("Ề", "ề"); ("Ể", "ể"); ("Ễ", "ễ");
  ("Ệ", "ệ"); ("Ỉ", "ỉ"); ("Ị", "ị"); ("Ọ", "ọ");
  ("Ỏ", "ỏ"); ("Ố", "ố"); ("Ồ", "ồ"); ("Ổ", "ổ");
  ("Ỗ", "ỗ"); ("Ộ", "ộ"); ("Ớ", "ớ"); ("Ờ", "ờ");
  ("Ở", "ở"); ("Ỡ", "ỡ"); ("Ợ", "ợ"); ("Ụ", "ụ");
  ("Ủ", "ủ"); ("Ứ", "ứ"); ("Ừ", "ừ"); ("Ử", "ử");
  ("Ữ", "ữ"); ("Ự", "ự"); ("Ỳ", "ỳ"); ("Ỵ", "ỵ");
  ("Ỷ", "ỷ"); ("Ỹ", "ỹ"); ("Ỻ", "ỻ"); ("Ỽ", "ỽ");
  ("Ỿ", "ỿ"); ("Ἀ", "ἀ"); ("Ἁ", "ἁ"); ("Ἂ", "ἂ");
  ("Ἃ", "ἃ"); ("Ἄ", "ἄ"); ("Ἅ", "ἅ"); ("Ἆ", "ἆ");
  ("Ἇ", "ἇ"); ("Ἐ", "ἐ"); ("Ἑ", "ἑ"); ("Ἒ", "ἒ");
  ("Ἓ", "ἓ"); ("Ἔ", "ἔ"); ("Ἕ", "ἕ"); ("Ἠ", "ἠ");
  ("Ἡ", "ἡ"); ("Ἢ", "ἢ"); ("Ἣ", "ἣ"); ("Ἤ", "ἤ");
  ("Ἥ", "ἥ"); ("Ἦ", "ἦ"); ("Ἧ", "ἧ"); ("Ἰ", "ἰ");
  ("Ἱ", "ἱ"); ("Ἲ", "ἲ"); ("Ἳ", "ἳ"); ("Ἴ", "ἴ");
  ("Ἵ", "ἵ"); ("Ἶ", "ἶ"); ("Ἷ", "ἷ"); ("Ὀ", "ὀ");
  ("Ὁ", "ὁ"); ("Ὂ", "ὂ"); ("Ὃ", "ὃ"); ("Ὄ", "ὄ");
  ("Ὅ", "ὅ"); ("Ὑ", "ὑ"); ("Ὓ", "ὓ"); ("Ὕ", "ὕ");
  ("Ὗ", "ὗ"); ("Ὠ", "ὠ"); ("Ὡ", "ὡ"); ("Ὢ", "ὢ");
  ("Ὣ", "ὣ"); ("Ὤ", "ὤ"); ("Ὥ", "ὥ"); ("Ὦ", "ὦ");
  ("Ὧ", "ὧ"); ("ᾈ", "ᾀ"); ("ᾉ", "ᾁ"); ("ᾊ", "ᾂ");
  ("ᾋ", "ᾃ"); ("ᾌ", "ᾄ"); ("ᾍ", "ᾅ"); ("ᾎ", "ᾆ");
  ("ᾏ", "ᾇ"); ("ᾘ", "ᾐ"); ("ᾙ", "ᾑ"); ("ᾚ", "ᾒ");
  ("ᾛ", "ᾓ"); ("ᾜ", "ᾔ"); ("ᾝ", "ᾕ"); ("ᾞ", "ᾖ");
  ("ᾟ", "ᾗ"); ("ᾨ", "ᾠ"); ("ᾩ", "ᾡ"); ("ᾪ", "ᾢ");
  ("ᾫ", "ᾣ"); ("ᾬ", "ᾤ"); ("ᾭ", "ᾥ"); ("ᾮ", "ᾦ");
  ("ᾯ", "ᾧ"); ("Ᾰ", "ᾰ"); ("Ᾱ", "ᾱ"); ("Ὰ", "ὰ");
  ("Ά", "ά"); ("ᾼ", "ᾳ"); ("Ὲ", "ὲ"); ("Έ", "έ");
  ("Ὴ", "ὴ"); ("Ή", "ή"); ("ῌ", "ῃ"); ("Ῐ", "ῐ");
  ("Ῑ", "ῑ"); ("Ὶ", "ὶ"); ("Ί", "ί"); ("Ῠ", "ῠ");
  ("Ῡ", "ῡ"); ("Ὺ", "ὺ"); ("Ύ", "ύ"); ("Ῥ", "ῥ");
  ("Ὸ", "ὸ"); ("Ό", "ό"); ("Ὼ", "ὼ"); ("Ώ", "ώ");
  ("ῼ", "ῳ"); ("Ω", "ω"); ("K", "k"); ("Å", "å"); ("Ⅎ", "ⅎ");
  ("Ⅰ", "ⅰ"); ("Ⅱ", "ⅱ"); ("Ⅲ", "ⅲ"); ("Ⅳ", "ⅳ");
  ("Ⅴ", "ⅴ"); ("Ⅵ", "ⅵ"); ("Ⅶ", "ⅶ"); ("Ⅷ", "ⅷ");
  ("Ⅸ", "ⅸ"); ("Ⅹ", "ⅹ"); ("Ⅺ", "ⅺ"); ("Ⅻ", "ⅻ");
  ("Ⅼ", "ⅼ"); ("Ⅽ", "ⅽ"); ("Ⅾ", "ⅾ"); ("Ⅿ", "ⅿ");
  ("Ↄ", "ↄ"); ("Ⓐ", "ⓐ"); ("Ⓑ", "ⓑ"); ("Ⓒ", "ⓒ");
  ("Ⓓ", "ⓓ"); ("Ⓔ", "ⓔ"); ("Ⓕ", "ⓕ"); ("Ⓖ", "ⓖ");
  ("Ⓗ", "ⓗ"); ("Ⓘ", "ⓘ"); ("Ⓙ", "ⓙ"); ("Ⓚ", "ⓚ");
  ("Ⓛ", "ⓛ"); ("Ⓜ", "ⓜ"); ("Ⓝ", "ⓝ"); ("Ⓞ", "ⓞ");
  ("Ⓟ", "ⓟ"); ("Ⓠ", "ⓠ"); ("Ⓡ", "ⓡ"); ("Ⓢ", "ⓢ");
  ("Ⓣ", "ⓣ"); ("Ⓤ", "ⓤ"); ("Ⓥ", "ⓥ"); ("Ⓦ", "ⓦ");
  ("Ⓧ", "ⓧ"); ("Ⓨ", "ⓨ"); ("Ⓩ", "ⓩ"); ("Ⰰ", "ⰰ");
  ("Ⰱ", "ⰱ"); ("Ⰲ", "ⰲ"); ("Ⰳ", "ⰳ"); ("Ⰴ", "ⰴ");
  ("Ⰵ", "ⰵ"); ("Ⰶ", "ⰶ"); ("Ⰷ", "ⰷ"); ("Ⰸ", "ⰸ");
  ("Ⰹ", "ⰹ"); ("Ⰺ", "ⰺ"); ("Ⰻ", "ⰻ"); ("Ⰼ", "ⰼ");
  ("Ⰽ", "ⰽ"); ("Ⰾ", "ⰾ"); ("Ⰿ", "ⰿ"); ("Ⱀ", "ⱀ");
  ("Ⱁ", "ⱁ"); ("Ⱂ", "ⱂ"); ("Ⱃ", "ⱃ"); ("Ⱄ", "ⱄ");
  ("Ⱅ", "ⱅ"); ("Ⱆ", "ⱆ"); ("Ⱇ", "ⱇ"); ("Ⱈ", "ⱈ");
  ("Ⱉ", "ⱉ"); ("Ⱊ", "ⱊ"); ("Ⱋ", "ⱋ"); ("Ⱌ", "ⱌ");
  ("Ⱍ", "ⱍ"); ("Ⱎ", "ⱎ"); ("Ⱏ", "ⱏ"); ("Ⱐ", "ⱐ");
  ("Ⱑ", "ⱑ"); ("Ⱒ", "ⱒ"); ("Ⱓ", "ⱓ"); ("Ⱔ", "ⱔ");
  ("Ⱕ", "ⱕ"); ("Ⱖ", "ⱖ"); ("Ⱗ", "ⱗ"); ("Ⱘ", "ⱘ");
  ("Ⱙ", "ⱙ"); ("Ⱚ", "ⱚ"); ("Ⱛ", "ⱛ"); ("Ⱜ", "ⱜ");
  ("Ⱝ", "ⱝ"); ("Ⱞ", "ⱞ"); ("Ⱟ", "ⱟ"); ("Ⱡ", "ⱡ");
  ("Ɫ", "ɫ"); ("Ᵽ", "ᵽ"); ("Ɽ", "ɽ"); ("Ⱨ", "ⱨ");
  ("Ⱪ", "ⱪ"); ("Ⱬ", "ⱬ"); ("Ɑ", "ɑ"); ("Ɱ", "ɱ"); ("Ɐ", "ɐ");
  ("Ɒ", "ɒ"); ("Ⱳ", "ⱳ"); ("Ⱶ", "ⱶ"); ("Ȿ", "ȿ"); ("Ɀ", "ɀ");
  ("Ⲁ", "ⲁ"); ("Ⲃ", "ⲃ"); ("Ⲅ", "ⲅ"); ("Ⲇ", "ⲇ");
  ("Ⲉ", "ⲉ"); ("Ⲋ", "ⲋ"); ("Ⲍ", "ⲍ"); ("Ⲏ", "ⲏ");
  ("Ⲑ", "ⲑ"); ("Ⲓ", "ⲓ"); ("Ⲕ", "ⲕ"); ("Ⲗ", "ⲗ");
  ("Ⲙ", "ⲙ"); ("Ⲛ", "ⲛ"); ("Ⲝ", "ⲝ"); ("Ⲟ", "ⲟ");
  ("Ⲡ", "ⲡ"); ("Ⲣ", "ⲣ"); ("Ⲥ", "ⲥ"); ("Ⲧ", "ⲧ");
  ("Ⲩ", "ⲩ"); ("Ⲫ", "ⲫ"); ("Ⲭ", "ⲭ"); ("Ⲯ", "ⲯ");
  ("Ⲱ", "ⲱ"); ("Ⲳ", "ⲳ"); ("Ⲵ", "ⲵ"); ("Ⲷ", "ⲷ");
  ("Ⲹ", "ⲹ"); ("Ⲻ", "ⲻ"); ("Ⲽ", "ⲽ"); ("Ⲿ", "ⲿ");
  ("Ⳁ", "ⳁ"); ("Ⳃ", "ⳃ"); ("Ⳅ", "ⳅ"); ("Ⳇ", "ⳇ");
  ("Ⳉ", "ⳉ"); ("Ⳋ", "ⳋ"); ("Ⳍ", "ⳍ"); ("Ⳏ", "ⳏ");
  ("Ⳑ", "ⳑ"); ("Ⳓ", "ⳓ"); ("Ⳕ", "ⳕ"); ("Ⳗ", "ⳗ");
  ("Ⳙ", "ⳙ"); ("Ⳛ", "ⳛ"); ("Ⳝ", "ⳝ"); ("Ⳟ", "ⳟ");
  ("Ⳡ", "ⳡ"); ("Ⳣ", "ⳣ"); ("Ⳬ", "ⳬ"); ("Ⳮ", "ⳮ");
  ("Ⳳ", "ⳳ"); ("Ꙁ", "ꙁ"); ("Ꙃ", "ꙃ"); ("Ꙅ", "ꙅ");
  ("Ꙇ", "ꙇ"); ("Ꙉ", "ꙉ"); ("Ꙋ", "ꙋ"); ("Ꙍ", "ꙍ");
  ("Ꙏ", "ꙏ"); ("Ꙑ", "ꙑ"); ("Ꙓ", "ꙓ"); ("Ꙕ", "ꙕ");
  ("Ꙗ", "ꙗ"); ("Ꙙ", "ꙙ"); ("Ꙛ", "ꙛ"); ("Ꙝ", "ꙝ");
  ("Ꙟ", "ꙟ"); ("Ꙡ", "ꙡ"); ("Ꙣ", "ꙣ"); ("Ꙥ", "ꙥ");
  ("Ꙧ", "ꙧ"); ("Ꙩ", "ꙩ"); ("Ꙫ", "ꙫ"); ("Ꙭ", "ꙭ");
  ("Ꚁ", "ꚁ"); ("Ꚃ", "ꚃ"); ("Ꚅ", "ꚅ"); ("Ꚇ", "ꚇ");
  ("Ꚉ", "ꚉ"); ("Ꚋ", "ꚋ"); ("Ꚍ", "ꚍ"); ("Ꚏ", "ꚏ");
  ("Ꚑ", "ꚑ"); ("Ꚓ", "ꚓ"); ("Ꚕ", "ꚕ"); ("Ꚗ", "ꚗ");
  ("Ꚙ", "ꚙ"); ("Ꚛ", "ꚛ"); ("Ꜣ", "ꜣ"); ("Ꜥ", "ꜥ");
  ("Ꜧ", "ꜧ"); ("Ꜩ", "ꜩ"); ("Ꜫ", "ꜫ"); ("Ꜭ", "ꜭ");
  ("Ꜯ", "ꜯ"); ("Ꜳ", "ꜳ"); ("Ꜵ", "ꜵ"); ("Ꜷ", "ꜷ");
  ("Ꜹ", "ꜹ"); ("Ꜻ", "ꜻ"); ("Ꜽ", "ꜽ"); ("Ꜿ", "ꜿ");
  ("Ꝁ", "ꝁ"); ("Ꝃ", "ꝃ"); ("Ꝅ", "ꝅ"); ("Ꝇ", "ꝇ");
  ("Ꝉ", "ꝉ"); ("Ꝋ", "ꝋ"); ("Ꝍ", "ꝍ"); ("Ꝏ", "ꝏ");
  ("Ꝑ", "ꝑ"); ("Ꝓ", "ꝓ"); ("Ꝕ", "ꝕ"); ("Ꝗ", "ꝗ");
  ("Ꝙ", "ꝙ"); ("Ꝛ", "ꝛ"); ("Ꝝ", "ꝝ"); ("Ꝟ", "ꝟ");
  ("Ꝡ", "ꝡ"); ("Ꝣ", "ꝣ"); ("Ꝥ", "ꝥ"); ("Ꝧ", "ꝧ");
  ("Ꝩ", "ꝩ"); ("Ꝫ", "ꝫ"); ("Ꝭ", "ꝭ"); ("Ꝯ", "ꝯ");
  ("Ꝺ", "ꝺ"); ("Ꝼ", "ꝼ"); ("Ᵹ", "ᵹ"); ("Ꝿ", "ꝿ");
  ("Ꞁ", "ꞁ"); ("Ꞃ", "ꞃ"); ("Ꞅ", "ꞅ"); ("Ꞇ", "ꞇ");
  ("Ꞌ", "ꞌ"); ("Ɥ", "ɥ"); ("Ꞑ", "ꞑ"); ("Ꞓ", "ꞓ");
  ("Ꞗ", "ꞗ"); ("Ꞙ", "ꞙ"); ("Ꞛ", "ꞛ"); ("Ꞝ", "ꞝ");
  ("Ꞟ", "ꞟ"); ("Ꞡ", "ꞡ"); ("Ꞣ", "ꞣ"); ("Ꞥ", "ꞥ");
  ("Ꞧ", "ꞧ"); ("Ꞩ", "ꞩ"); ("Ɦ", "ɦ"); ("Ɜ", "ɜ"); ("Ɡ", "ɡ");
  ("Ɬ", "ɬ"); ("Ɪ", "ɪ"); ("Ʞ", "ʞ"); ("Ʇ", "ʇ"); ("Ʝ", "ʝ");
  ("Ꭓ", "ꭓ"); ("Ꞵ", "ꞵ"); ("Ꞷ", "ꞷ"); ("Ꞹ", "ꞹ");
  ("Ꞻ", "ꞻ"); ("Ꞽ", "ꞽ"); ("Ꞿ", "ꞿ"); ("Ꟁ", "ꟁ");
  ("Ꟃ", "ꟃ"); ("Ꞔ", "ꞔ"); ("Ʂ", "ʂ"); ("Ᶎ", "ᶎ");
  ("Ꟈ", "ꟈ"); ("Ꟊ", "ꟊ"); ("Ꟑ", "ꟑ"); ("Ꟗ", "ꟗ");
  ("Ꟙ", "ꟙ"); ("Ꟶ", "ꟶ"); ("Ａ", "ａ"); ("Ｂ", "ｂ");
  ("Ｃ", "ｃ"); ("Ｄ", "ｄ"); ("Ｅ", "ｅ"); ("Ｆ", "ｆ");
  ("Ｇ", "ｇ"); ("Ｈ", "ｈ"); ("Ｉ", "ｉ"); ("Ｊ", "ｊ");
  ("Ｋ", "ｋ"); ("Ｌ", "ｌ"); ("Ｍ", "ｍ"); ("Ｎ", "ｎ");
  ("Ｏ", "ｏ"); ("Ｐ", "ｐ"); ("Ｑ", "ｑ"); ("Ｒ", "ｒ");
  ("Ｓ", "ｓ"); ("Ｔ", "ｔ"); ("Ｕ", "ｕ"); ("Ｖ", "ｖ");
  ("Ｗ", "ｗ"); ("Ｘ", "ｘ"); ("Ｙ", "ｙ"); ("Ｚ", "ｚ");
  ("𐐀", "𐐨"); ("𐐁", "𐐩"); ("𐐂", "𐐪"); ("𐐃", "𐐫");
  ("𐐄", "𐐬"); ("𐐅", "𐐭"); ("𐐆", "𐐮"); ("𐐇", "𐐯");
  ("𐐈", "𐐰"); ("𐐉", "𐐱"); ("𐐊", "𐐲"); ("𐐋", "𐐳");
  ("𐐌", "𐐴"); ("𐐍", "𐐵"); ("𐐎", "𐐶"); ("𐐏", "𐐷");
  ("𐐐", "𐐸"); ("𐐑", "𐐹"); ("𐐒", "𐐺"); ("𐐓", "𐐻");
  ("𐐔", "𐐼"); ("𐐕", "𐐽"); ("𐐖", "𐐾"); ("𐐗", "𐐿");
  ("𐐘", "𐑀"); ("𐐙", "𐑁"); ("𐐚", "𐑂"); ("𐐛", "𐑃");
  ("𐐜", "𐑄"); ("𐐝", "𐑅"); ("𐐞", "𐑆"); ("𐐟", "𐑇");
  ("𐐠", "𐑈"); ("𐐡", "𐑉"); ("𐐢", "𐑊"); ("𐐣", "𐑋");
  ("𐐤", "𐑌"); ("𐐥", "𐑍"); ("𐐦", "𐑎"); ("𐐧", "𐑏");
  ("𐒰", "𐓘"); ("𐒱", "𐓙"); ("𐒲", "𐓚"); ("𐒳", "𐓛");
  ("𐒴", "𐓜"); ("𐒵", "𐓝"); ("𐒶", "𐓞"); ("𐒷", "𐓟");
  ("𐒸", "𐓠"); ("𐒹", "𐓡"); ("𐒺", "𐓢"); ("𐒻", "𐓣");
  ("𐒼", "𐓤"); ("𐒽", "𐓥"); ("𐒾", "𐓦"); ("𐒿", "𐓧");
  ("𐓀", "𐓨"); ("𐓁", "𐓩"); ("𐓂", "𐓪"); ("𐓃", "𐓫");
  ("𐓄", "𐓬"); ("𐓅", "𐓭"); ("𐓆", "𐓮"); ("𐓇", "𐓯");
  ("𐓈", "𐓰"); ("𐓉", "𐓱"); ("𐓊", "𐓲"); ("𐓋", "𐓳");
  ("𐓌", "𐓴"); ("𐓍", "𐓵"); ("𐓎", "𐓶"); ("𐓏", "𐓷");
  ("𐓐", "𐓸"); ("𐓑", "𐓹"); ("𐓒", "𐓺"); ("𐓓", "𐓻");
  ("𐕰", "𐖗"); ("𐕱", "𐖘"); ("𐕲", "𐖙"); ("𐕳", "𐖚");
  ("𐕴", "𐖛"); ("𐕵", "𐖜"); ("𐕶", "𐖝"); ("𐕷", "𐖞");
  ("𐕸", "𐖟"); ("𐕹", "𐖠"); ("𐕺", "𐖡"); ("𐕼", "𐖣");
  ("𐕽", "𐖤"); ("𐕾", "𐖥"); ("𐕿", "𐖦"); ("𐖀", "𐖧");
  ("𐖁", "𐖨"); ("𐖂", "𐖩"); ("𐖃", "𐖪"); ("𐖄", "𐖫");
  ("𐖅", "𐖬"); ("𐖆", "𐖭"); ("𐖇", "𐖮"); ("𐖈", "𐖯");
  ("𐖉", "𐖰"); ("𐖊", "𐖱"); ("𐖌", "𐖳"); ("𐖍", "𐖴");
  ("𐖎", "𐖵"); ("𐖏", "𐖶"); ("𐖐", "𐖷"); ("𐖑", "𐖸");
  ("𐖒", "𐖹"); ("𐖔", "𐖻"); ("𐖕", "𐖼"); ("𐲀", "𐳀");
  ("𐲁", "𐳁"); ("𐲂", "𐳂"); ("𐲃", "𐳃"); ("𐲄", "𐳄");
  ("𐲅", "𐳅"); ("𐲆", "𐳆"); ("𐲇", "𐳇"); ("𐲈", "𐳈");
  ("𐲉", "𐳉"); ("𐲊", "𐳊"); ("𐲋", "𐳋"); ("𐲌", "𐳌");
  ("𐲍", "𐳍"); ("𐲎", "𐳎"); ("𐲏", "𐳏"); ("𐲐", "𐳐");
  ("𐲑", "𐳑"); ("𐲒", "𐳒"); ("𐲓", "𐳓"); ("𐲔", "𐳔");
  ("𐲕", "𐳕"); ("𐲖", "𐳖"); ("𐲗", "𐳗"); ("𐲘", "𐳘");
  ("𐲙", "𐳙"); ("𐲚", "𐳚"); ("𐲛", "𐳛"); ("𐲜", "𐳜");
  ("𐲝", "𐳝"); ("𐲞", "𐳞"); ("𐲟", "𐳟"); ("𐲠", "𐳠");
  ("𐲡", "𐳡"); ("𐲢", "𐳢"); ("𐲣", "𐳣"); ("𐲤", "𐳤");
  ("𐲥", "𐳥"); ("𐲦", "𐳦"); ("𐲧", "𐳧"); ("𐲨", "𐳨");
  ("𐲩", "𐳩"); ("𐲪", "𐳪"); ("𐲫", "𐳫"); ("𐲬", "𐳬");
  ("𐲭", "𐳭"); ("𐲮", "𐳮"); ("𐲯", "𐳯"); ("𐲰", "𐳰");
  ("𐲱", "𐳱"); ("𐲲", "𐳲"); ("𑢠", "𑣀"); ("𑢡", "𑣁");
  ("𑢢", "𑣂"); ("𑢣", "𑣃"); ("𑢤", "𑣄"); ("𑢥", "𑣅");
  ("𑢦", "𑣆"); ("𑢧", "𑣇"); ("𑢨", "𑣈"); ("𑢩", "𑣉");
  ("𑢪", "𑣊"); ("𑢫", "𑣋"); ("𑢬", "𑣌"); ("𑢭", "𑣍");
  ("𑢮", "𑣎"); ("𑢯", "𑣏"); ("𑢰", "𑣐"); ("𑢱", "𑣑");
  ("𑢲", "𑣒"); ("𑢳", "𑣓"); ("𑢴", "𑣔"); ("𑢵", "𑣕");
  ("𑢶", "𑣖"); ("𑢷", "𑣗"); ("𑢸", "𑣘"); ("𑢹", "𑣙");
  ("𑢺", "𑣚"); ("𑢻", "𑣛"); ("𑢼", "𑣜"); ("𑢽", "𑣝");
  ("𑢾", "𑣞"); ("𑢿", "𑣟"); ("𖹀", "𖹠"); ("𖹁", "𖹡");
  ("𖹂", "𖹢"); ("𖹃", "𖹣"); ("𖹄", "𖹤"); ("𖹅", "𖹥");
  ("𖹆", "𖹦"); ("𖹇", "𖹧"); ("𖹈", "𖹨"); ("𖹉", "𖹩");
  ("𖹊", "𖹪"); ("𖹋", "𖹫"); ("𖹌", "𖹬"); ("𖹍", "𖹭");
  ("𖹎", "𖹮"); ("𖹏", "𖹯"); ("𖹐", "𖹰"); ("𖹑", "𖹱");
  ("𖹒", "𖹲"); ("𖹓", "𖹳"); ("𖹔", "𖹴"); ("𖹕", "𖹵");
  ("𖹖", "𖹶"); ("𖹗", "𖹷"); ("𖹘", "𖹸"); ("𖹙", "𖹹");
  ("𖹚", "𖹺"); ("𖹛", "𖹻"); ("𖹜", "𖹼"); ("𖹝", "𖹽");
  ("𖹞", "𖹾"); ("𖹟", "𖹿"); ("𞤀", "𞤢"); ("𞤁", "𞤣");
  ("𞤂", "𞤤"); ("𞤃", "𞤥"); ("𞤄", "𞤦"); ("𞤅", "𞤧");
  ("𞤆", "𞤨"); ("𞤇", "𞤩"); ("𞤈", "𞤪"); ("𞤉", "𞤫");
  ("𞤊", "𞤬"); ("𞤋", "𞤭"); ("𞤌", "𞤮"); ("𞤍", "𞤯");
  ("𞤎", "𞤰"); ("𞤏", "𞤱"); ("𞤐", "𞤲"); ("𞤑", "𞤳");
  ("𞤒", "𞤴"); ("𞤓", "𞤵"); ("𞤔", "𞤶"); ("𞤕", "𞤷");
  ("𞤖", "𞤸"); ("𞤗", "𞤹"); ("𞤘", "𞤺"); ("𞤙", "𞤻");
  ("𞤚", "𞤼"); ("𞤛", "𞤽"); ("𞤜", "𞤾"); ("𞤝", "𞤿");
  ("𞤞", "𞥀"); ("𞤟", "𞥁"); ("𞤠", "𞥂"); ("𞤡", "𞥃")
].

(** The cased characters that are not case-ignorable, as ranges. *)
Definition CASED : list (string * string) := [
  ("A", "Z"); ("a", "z"); ("ª", "ª"); ("µ", "µ"); ("º", "º");
  ("À", "Ö"); ("Ø", "ö"); ("ø", "ƺ"); ("Ƽ", "ƿ"); ("Ǆ", "ʓ");
  ("ʕ", "ʯ"); ("Ͱ", "ͳ"); ("Ͷ", "ͷ"); ("ͻ", "ͽ"); ("Ϳ", "Ϳ");
  ("Ά", "Ά"); ("Έ", "Ί"); ("Ό", "Ό"); ("Ύ", "Ρ"); ("Σ", "ϵ");
  ("Ϸ", "ҁ"); ("Ҋ", "ԯ"); ("Ա", "Ֆ"); ("ՠ", "ֈ"); ("Ⴀ", "Ⴥ");
  ("Ⴧ", "Ⴧ"); ("Ⴭ", "Ⴭ"); ("ა", "ჺ"); ("ჽ", "ჿ");
  ("Ꭰ", "Ᏽ"); ("ᏸ", "ᏽ"); ("ᲀ", "ᲈ"); ("Ა", "Ჺ");
  ("Ჽ", "Ჿ"); ("ᴀ", "ᴫ"); ("ᵫ", "ᵷ"); ("ᵹ", "ᶚ");
  ("Ḁ", "ἕ"); ("Ἐ", "Ἕ"); ("ἠ", "ὅ"); ("Ὀ", "Ὅ");
  ("ὐ", "ὗ"); ("Ὑ", "Ὑ"); ("Ὓ", "Ὓ"); ("Ὕ", "Ὕ");
  ("Ὗ", "ώ"); ("ᾀ", "ᾴ"); ("ᾶ", "ᾼ"); ("ι", "ι");
  ("ῂ", "ῄ"); ("ῆ", "ῌ"); ("ῐ", "ΐ"); ("ῖ", "Ί");
  ("ῠ", "Ῥ"); ("ῲ", "ῴ"); ("ῶ", "ῼ"); ("ℂ", "ℂ");
  ("ℇ", "ℇ"); ("ℊ", "ℓ"); ("ℕ", "ℕ"); ("ℙ", "ℝ");
  ("ℤ", "ℤ"); ("Ω", "Ω"); ("ℨ", "ℨ"); ("K", "ℭ");
  ("ℯ", "ℴ"); ("ℹ", "ℹ"); ("ℼ", "ℿ"); ("ⅅ", "ⅉ");
  ("ⅎ", "ⅎ"); ("Ⅰ", "ⅿ"); ("Ↄ", "ↄ"); ("Ⓐ", "ⓩ");
  ("Ⰰ", "ⱻ"); ("Ȿ", "ⳤ"); ("Ⳬ", "ⳮ"); ("Ⳳ", "ⳳ");
  ("ⴀ", "ⴥ"); ("ⴧ", "ⴧ"); ("ⴭ", "ⴭ"); ("Ꙁ", "ꙭ");
  ("Ꚁ", "ꚛ"); ("Ꜣ", "ꝯ"); ("ꝱ", "ꞇ"); ("Ꞌ", "ꞎ");
  ("Ꞑ", "ꟊ"); ("Ꟑ", "ꟑ"); ("ꟓ", "ꟓ"); ("ꟕ", "ꟙ");
  ("Ꟶ", "ꟶ"); ("ꟺ", "ꟺ"); ("ꬰ", "ꭚ"); ("ꭠ", "ꭨ");
  ("ꭰ", "ꮿ"); ("ﬀ", "ﬆ"); ("ﬓ", "ﬗ"); ("Ａ", "Ｚ");
  ("ａ", "ｚ"); ("𐐀", "𐑏"); ("𐒰", "𐓓"); ("𐓘", "𐓻");
  ("𐕰", "𐕺"); ("𐕼", "𐖊"); ("𐖌", "𐖒"); ("𐖔", "𐖕");
  ("𐖗", "𐖡"); ("𐖣", "𐖱"); ("𐖳", "𐖹"); ("𐖻", "𐖼");
  ("𐲀", "𐲲"); ("𐳀", "𐳲"); ("𑢠", "𑣟"); ("𖹀", "𖹿");
  ("𝐀", "𝑔"); ("𝑖", "𝒜"); ("𝒞", "𝒟"); ("𝒢", "𝒢");
  ("𝒥", "𝒦"); ("𝒩", "𝒬"); ("𝒮", "𝒹"); ("𝒻", "𝒻");
  ("𝒽", "𝓃"); ("𝓅", "𝔅"); ("𝔇", "𝔊"); ("𝔍", "𝔔");
  ("𝔖", "𝔜"); ("𝔞", "𝔹"); ("𝔻", "𝔾"); ("𝕀", "𝕄");
  ("𝕆", "𝕆"); ("𝕊", "𝕐"); ("𝕒", "𝚥"); ("𝚨", "𝛀");
  ("𝛂", "𝛚"); ("𝛜", "𝛺"); ("𝛼", "𝜔"); ("𝜖", "𝜴");
  ("𝜶", "𝝎"); ("𝝐", "𝝮"); ("𝝰", "𝞈"); ("𝞊", "𝞨");
  ("𝞪", "𝟂"); ("𝟄", "𝟋"); ("𝼀", "𝼉"); ("𝼋", "𝼞");
  ("𞤀", "𞥃"); ("🄰", "🅉"); ("🅐", "🅩"); ("🅰", "🆉")
].

(** The case-ignorable characters, as ranges. *)
Definition CASE_IGNORABLE : list (string * string) := [
  ("'", "'"); (".", "."); (":", ":"); ("^", "^"); ("`", "`"); ("¨", "¨");
  ("­", "­"); ("¯", "¯"); ("´", "´"); ("·", "¸"); ("ʰ", "ͯ");
  ("ʹ", "͵"); ("ͺ", "ͺ"); ("΄", "΅"); ("·", "·"); ("҃", "҉");
  ("ՙ", "ՙ"); ("՟", "՟"); ("֑", "ֽ"); ("ֿ", "ֿ"); ("ׁ", "ׂ");
  ("ׄ", "ׅ"); ("ׇ", "ׇ"); ("״", "״"); ("؀", "؅"); ("ؐ", "ؚ");
  ("؜", "؜"); ("ـ", "ـ"); ("ً", "ٟ"); ("ٰ", "ٰ"); ("ۖ", "۝");
  ("۟", "ۨ"); ("۪", "ۭ"); ("܏", "܏"); ("ܑ", "ܑ"); ("ܰ", "݊");
  ("ަ", "ް"); ("߫", "ߵ"); ("ߺ", "ߺ"); ("߽", "߽"); ("ࠖ", "࠭");
  ("࡙", "࡛"); ("࢈", "࢈"); ("࢐", "࢑"); ("࢘", "࢟");
  ("ࣉ", "ं"); ("ऺ", "ऺ"); ("़", "़"); ("ु", "ै");
  ("्", "्"); ("॑", "ॗ"); ("ॢ", "ॣ"); ("ॱ", "ॱ");
  ("ঁ", "ঁ"); ("়", "়"); ("ু", "ৄ"); ("্", "্");
  ("ৢ", "ৣ"); ("৾", "৾"); ("ਁ", "ਂ"); ("਼", "਼");
  ("ੁ", "ੂ"); ("ੇ", "ੈ"); ("ੋ", "੍"); ("ੑ", "ੑ");
  ("ੰ", "ੱ"); ("ੵ", "ੵ"); ("ઁ", "ં"); ("઼", "઼");
  ("ુ", "ૅ"); ("ે", "ૈ"); ("્", "્"); ("ૢ", "ૣ");
  ("ૺ", "૿"); ("ଁ", "ଁ"); ("଼", "଼"); ("ି", "ି");
  ("ୁ", "ୄ"); ("୍", "୍"); ("୕", "ୖ"); ("ୢ", "ୣ");
  ("ஂ", "ஂ"); ("ீ", "ீ"); ("்", "்"); ("ఀ", "ఀ");
  ("ఄ", "ఄ"); ("఼", "఼"); ("ా", "ీ"); ("ె", "ై");
  ("ొ", "్"); ("ౕ", "ౖ"); ("ౢ", "ౣ"); ("ಁ", "ಁ");
  ("಼", "಼"); ("ಿ", "ಿ"); ("ೆ", "ೆ"); ("ೌ", "್");
  ("ೢ", "ೣ"); ("ഀ", "ഁ"); ("഻", "഼"); ("ു", "ൄ");
  ("്", "്"); ("ൢ", "ൣ"); ("ඁ", "ඁ"); ("්", "්");
  ("ි", "ු"); ("ූ", "ූ"); ("ั", "ั"); ("ิ", "ฺ");
  ("ๆ", "๎"); ("ັ", "ັ"); ("ິ", "ຼ"); ("ໆ", "ໆ");
  ("່", "ໍ"); ("༘", "༙"); ("༵", "༵"); ("༷", "༷");
  ("༹", "༹"); ("ཱ", "ཾ"); ("ྀ", "྄"); ("྆", "྇");
  ("ྍ", "ྗ"); ("ྙ", "ྼ"); ("࿆", "࿆"); ("ိ", "ူ");
  ("ဲ", "့"); ("္", "်"); ("ွ", "ှ"); ("ၘ", "ၙ");
  ("ၞ", "ၠ"); ("ၱ", "ၴ"); ("ႂ", "ႂ"); ("ႅ", "ႆ");
  ("ႍ", "ႍ"); ("ႝ", "ႝ"); ("ჼ", "ჼ"); ("፝", "፟");
  ("ᜒ", "᜔"); ("ᜲ", "ᜳ"); ("ᝒ", "ᝓ"); ("ᝲ", "ᝳ");
  ("឴", "឵"); ("ិ", "ួ"); ("ំ", "ំ"); ("៉", "៓");
  ("ៗ", "ៗ"); ("៝", "៝"); ("᠋", "᠏"); ("ᡃ", "ᡃ");
  ("ᢅ", "ᢆ"); ("ᢩ", "ᢩ"); ("ᤠ", "ᤢ"); ("ᤧ", "ᤨ");
  ("ᤲ", "ᤲ"); ("᤹", "᤻"); ("ᨗ", "ᨘ"); ("ᨛ", "ᨛ");
  ("ᩖ", "ᩖ"); ("ᩘ", "ᩞ"); ("᩠", "᩠"); ("ᩢ", "ᩢ");
  ("ᩥ", "ᩬ"); ("ᩳ", "᩼"); ("᩿", "᩿"); ("ᪧ", "ᪧ");
  ("᪰", "ᫎ"); ("ᬀ", "ᬃ"); ("᬴", "᬴"); ("ᬶ", "ᬺ");
  ("ᬼ", "ᬼ"); ("ᭂ", "ᭂ"); ("᭫", "᭳"); ("ᮀ", "ᮁ");
  ("ᮢ", "ᮥ"); ("ᮨ", "ᮩ"); ("᮫", "ᮭ"); ("᯦", "᯦");
  ("ᯨ", "ᯩ"); ("ᯭ", "ᯭ"); ("ᯯ", "ᯱ"); ("ᰬ", "ᰳ");
  ("ᰶ", "᰷"); ("ᱸ", "ᱽ"); ("᳐", "᳒"); ("᳔", "᳠");
  ("᳢", "᳨"); ("᳭", "᳭"); ("᳴", "᳴"); ("᳸", "᳹");
  ("ᴬ", "ᵪ"); ("ᵸ", "ᵸ"); ("ᶛ", "᷿"); ("᾽", "᾽");
  ("᾿", "῁"); ("῍", "῏"); ("῝", "῟"); ("῭", "`");
  ("´", "῾"); ("​", "‏"); ("‘", "’"); ("․", "․");
  ("‧", "‧"); ("‪", "‮"); ("⁠", "⁤"); ("⁦", "⁯");
  ("ⁱ", "ⁱ"); ("ⁿ", "ⁿ"); ("ₐ", "ₜ"); ("⃐", "⃰");
  ("ⱼ", "ⱽ"); ("⳯", "⳱"); ("ⵯ", "ⵯ"); ("⵿", "⵿");
  ("ⷠ", "ⷿ"); ("ⸯ", "ⸯ"); ("々", "々"); ("〪", "〭");
  ("〱", "〵"); ("〻", "〻"); ("゙", "ゞ"); ("ー", "ヾ");
  ("ꀕ", "ꀕ"); ("ꓸ", "ꓽ"); ("ꘌ", "ꘌ"); ("꙯", "꙲");
  ("ꙴ", "꙽"); ("ꙿ", "ꙿ"); ("ꚜ", "ꚟ"); ("꛰", "꛱");
  ("꜀", "꜡"); ("ꝰ", "ꝰ"); ("ꞈ", "꞊"); ("ꟲ", "ꟴ");
  ("ꟸ", "ꟹ"); ("ꠂ", "ꠂ"); ("꠆", "꠆"); ("ꠋ", "ꠋ");
  ("ꠥ", "ꠦ"); ("꠬", "꠬"); ("꣄", "ꣅ"); ("꣠", "꣱");
  ("ꣿ", "ꣿ"); ("ꤦ", "꤭"); ("ꥇ", "ꥑ"); ("ꦀ", "ꦂ");
  ("꦳", "꦳"); ("ꦶ", "ꦹ"); ("ꦼ", "ꦽ"); ("ꧏ", "ꧏ");
  ("ꧥ", "ꧦ"); ("ꨩ", "ꨮ"); ("ꨱ", "ꨲ"); ("ꨵ", "ꨶ");
  ("ꩃ", "ꩃ"); ("ꩌ", "ꩌ"); ("ꩰ", "ꩰ"); ("ꩼ", "ꩼ");
  ("ꪰ", "ꪰ"); ("ꪲ", "ꪴ"); ("ꪷ", "ꪸ"); ("ꪾ", "꪿");
  ("꫁", "꫁"); ("ꫝ", "ꫝ"); ("ꫬ", "ꫭ"); ("ꫳ", "ꫴ");
  ("꫶", "꫶"); ("꭛", "ꭟ"); ("ꭩ", "꭫"); ("ꯥ", "ꯥ");
  ("ꯨ", "ꯨ"); ("꯭", "꯭"); ("ﬞ", "ﬞ"); ("﮲", "﯂");
  ("︀", "️"); ("︓", "︓"); ("︠", "︯"); ("﹒", "﹒");
  ("﹕", "﹕"); ("﻿", "﻿"); ("＇", "＇"); ("．", "．");
  ("：", "："); ("＾", "＾"); ("｀", "｀"); ("ｰ", "ｰ");
  ("ﾞ", "ﾟ"); ("￣", "￣"); ("￹", "￻"); ("𐇽", "𐇽");
  ("𐋠", "𐋠"); ("𐍶", "𐍺"); ("𐞀", "𐞅"); ("𐞇", "𐞰");
  ("𐞲", "𐞺"); ("𐨁", "𐨃"); ("𐨅", "𐨆"); ("𐨌", "𐨏");
  ("𐨸", "𐨺"); ("𐨿", "𐨿"); ("𐫥", "𐫦"); ("𐴤", "𐴧");
  ("𐺫", "𐺬"); ("𐽆", "𐽐"); ("𐾂", "𐾅"); ("𑀁", "𑀁");
  ("𑀸", "𑁆"); ("𑁰", "𑁰"); ("𑁳", "𑁴"); ("𑁿", "𑂁");
  ("𑂳", "𑂶"); ("𑂹", "𑂺"); ("𑂽", "𑂽"); ("𑃂", "𑃂");
  ("𑃍", "𑃍"); ("𑄀", "𑄂"); ("𑄧", "𑄫"); ("𑄭", "𑄴");
  ("𑅳", "𑅳"); ("𑆀", "𑆁"); ("𑆶", "𑆾"); ("𑇉", "𑇌");
  ("𑇏", "𑇏"); ("𑈯", "𑈱"); ("𑈴", "𑈴"); ("𑈶", "𑈷");
  ("𑈾", "𑈾"); ("𑋟", "𑋟"); ("𑋣", "𑋪"); ("𑌀", "𑌁");
  ("𑌻", "𑌼"); ("𑍀", "𑍀"); ("𑍦", "𑍬"); ("𑍰", "𑍴");
  ("𑐸", "𑐿"); ("𑑂", "𑑄"); ("𑑆", "𑑆"); ("𑑞", "𑑞");
  ("𑒳", "𑒸"); ("𑒺", "𑒺"); ("𑒿", "𑓀"); ("𑓂", "𑓃");
  ("𑖲", "𑖵"); ("𑖼", "𑖽"); ("𑖿", "𑗀"); ("𑗜", "𑗝");
  ("𑘳", "𑘺"); ("𑘽", "𑘽"); ("𑘿", "𑙀"); ("𑚫", "𑚫");
  ("𑚭", "𑚭"); ("𑚰", "𑚵"); ("𑚷", "𑚷"); ("𑜝", "𑜟");
  ("𑜢", "𑜥"); ("𑜧", "𑜫"); ("𑠯", "𑠷"); ("𑠹", "𑠺");
  ("𑤻", "𑤼"); ("𑤾", "𑤾"); ("𑥃", "𑥃"); ("𑧔", "𑧗");
  ("𑧚", "𑧛"); ("𑧠", "𑧠"); ("𑨁", "𑨊"); ("𑨳", "𑨸");
  ("𑨻", "𑨾"); ("𑩇", "𑩇"); ("𑩑", "𑩖"); ("𑩙", "𑩛");
  ("𑪊", "𑪖"); ("𑪘", "𑪙"); ("𑰰", "𑰶"); ("𑰸", "𑰽");
  ("𑰿", "𑰿"); ("𑲒", "𑲧"); ("𑲪", "𑲰"); ("𑲲", "𑲳");
  ("𑲵", "𑲶"); ("𑴱", "𑴶"); ("𑴺", "𑴺"); ("𑴼", "𑴽");
  ("𑴿", "𑵅"); ("𑵇", "𑵇"); ("𑶐", "𑶑"); ("𑶕", "𑶕");
  ("𑶗", "𑶗"); ("𑻳", "𑻴"); ("𓐰", "𓐸"); ("𖫰", "𖫴");
  ("𖬰", "𖬶"); ("𖭀", "𖭃"); ("𖽏", "𖽏"); ("𖾏", "𖾟");
  ("𖿠", "𖿡"); ("𖿣", "𖿤"); ("𚿰", "𚿳"); ("𚿵", "𚿻");
  ("𚿽", "𚿾"); ("𛲝", "𛲞"); ("𛲠", "𛲣"); ("𜼀", "𜼭");
  ("𜼰", "𜽆"); ("𝅧", "𝅩"); ("𝅳", "𝆂"); ("𝆅", "𝆋");
  ("𝆪", "𝆭"); ("𝉂", "𝉄"); ("𝨀", "𝨶"); ("𝨻", "𝩬");
  ("𝩵", "𝩵"); ("𝪄", "𝪄"); ("𝪛", "𝪟"); ("𝪡", "𝪯");
  ("𞀀", "𞀆"); ("𞀈", "𞀘"); ("𞀛", "𞀡"); ("𞀣", "𞀤");
  ("𞀦", "𞀪"); ("𞄰", "𞄽"); ("𞊮", "𞊮"); ("𞋬", "𞋯");
  ("𞣐", "𞣖"); ("𞥄", "𞥋"); ("🏻", "🏿"); ("󠀁", "󠀁");
  ("󠀠", "󠁿"); ("󠄀", "󠇯")
].

Definition upper_unit (u : list ascii) : list ascii :=
  match u with
  | [c] => [ascii_upper c]
  | _ =>
    match assoc (String.string_of_list_ascii u) UPPER_TABLE with
    | Some v => String.list_ascii_of_string v
    | None => u
    end
  end.

(** [skip] counts the bytes that belong to the character before. *)
Fixpoint upper_from (l : list ascii) (skip : nat) : list ascii :=
  match l with
  | [] => []
  | c :: r =>
    match skip with
    | S k => upper_from r k
    | O => upper_unit (take (utf8_len c) l) ++ upper_from r (utf8_len c - 1)
    end
  end.

(** [str.upper()] *)
Definition upper (s : string) : string :=
  String.string_of_list_ascii (upper_from (String.list_ascii_of_string s) 0).

Definition lower_unit (u : list ascii) : list ascii :=
  match u with
  | [c] => [ascii_lower c]
  | _ =>
    match assoc (String.string_of_list_ascii u) LOWER_TABLE with
    | Some v => String.list_ascii_of_string v
    | None => u
    end
  end.

(** The characters of a string. *)
Fixpoint units_from (l : list ascii) (skip : nat) : list (list ascii) :=
  match l with
  | [] => []
  | c :: r =>
    match skip with
    | S k => units_from r k
    | O => take (utf8_len c) l :: units_from r (utf8_len c - 1)
    end
  end.

Fixpoint skip_ignorable (us : list (list ascii)) : list (list ascii) :=
  match us with
  | [] => []
  | u :: rest =>
    if in_ranges u CASE_IGNORABLE then skip_ignorable rest else us
  end.

(** [before] holds the characters before the sigma, the nearest first. *)
Definition final_sigma (before after : list (list ascii)) : bool :=
  match skip_ignorable before with
  | [] => false
  | c :: _ =>
    in_ranges c CASED &&
    match skip_ignorable after with
    | [] => true
    | d :: _ => negb (in_ranges d CASED)
    end
  end.

Fixpoint lower_units (before us : list (list ascii)) : list ascii :=
  match us with
  | [] => []
  | u :: after =>
    (if String.eqb (String.string_of_list_ascii u) "Σ" then
       String.list_ascii_of_string
         (if final_sigma before after then "ς" else "σ")
     else lower_unit u)
    ++ lower_units (u :: before) after
  end.

(** [str.lower()] *)
Definition lower (s : string) : string :=
  String.string_of_list_ascii
    (lower_units [] (units_from (String.list_ascii_of_string s) 0)).

(** A string that [str.upper] keeps: it is cut into whole UTF-8 sequences
    and [upper_unit] keeps each of them. *)
Fixpoint fixed_from (l : list ascii) (skip : nat) : bool :=
  match l with
  | [] => Nat.eqb skip 0
  | c :: r =>
    match skip with
    | S k => fixed_from r k
    | O =>
      bool_decide (upper_unit (take (utf8_len c) l) = take (utf8_len c) l)
      && (utf8_len c <=? length l)%nat
      && fixed_from r (utf8_len c - 1)
    end
  end.

(** What is checked of an entry of [UPPER_TABLE]: the key is one whole
    UTF-8 sequence of two bytes or more, and [str.upper] keeps the value. *)
Definition key_ok (k : string) : bool :=
  match String.list_ascii_of_string k with
  | c :: r => (2 <=? length (c :: r))%nat && (length (c :: r) =? utf8_len c)%nat
  | [] => false
  end.

Definition entry_ok (kv : string * string) : bool :=
  key_ok kv.1 && fixed_from (String.list_ascii_of_string kv.2) 0.

(** Truth value of an [Optional[str]]: [None] and the empty string are
    false. *)
Definition truthy (o : option string) : bool :=
  match o with
  | Some s => negb (String.eqb s "")
  | None => false
  end.

(** [l[:n]], which is also what [DataFrame.head(n)] keeps: the first [n]
    elements, and for a negative [n] all but the last [-n]. *)
Definition slice_to {A} (l : list A) (n : Z) : list A :=
  if 0 <=? n then take (Z.to_nat n) l
  else take (length l - Z.to_nat (- n)) l.

(** [x in (a, b, ...)] on strings. *)
Definition in_tuple (x : string) (t : list string) : bool :=
  existsb (String.eqb x) t.

(* ------------------------------------------------------------------ *)
(** ** MODELS *)

Module ImageRequest.
Record t := mk { prompt : string; orientation : string }.
End ImageRequest.

Module TrendingRequest.
Record t := mk {
  source : string;
  limit : Z;
  country : string;
  language : string;
  subreddit : string
}.
(** The defaults of the pydantic model. *)
Definition default : t := mk "all" 5 "IN" "en" "all".
End TrendingRequest.

Module TrendItem.
Record t := mk { title : string; link : string; published : string }.
End TrendItem.

Module SourceResult.
(** [{"source": .., "items": .., "warning": ..}]; [warning] is [None] when
    the key is absent. *)
Record t := mk {
  source : string;
  items : list TrendItem.t;
  warning : option string
}.
End SourceResult.

Module SourceError.
Record t := mk { source : string; error : string }.
End SourceError.

Module TrendingResponse.
Record t := mk {
  success : bool;
  requested_source : string;
  limit : Z;
  data : list SourceResult.t;
  errors : list SourceError.t
}.
End TrendingResponse.

Module ImageResponse.
Record t := mk {
  success : bool;
  image_url : string;
  photographer : string;
  source : string
}.
End ImageResponse.

Module HomeResponse.
Record t := mk { status : string; endpoints : list string }.
End HomeResponse.

(* ------------------------------------------------------------------ *)
(** ** The environment and the upstream services *)

(** A feed entry; a field is [None] when the attribute is missing. *)
Module Entry.
Record t := mk {
  title : option string;
  link : option string;
  published : option string
}.
End Entry.

(** A forum post. *)
Module Post.
Record t := mk { title : string; url : string }.
End Post.

(** One photo of the image search: [photo["src"]["large"]] and
    [photo["photographer"]], each of which raises when a key is missing. *)
Module Photo.
Record t := mk { src_large : outcome string; photographer : outcome string }.
End Photo.

(** The [requests.get] call of [generate_image]. *)
Module PexelsCall.
Record t := mk {
  url : string;
  authorization : string;
  query : string;
  per_page : Z;
  orientation : string;
  timeout : Z
}.
End PexelsCall.

(** The reply to it: [json] raises when the body is not a JSON object, and
    holds [data.get("photos")], [None] when the document has no such key. *)
Module PexelsReply.
Record t := mk {
  status_code : Z;
  text : string;
  json : outcome (option (list Photo.t))
}.
End PexelsReply.

Record World := {
  (* os.getenv *)
  PEXELS_API_KEY : option string;
  REDDIT_CLIENT_ID : option string;
  REDDIT_CLIENT_SECRET : option string;
  REDDIT_USER_AGENT : string;
  (* feedparser.parse(rss_url).entries *)
  feedparser_parse : string -> outcome (list Entry.t);
  (* TrendReq().trending_searches(pn=pn), first column *)
  trending_searches : string -> outcome (list string);
  (* praw.Reddit(..).subreddit(name).hot(limit=limit) *)
  subreddit_hot : string -> Z -> outcome (list Post.t);
  (* requests.get("https://api.pexels.com/v1/search", ...) *)
  requests_get : PexelsCall.t -> outcome PexelsReply.t
}.

(* ------------------------------------------------------------------ *)
(** ** HEALTH CHECK *)

Definition home : HomeResponse.t :=
  HomeResponse.mk "Backend running" ["/generate-image"; "/trending"].

(* ------------------------------------------------------------------ *)
(** ** IMAGE SECTION *)

Definition generate_image (w : World) (payload : ImageRequest.t)
  : list PexelsCall.t * http ImageResponse.t :=
  let key := PEXELS_API_KEY w in
  if negb (truthy key) then
    ([], HTTPException 500 "PEXELS_API_KEY missing in Render ENV")
  else if negb (truthy (Some (ImageRequest.prompt payload))) then
    ([], HTTPException 400 "Prompt is required")
  else
    let call := PexelsCall.mk "https://api.pexels.com/v1/search"
                  (default "" key) (ImageRequest.prompt payload) 1
                  (ImageRequest.orientation payload) 10 in
    ([call],
     match requests_get w call with
     | Raised e => HTTPException 500 e
     | Returned response =>
       if negb (PexelsReply.status_code response =? 200) then
         HTTPException 500 (PexelsReply.text response)
       else
         match PexelsReply.json response with
         | Raised e => Uncaught e
         | Returned data =>
           match data with
           | None | Some [] => HTTPException 404 "No images found"
           | Some (photo :: _) =>
             match Photo.src_large photo, Photo.photographer photo with
             | Returned large, Returned name =>
               Respond (ImageResponse.mk true large name "pexels")
             | Raised e, _ => Uncaught e
             | _, Raised e => Uncaught e
             end
           end
         end
     end).

(* ------------------------------------------------------------------ *)
(** ** TREND SECTION *)

(** Sequencing of calls that may raise: the first exception ends the
    computation. *)
#[global] Instance outcome_ret : MRet outcome := fun _ a => Returned a.
#[global] Instance outcome_bind : MBind outcome := fun _ _ k c =>
  match c with
  | Returned a => k a
  | Raised e => Raised e
  end.

Definition clamp_limit (n : Z) : Z := Z.max 1 (Z.min n 10).

(** [getattr(entry, name, "")] *)
Definition getattr (field : option string) (dflt : string) : string :=
  default dflt field.

Definition rss_top (w : World) (rss_url : string) (limit : Z)
  : outcome (list TrendItem.t) :=
  entries ← feedparser_parse w rss_url;
  mret ((fun entry =>
           TrendItem.mk (getattr (Entry.title entry) "")
                        (getattr (Entry.link entry) "")
                        (getattr (Entry.published entry) ""))
          <$> slice_to entries limit).

Definition get_google_news (w : World) (limit : Z) (country language : string)
  : outcome SourceResult.t :=
  let rss_url :=
    "https://news.google.com/rss?hl=" ++ language ++ "-" ++ country
      ++ "&gl=" ++ country ++ "&ceid=" ++ country ++ ":" ++ language in
  items ← rss_top w rss_url limit;
  mret (SourceResult.mk "google_news" items None).

Definition get_reuters (w : World) (limit : Z) : outcome SourceResult.t :=
  let rss_url :=
    "https://www.reutersagency.com/feed/?best-topics=business-finance&post_type=best" in
  items ← rss_top w rss_url limit;
  mret (SourceResult.mk "reuters" items None).

Definition get_flipboard (w : World) (limit : Z) : outcome SourceResult.t :=
  let rss_url := "https://flipboard.com/@news.rss" in
  items ← rss_top w rss_url limit;
  mret (SourceResult.mk "flipboard" items None).

Definition pn_map : gmap string string :=
  list_to_map [
    ("IN", "india");
    ("US", "united_states");
    ("GB", "united_kingdom");
    ("CA", "canada");
    ("AU", "australia")
  ].

(** [pn = pn_map.get(country.upper(), "india")] *)
Definition pn (country : string) : string :=
  default "india" (pn_map !! upper country).

Definition get_google_trends (w : World) (limit : Z) (country : string)
  : outcome SourceResult.t :=
  df ← trending_searches w (pn country);
  let terms := slice_to df limit in
  mret (SourceResult.mk "google_trends"
          ((fun t => TrendItem.mk t "" "") <$> terms) None).

Definition get_reddit (w : World) (limit : Z) (subreddit_name : string)
  : outcome SourceResult.t :=
  if negb (truthy (REDDIT_CLIENT_ID w) && truthy (REDDIT_CLIENT_SECRET w)) then
    mret (SourceResult.mk "reddit" [] (Some "Reddit keys missing"))
  else
    posts ← subreddit_hot w subreddit_name limit;
    mret (SourceResult.mk "reddit"
            ((fun post => TrendItem.mk (Post.title post) (Post.url post) "")
               <$> posts)
            None).

Definition allowed : gset string :=
  {[ "all"; "google_trends"; "google_news"; "reddit"; "reuters"; "flipboard" ]}.

(** The two lists the closure [safe_call] appends to, and the names of the
    adapters called so far. *)
Record FanOut := {
  results : list SourceResult.t;
  errors : list SourceError.t;
  invoked : list string
}.

Definition safe_call (fn : unit -> outcome SourceResult.t) (name : string)
    (st : FanOut) : FanOut :=
  match fn () with
  | Returned r =>
    {| results := results st ++ [r];
       errors := errors st;
       invoked := invoked st ++ [name] |}
  | Raised e =>
    {| results := results st;
       errors := errors st ++ [SourceError.mk name e];
       invoked := invoked st ++ [name] |}
  end.

Definition trending (w : World) (payload : TrendingRequest.t)
  : list string * http TrendingResponse.t :=
  let limit := clamp_limit (TrendingRequest.limit payload) in
  let source := lower (TrendingRequest.source payload) in
  if negb (bool_decide (source ∈ allowed)) then
    ([], HTTPException 400 "Invalid source")
  else
    let st := {| results := []; errors := []; invoked := [] |} in
    let st :=
      if in_tuple source ["all"; "google_trends"] then
        safe_call (fun _ => get_google_trends w limit
                              (TrendingRequest.country payload))
                  "google_trends" st
      else st in
    let st :=
      if in_tuple source ["all"; "google_news"] then
        safe_call (fun _ => get_google_news w limit
                              (TrendingRequest.country payload)
                              (TrendingRequest.language payload))
                  "google_news" st
      else st in
    let st :=
      if in_tuple source ["all"; "reddit"] then
        safe_call (fun _ => get_reddit w limit
                              (TrendingRequest.subreddit payload))
                  "reddit" st
      else st in
    let st :=
      if in_tuple source ["all"; "reuters"] then
        safe_call (fun _ => get_reuters w limit) "reuters" st
      else st in
    let st :=
      if in_tuple source ["all"; "flipboard"] then
        safe_call (fun _ => get_flipboard w limit) "flipboard" st
      else st in
    (invoked st,
     Respond (TrendingResponse.mk true source limit (results st) (errors st))).

(* ------------------------------------------------------------------ *)
(** ** The fan-out, as the specification describes it *)

(** The five adapters in their fixed invocation order. *)
Definition ADAPTERS : list string :=
  ["google_trends"; "google_news"; "reddit"; "reuters"; "flipboard"].

(** An adapter is included when the requested source is ["all"] or the
    adapter's own name. *)
Definition included (source name : string) : Prop :=
  source = "all" ∨ source = name.

#[global] Instance included_dec source name : Decision (included source name).
Proof. unfold included. apply _. Defined.

Definition selected (source : string) : list string :=
  filter (included source) ADAPTERS.

(** The call that [trending] hands to [safe_call] for the adapter [name]. *)
Definition call_adapter (w : World) (payload : TrendingRequest.t)
    (name : string) : outcome SourceResult.t :=
  let limit := clamp_limit (TrendingRequest.limit payload) in
  if String.eqb name "google_trends" then
    get_google_trends w limit (TrendingRequest.country payload)
  else if String.eqb name "google_news" then
    get_google_news w limit (TrendingRequest.country payload)
                    (TrendingRequest.language payload)
  else if String.eqb name "reddit" then
    get_reddit w limit (TrendingRequest.subreddit payload)
  else if String.eqb name "reuters" then get_reuters w limit
  else if String.eqb name "flipboard" then get_flipboard w limit
  else Raised "no such adapter".

(** Whether a call returned rather than raised. *)
Definition returns {A} (o : outcome A) : bool :=
  match o with
  | Returned _ => true
  | Raised _ => false
  end.

(** What one adapter leaves in [data] and in [errors]. *)
Definition data_entry (name : string) (o : outcome SourceResult.t)
  : list SourceResult.t :=
  match o with
  | Returned r => [r]
  | Raised _ => []
  end.

Definition error_entry (name : string) (o : outcome SourceResult.t)
  : list SourceError.t :=
  match o with
  | Returned _ => []
  | Raised e => [SourceError.mk name e]
  end.

(** The entries of [data] and of [errors] that carry the adapter name. *)
Definition data_of (name : string) (r : TrendingResponse.t)
  : list SourceResult.t :=
  filter (fun x => SourceResult.source x = name) (TrendingResponse.data r).

Definition errors_of (name : string) (r : TrendingResponse.t)
  : list SourceError.t :=
  filter (fun x => SourceError.source x = name) (TrendingResponse.errors r).

(** The results of the adapters of [names] that returned, in order. *)
Definition returned_of (call : string -> outcome SourceResult.t)
    (names : list string) : list SourceResult.t :=
  omap (fun name => match call name with
                    | Returned r => Some r
                    | Raised _ => None
                    end) names.

(** The error records of the adapters of [names] that raised, in order. *)
Definition raised_of (call : string -> outcome SourceResult.t)
    (names : list string) : list SourceError.t :=
  omap (fun name => match call name with
                    | Returned _ => None
                    | Raised e => Some (SourceError.mk name e)
                    end) names.

(** The five conditional [safe_call]s of [trending] as one loop over a list
    of adapter names. *)
Definition fan_out (call : string -> outcome SourceResult.t) (source : string)
    (names : list string) (st : FanOut) : FanOut :=
  fold_left (fun st name =>
               if in_tuple source ["all"; name]
               then safe_call (fun _ => call name) name st else st)
            names st.

(** The adapter names of the two lists of a response. *)
Definition data_names (r : TrendingResponse.t) : list string :=
  SourceResult.source <$> TrendingResponse.data r.

Definition error_names (r : TrendingResponse.t) : list string :=
  SourceError.source <$> TrendingResponse.errors r.

(* ------------------------------------------------------------------ *)
(** ** Sample worlds and requests *)

(** Nothing is configured in the environment and every upstream is down. *)
Definition world_bare : World := {|
  PEXELS_API_KEY := None;
  REDDIT_CLIENT_ID := None;
  REDDIT_CLIENT_SECRET := None;
  REDDIT_USER_AGENT := "scripts-bot";
  feedparser_parse := fun _ => Raised "feed unreachable";
  trending_searches := fun _ => Raised "429 Too Many Requests";
  subreddit_hot := fun _ _ => Raised "401 Unauthorized";
  requests_get := fun _ => Raised "connection refused"
|}.

(** The credentials are configured and every upstream is down. *)
Definition world_down : World := {|
  PEXELS_API_KEY := Some "pexels-key";
  REDDIT_CLIENT_ID := Some "id";
  REDDIT_CLIENT_SECRET := Some "secret";
  REDDIT_USER_AGENT := "scripts-bot";
  feedparser_parse := fun _ => Raised "feed unreachable";
  trending_searches := fun _ => Raised "429 Too Many Requests";
  subreddit_hot := fun _ _ => Raised "401 Unauthorized";
  requests_get := fun _ => Raised "connection refused"
|}.

(** Every upstream answers; the feed of Reuters alone is unreachable. *)
Definition world_up : World := {|
  PEXELS_API_KEY := Some "pexels-key";
  REDDIT_CLIENT_ID := Some "id";
  REDDIT_CLIENT_SECRET := Some "secret";
  REDDIT_USER_AGENT := "scripts-bot";
  feedparser_parse := fun rss_url =>
    if String.eqb rss_url "https://flipboard.com/@news.rss" then
      Returned [Entry.mk (Some "f1") (Some "http://f/1") None;
                Entry.mk (Some "f2") None (Some "Mon")]
    else if String.prefix "https://news.google.com/rss" rss_url then
      Returned [Entry.mk (Some "n1") (Some "http://n/1") (Some "Tue")]
    else Raised "feed unreachable";
  trending_searches := fun region =>
    if String.eqb region "united_states" then Returned ["a"; "b"; "c"]
    else Returned ["x"; "y"];
  subreddit_hot := fun _ _ => Returned [Post.mk "p1" "http://r/1"];
  requests_get := fun _ =>
    Returned (PexelsReply.mk 200 "ok"
                (Returned (Some [Photo.mk (Returned "http://img") (Returned "Ann")])))
|}.

(** The request [payload] with another [limit]. *)
Definition with_limit (payload : TrendingRequest.t) (n : Z)
  : TrendingRequest.t :=
  TrendingRequest.mk (TrendingRequest.source payload) n
    (TrendingRequest.country payload) (TrendingRequest.language payload)
    (TrendingRequest.subreddit payload).

Definition request_of (source : string) (limit : Z) (country : string)
  : TrendingRequest.t :=
  TrendingRequest.mk source limit country "en" "all".

(* ------------------------------------------------------------------ *)
(** ** Names for the requests the code sends upstream *)

(** The [requests.get] of [generate_image]: the search URL, the key in the
    [Authorization] header, the prompt as [query], one result per page, the
    orientation of the payload, a timeout of 10. *)
Definition pexels_call (key : string) (payload : ImageRequest.t)
  : PexelsCall.t :=
  PexelsCall.mk "https://api.pexels.com/v1/search" key
    (ImageRequest.prompt payload) 1 (ImageRequest.orientation payload) 10.

(** The [rss_url] of each feed adapter. *)
Definition google_news_url (country language : string) : string :=
  "https://news.google.com/rss?hl=" ++ language ++ "-" ++ country
    ++ "&gl=" ++ country ++ "&ceid=" ++ country ++ ":" ++ language.

Definition reuters_url : string :=
  "https://www.reutersagency.com/feed/?best-topics=business-finance&post_type=best".

Definition flipboard_url : string := "https://flipboard.com/@news.rss".

(** The dict that [rss_top] builds for a feed entry, and the one that
    [get_reddit] builds for a post. *)
Definition item_of_entry (entry : Entry.t) : TrendItem.t :=
  TrendItem.mk (getattr (Entry.title entry) "")
               (getattr (Entry.link entry) "")
               (getattr (Entry.published entry) "").

Definition item_of_post (post : Post.t) : TrendItem.t :=
  TrendItem.mk (Post.title post) (Post.url post) "".

(** The regions of [pn_map]. *)
Definition REGIONS : list string :=
  ["india"; "united_states"; "united_kingdom"; "canada"; "australia"].

(** [world_up] with another answer of the image search, and with other
    forum credentials. *)
Definition world_with_pexels (reply : outcome PexelsReply.t) : World := {|
  PEXELS_API_KEY := PEXELS_API_KEY world_up;
  REDDIT_CLIENT_ID := REDDIT_CLIENT_ID world_up;
  REDDIT_CLIENT_SECRET := REDDIT_CLIENT_SECRET world_up;
  REDDIT_USER_AGENT := REDDIT_USER_AGENT world_up;
  feedparser_parse := feedparser_parse world_up;
  trending_searches := trending_searches world_up;
  subreddit_hot := subreddit_hot world_up;
  requests_get := fun _ => reply
|}.

Definition world_with_reddit_keys (client_id client_secret : option string)
  : World := {|
  PEXELS_API_KEY := PEXELS_API_KEY world_up;
  REDDIT_CLIENT_ID := client_id;
  REDDIT_CLIENT_SECRET := client_secret;
  REDDIT_USER_AGENT := REDDIT_USER_AGENT world_up;
  feedparser_parse := feedparser_parse world_up;
  trending_searches := trending_searches world_up;
  subreddit_hot := subreddit_hot world_up;
  requests_get := requests_get world_up
|}.

(** Every upstream answers with twelve items, whatever it is asked. *)
Definition world_long : World := {|
  PEXELS_API_KEY := PEXELS_API_KEY world_up;
  REDDIT_CLIENT_ID := REDDIT_CLIENT_ID world_up;
  REDDIT_CLIENT_SECRET := REDDIT_CLIENT_SECRET world_up;
  REDDIT_USER_AGENT := REDDIT_USER_AGENT world_up;
  feedparser_parse := fun _ =>
    Returned (replicate 12 (Entry.mk (Some "t") None None));
  trending_searches := fun _ => Returned (replicate 12 "t");
  subreddit_hot := fun _ _ => Returned (replicate 12 (Post.mk "t" "u"));
  requests_get := requests_get world_up
|}.

(** Every upstream answers, the Reuters feed included. *)
Definition world_all_up : World := {|
  PEXELS_API_KEY := PEXELS_API_KEY world_up;
  REDDIT_CLIENT_ID := REDDIT_CLIENT_ID world_up;
  REDDIT_CLIENT_SECRET := REDDIT_CLIENT_SECRET world_up;
  REDDIT_USER_AGENT := REDDIT_USER_AGENT world_up;
  feedparser_parse := fun _ =>
    Returned [Entry.mk (Some "e1") None None; Entry.mk None (Some "l2") None;
              Entry.mk (Some "e3") (Some "l3") (Some "Wed")];
  trending_searches := trending_searches world_up;
  subreddit_hot := subreddit_hot world_up;
  requests_get := requests_get world_up
|}.

(* ------------------------------------------------------------------ *)
(** ** Strings, clamping, slices *)

Lemma UPPER_TABLE_ok : forallb entry_ok UPPER_TABLE = true.
Proof. vm_compute. reflexivity. Qed.

Lemma assoc_Some k t v : assoc k t = Some v → (k, v) ∈ t.
Proof.
  induction t as [|[k' v'] t IH]; cbn [assoc]; [done|].
  destruct (String.eqb k k') eqn:E.
  - apply String.eqb_eq in E as ->. intros [= ->]. left.
  - intros H. right. by apply IH.
Qed.

Lemma assoc_UPPER_TABLE u v :
  assoc (String.string_of_list_ascii u) UPPER_TABLE = Some v →
  key_ok (String.string_of_list_ascii u) = true
  ∧ fixed_from (String.list_ascii_of_string v) 0 = true.
Proof.
  intros H%assoc_Some%list_elem_of_In.
  pose proof (proj1 (forallb_forall entry_ok UPPER_TABLE) UPPER_TABLE_ok
                (String.string_of_list_ascii u, v) H) as Hok.
  by apply andb_true_iff in Hok.
Qed.

Lemma utf8_len_pos c : (1 ≤ utf8_len c)%nat.
Proof.
  unfold utf8_len. repeat match goal with |- context [if ?b then _ else _] =>
    destruct b end; lia.
Qed.

Lemma upper_from_skip l k : upper_from l k = upper_from (drop k l) 0.
Proof.
  revert k. induction l as [|c r IH]; intros [|k]; cbn [upper_from drop]; auto.
Qed.

Lemma upper_from_cons c r :
  upper_from (c :: r) 0
  = (upper_unit (take (utf8_len c) (c :: r))
       ++ upper_from (drop (utf8_len c) (c :: r)) 0)%list.
Proof.
  cbn [upper_from]. rewrite upper_from_skip.
  pose proof (utf8_len_pos c).
  destruct (utf8_len c) as [|n]; [lia|]. cbn [drop].
  by replace (S n - 1)%nat with n by lia.
Qed.

Lemma fixed_from_all l k : k = length l → fixed_from l k = true.
Proof.
  intros ->. induction l as [|c r IH]; [done|]. exact IH.
Qed.

Lemma fixed_from_app v k X :
  fixed_from v k = true →
  upper_from (v ++ X)%list k = (drop k v ++ upper_from X 0)%list.
Proof.
  revert k. induction v as [|c r IH]; intros k Hfix.
  - destruct k; [done|discriminate].
  - destruct k as [|k]; [|exact (IH k Hfix)].
    cbn [fixed_from] in Hfix.
    apply andb_true_iff in Hfix as [[Hunit Hlen]%andb_true_iff Hrest].
    apply bool_decide_eq_true_1 in Hunit. apply Nat.leb_le in Hlen.
    change ((c :: r) ++ X)%list with (c :: (r ++ X))%list. cbn [upper_from drop].
    rewrite (IH _ Hrest).
    change (c :: (r ++ X))%list with ((c :: r) ++ X)%list.
    rewrite take_app_le by done. rewrite Hunit.
    pose proof (utf8_len_pos c).
    destruct (utf8_len c) as [|n]; [lia|]. cbn [take].
    replace (S n - 1)%nat with n by lia.
    rewrite app_assoc. cbn [app]. by rewrite take_drop.
Qed.

Lemma ascii_unit_fixed c :
  utf8_len c = 1%nat → fixed_from [ascii_upper c] 0 = true.
Proof.
  destruct c as [[] [] [] [] [] [] [] []]; vm_compute; congruence.
Qed.

Lemma ascii_upper_lead c : (1 < utf8_len c)%nat → ascii_upper c = c.
Proof.
  destruct c as [[] [] [] [] [] [] [] []]; vm_compute; (reflexivity || lia).
Qed.

(** A whole sequence at the head of a string is turned into a string that
    [str.upper] keeps. *)
Lemma unit_fixed c r :
  (utf8_len c ≤ length (c :: r))%nat →
  fixed_from (upper_unit (take (utf8_len c) (c :: r))) 0 = true.
Proof.
  intros Hlen. pose proof (utf8_len_pos c) as Hpos.
  destruct (decide (utf8_len c = 1%nat)) as [H1|H1].
  { rewrite H1. cbn [take upper_unit]. by apply ascii_unit_fixed. }
  remember (take (utf8_len c) (c :: r)) as u eqn:Hu.
  assert (Hul : length u = utf8_len c) by (subst u; rewrite length_take; lia).
  destruct (utf8_len c) as [|[|n]] eqn:Hn; [lia|lia|].
  cbn [take] in Hu. destruct r as [|c2 r]; [cbn in Hlen; lia|].
  cbn [take] in Hu. subst u. cbn [upper_unit].
  destruct (assoc _ UPPER_TABLE) as [v|] eqn:Hassoc.
  - by apply assoc_UPPER_TABLE in Hassoc as [_ Hv].
  - cbn [fixed_from]. rewrite Hn. cbn [take]. cbn [length] in Hul.
    assert (Htake : take n (take n r) = take n r)
      by (rewrite take_take; f_equal; lia).
    rewrite Htake. cbn [upper_unit]. rewrite Hassoc.
    rewrite bool_decide_eq_true_2 by done. cbn [andb].
    apply andb_true_iff. split.
    + apply Nat.leb_le. cbn [length]. lia.
    + apply fixed_from_all. cbn [length]. lia.
Qed.

(** A sequence that the end of the string cuts short is kept. *)
Lemma truncated_unit c r :
  (length (c :: r) < utf8_len c)%nat → upper_unit (c :: r) = c :: r.
Proof.
  intros Hlen. destruct r as [|c2 r].
  - cbn [upper_unit]. f_equal. apply ascii_upper_lead. cbn in Hlen. lia.
  - cbn [upper_unit].
    destruct (assoc _ UPPER_TABLE) as [v|] eqn:Hassoc; [|done].
    apply assoc_UPPER_TABLE in Hassoc as [Hkey _]. unfold key_ok in Hkey.
    rewrite String.list_ascii_of_string_of_list_ascii in Hkey.
    apply andb_true_iff in Hkey as [_ Hkey%Nat.eqb_eq]. lia.
Qed.

Lemma upper_from_idem l : upper_from (upper_from l 0) 0 = upper_from l 0.
Proof.
  remember (length l) as n eqn:Hn. revert l Hn.
  induction n as [n IH] using lt_wf_ind. intros [|c r] Hn; [done|].
  rewrite upper_from_cons.
  destruct (decide (utf8_len c ≤ length (c :: r))%nat) as [Hlen|Hlen].
  - rewrite (fixed_from_app _ 0) by (by apply unit_fixed).
    cbn [drop]. f_equal.
    apply (IH (length (drop (utf8_len c) (c :: r)))); [|done].
    rewrite length_drop. pose proof (utf8_len_pos c). cbn [length] in *. lia.
  - rewrite take_ge, drop_ge by lia. rewrite app_nil_r.
    rewrite truncated_unit by lia.
    rewrite upper_from_cons, take_ge, drop_ge by lia.
    by rewrite app_nil_r, truncated_unit by lia.
Qed.

Lemma upper_idem s : upper (upper s) = upper s.
Proof.
  unfold upper. rewrite String.list_ascii_of_string_of_list_ascii.
  by rewrite upper_from_idem.
Qed.

(** The two functions on strings with characters outside ASCII. *)
Example upper_samples :
  upper "straße ǆ ﬃ é" = "STRASSE Ǆ FFI É" ∧ upper "uſ" = "US".
Proof. split; vm_compute; reflexivity. Qed.

Example lower_samples :
  lower "ΟΔΥΣΣΕΥΣ Σ" = "οδυσσευς σ" ∧ lower "İK" = "i̇k"
  ∧ lower "Google_Trends" = "google_trends".
Proof. repeat split; vm_compute; reflexivity. Qed.

Lemma clamp_limit_range n : 1 ≤ clamp_limit n ≤ 10.
Proof. unfold clamp_limit. lia. Qed.

Lemma clamp_limit_idem n : clamp_limit (clamp_limit n) = clamp_limit n.
Proof. unfold clamp_limit. lia. Qed.

Lemma slice_to_nonneg {A} (l : list A) n :
  0 ≤ n → slice_to l n = take (Z.to_nat n) l.
Proof. intros Hn. unfold slice_to. by rewrite (proj2 (Z.leb_le 0 n) Hn). Qed.

(* ------------------------------------------------------------------ *)
(** ** The fan-out is a loop over [ADAPTERS] *)

Lemma allowed_cases s :
  s ∈ allowed ↔
  s = "all" ∨ s = "google_trends" ∨ s = "google_news" ∨ s = "reddit"
  ∨ s = "reuters" ∨ s = "flipboard".
Proof. unfold allowed. rewrite !elem_of_union, !elem_of_singleton. tauto. Qed.

Lemma in_tuple_included source name :
  in_tuple source ["all"; name] = true ↔ included source name.
Proof.
  unfold in_tuple, included. cbn [existsb].
  rewrite !orb_true_iff, !String.eqb_eq. intuition discriminate.
Qed.

(** One [safe_call]: the adapter is called once, a result goes to the end
    of [results], an exception becomes one record at the end of [errors]. *)
Lemma safe_call_returned fn name st r :
  fn () = Returned r →
  safe_call fn name st
  = {| results := results st ++ [r]; errors := errors st;
       invoked := invoked st ++ [name] |}.
Proof. intros H. unfold safe_call. by rewrite H. Qed.

Lemma safe_call_raised fn name st e :
  fn () = Raised e →
  safe_call fn name st
  = {| results := results st;
       errors := errors st ++ [SourceError.mk name e];
       invoked := invoked st ++ [name] |}.
Proof. intros H. unfold safe_call. by rewrite H. Qed.

Lemma trending_as_fold w payload :
  let source := lower (TrendingRequest.source payload) in
  source ∈ allowed →
  trending w payload =
    let st := fan_out (call_adapter w payload) source ADAPTERS
                {| results := []; errors := []; invoked := [] |} in
    (invoked st,
     Respond (TrendingResponse.mk true source
                (clamp_limit (TrendingRequest.limit payload))
                (results st) (errors st))).
Proof.
  intros source Hin. unfold trending. fold source.
  rewrite (bool_decide_eq_true_2 _ Hin). reflexivity.
Qed.

Lemma fan_out_spec call source names st :
  fan_out call source names st =
    {| results := results st ++ returned_of call (filter (included source) names);
       errors := errors st ++ raised_of call (filter (included source) names);
       invoked := invoked st ++ filter (included source) names |}.
Proof.
  unfold fan_out. revert st. induction names as [|name names IH]; intros st.
  - cbn. rewrite !app_nil_r. by destruct st.
  - cbn [fold_left]. rewrite IH, filter_cons. unfold returned_of, raised_of.
    destruct (decide (included source name)) as [Hi|Hi].
    + apply in_tuple_included in Hi as ->.
      unfold safe_call. cbn [omap list_omap].
      destruct (call name); cbn [results errors invoked];
        by rewrite <- ?app_assoc.
    + destruct (in_tuple source ["all"; name]) eqn:E; [|done].
      by apply in_tuple_included in E.
Qed.

(** On a valid source, [trending] calls the selected adapters in order,
    collects the results of those that returned in [data] and an error
    record for each one that raised in [errors]. *)
Lemma trending_fanout w payload :
  let source := lower (TrendingRequest.source payload) in
  source ∈ allowed →
  trending w payload =
    (selected source,
     Respond (TrendingResponse.mk true source
                (clamp_limit (TrendingRequest.limit payload))
                (returned_of (call_adapter w payload) (selected source))
                (raised_of (call_adapter w payload) (selected source)))).
Proof.
  intros source Hin. rewrite trending_as_fold by done.
  fold source. cbv zeta. rewrite fan_out_spec. reflexivity.
Qed.

Lemma trending_invalid w payload :
  lower (TrendingRequest.source payload) ∉ allowed →
  trending w payload = ([], HTTPException 400 "Invalid source").
Proof.
  intros Hin. unfold trending. by rewrite (bool_decide_eq_false_2 _ Hin).
Qed.

(* ------------------------------------------------------------------ *)
(** ** The selected adapters *)

Lemma NoDup_ADAPTERS : NoDup ADAPTERS.
Proof. compute_done. Qed.

Lemma selected_sublist source : selected source `sublist_of` ADAPTERS.
Proof. apply sublist_filter. Qed.

Lemma NoDup_selected source : NoDup (selected source).
Proof. apply NoDup_filter, NoDup_ADAPTERS. Qed.

Lemma elem_of_selected source name :
  name ∈ selected source ↔ included source name ∧ name ∈ ADAPTERS.
Proof. apply list_elem_of_filter. Qed.

Lemma selected_all : selected "all" = ADAPTERS.
Proof. vm_compute. reflexivity. Qed.

Lemma selected_one source :
  source ∈ allowed → source ≠ "all" → selected source = [source].
Proof.
  intros Hin Hne. apply allowed_cases in Hin.
  destruct Hin as [H|[H|[H|[H|[H|H]]]]]; [done|..]; subst source;
    vm_compute; reflexivity.
Qed.

(** Each adapter returns a result that carries its own name. *)
Ltac adapter_source :=
  repeat match goal with
  | |- context [match ?o with Returned _ => _ | Raised _ => _ end] =>
    destruct o
  | |- context [if ?b then _ else _] => destruct b
  end;
  cbn; intros [= <-]; reflexivity.

Lemma get_google_trends_source w limit country r :
  get_google_trends w limit country = Returned r →
  SourceResult.source r = "google_trends".
Proof. unfold get_google_trends, mbind, outcome_bind. adapter_source. Qed.

Lemma get_google_news_source w limit country language r :
  get_google_news w limit country language = Returned r →
  SourceResult.source r = "google_news".
Proof.
  unfold get_google_news, rss_top, mbind, outcome_bind. adapter_source.
Qed.

Lemma get_reddit_source w limit subreddit_name r :
  get_reddit w limit subreddit_name = Returned r →
  SourceResult.source r = "reddit".
Proof. unfold get_reddit, mbind, outcome_bind. adapter_source. Qed.

Lemma get_reuters_source w limit r :
  get_reuters w limit = Returned r → SourceResult.source r = "reuters".
Proof. unfold get_reuters, rss_top, mbind, outcome_bind. adapter_source. Qed.

Lemma get_flipboard_source w limit r :
  get_flipboard w limit = Returned r → SourceResult.source r = "flipboard".
Proof. unfold get_flipboard, rss_top, mbind, outcome_bind. adapter_source. Qed.

Lemma call_adapter_source w payload name r :
  name ∈ ADAPTERS →
  call_adapter w payload name = Returned r → SourceResult.source r = name.
Proof.
  intros Hin. unfold ADAPTERS in Hin.
  rewrite !elem_of_cons, elem_of_nil in Hin.
  destruct Hin as [->|[->|[->|[->|[->|[]]]]]]; unfold call_adapter;
    cbn [String.eqb Ascii.eqb Bool.eqb];
    eauto using get_google_trends_source, get_google_news_source,
      get_reddit_source, get_reuters_source, get_flipboard_source.
Qed.

(* ------------------------------------------------------------------ *)
(** ** What the two lists hold for a list of adapters *)

Section Collected.
Variable call : string → outcome SourceResult.t.
Variable names : list string.
Hypothesis call_source :
  ∀ name r, name ∈ names → call name = Returned r →
            SourceResult.source r = name.

Lemma returned_names :
  SourceResult.source <$> returned_of call names
  = filter (λ name, returns (call name)) names.
Proof.
  unfold returned_of. clear -call_source.
  induction names as [|a l IH]; [done|].
  cbn [omap list_omap]. rewrite filter_cons.
  assert (IH' := IH (λ n r H, call_source n r (list_elem_of_further _ _ _ H))).
  specialize (call_source a).
  destruct (call a) as [r|e]; cbn.
  - rewrite IH'. f_equal. apply call_source; [left|done].
  - done.
Qed.

Lemma raised_names :
  SourceError.source <$> raised_of call names
  = filter (λ name, ¬ returns (call name)) names.
Proof.
  unfold raised_of. clear.
  induction names as [|a l IH]; [done|].
  cbn [omap list_omap]. rewrite filter_cons.
  destruct (call a) as [r|e]; cbn; [done|]. by rewrite IH.
Qed.

Lemma collected_names :
  (SourceResult.source <$> returned_of call names)
    ++ (SourceError.source <$> raised_of call names) ≡ₚ names.
Proof. rewrite returned_names, raised_names. apply filter_app_complement. Qed.

End Collected.

Lemma returned_of_name call names name :
  (∀ n r, n ∈ names → call n = Returned r → SourceResult.source r = n) →
  NoDup names →
  filter (λ x, SourceResult.source x = name) (returned_of call names)
  = if decide (name ∈ names) then data_entry name (call name) else [].
Proof.
  unfold returned_of.
  induction names as [|a l IH]; intros Hsrc Hnd; [done|].
  apply NoDup_cons in Hnd as [Ha Hnd].
  specialize (IH (λ n r H, Hsrc n r (list_elem_of_further _ _ _ H)) Hnd).
  specialize (Hsrc a). cbn [omap list_omap].
  destruct (decide (name = a)) as [->|Hne].
  - rewrite decide_True by left.
    rewrite decide_False in IH by done.
    destruct (call a) as [r|e]; cbn [data_entry]; [|done].
    rewrite filter_cons_True by (apply Hsrc; [left|done]). by rewrite IH.
  - assert (Hiff : name ∈ a :: l ↔ name ∈ l) by (rewrite elem_of_cons; tauto).
    rewrite (decide_ext _ _ _ _ Hiff).
    destruct (call a) as [r|e]; [|done].
    rewrite filter_cons_False; [done|].
    rewrite (Hsrc r); [congruence|left|done].
Qed.

Lemma raised_of_name call names name :
  NoDup names →
  filter (λ x, SourceError.source x = name) (raised_of call names)
  = if decide (name ∈ names) then error_entry name (call name) else [].
Proof.
  unfold raised_of.
  induction names as [|a l IH]; intros Hnd; [done|].
  apply NoDup_cons in Hnd as [Ha Hnd]. specialize (IH Hnd).
  cbn [omap list_omap].
  destruct (decide (name = a)) as [->|Hne].
  - rewrite decide_True by left.
    rewrite decide_False in IH by done.
    destruct (call a) as [r|e]; cbn [error_entry]; [done|].
    rewrite filter_cons_True by done. by rewrite IH.
  - assert (Hiff : name ∈ a :: l ↔ name ∈ l) by (rewrite elem_of_cons; tauto).
    rewrite (decide_ext _ _ _ _ Hiff).
    destruct (call a) as [r|e]; [done|].
    rewrite filter_cons_False; [done|]. cbn. congruence.
Qed.

(** On a valid source, what each selected adapter leaves in the response
    is the entry of its own call. *)
Lemma trending_entries w payload :
  let source := lower (TrendingRequest.source payload) in
  source ∈ allowed →
  ∃ r, trending w payload = (selected source, Respond r) ∧
    TrendingResponse.limit r = clamp_limit (TrendingRequest.limit payload) ∧
    ∀ name, name ∈ selected source →
      data_of name r = data_entry name (call_adapter w payload name) ∧
      errors_of name r = error_entry name (call_adapter w payload name).
Proof.
  intros source Hin. rewrite trending_fanout by done. fold source.
  eexists. split; [reflexivity|]. split; [reflexivity|].
  intros name Hname. unfold data_of, errors_of.
  cbn [TrendingResponse.data TrendingResponse.errors].
  assert (Hsrc : ∀ n x, n ∈ selected source →
                 call_adapter w payload n = Returned x →
                 SourceResult.source x = n).
  { intros n x [_ Hn]%elem_of_selected. by apply call_adapter_source. }
  rewrite returned_of_name, raised_of_name by eauto using NoDup_selected.
  by rewrite !decide_True by done.
Qed.

(* ------------------------------------------------------------------ *)
(** ** Properties of [/trending] *)

(** C1. On every request with a valid source, the adapter names of [data]
    followed by those of [errors] are a rearrangement, without repetition,
    of the selected adapters: a selected adapter is named in exactly one of
    the two lists and exactly once, an adapter that was not selected is named
    in neither; the selected adapters are all five for ["all"] and the
    requested one otherwise. *)
Theorem trending_partition w payload :
  let source := lower (TrendingRequest.source payload) in
  source ∈ allowed →
  ∃ r, trending w payload = (selected source, Respond r) ∧
    data_names r ++ error_names r ≡ₚ selected source ∧
    NoDup (data_names r ++ error_names r) ∧
    (∀ name, name ∈ selected source →
       (name ∈ data_names r ∧ (name ∉ error_names r))
       ∨ ((name ∉ data_names r) ∧ name ∈ error_names r)) ∧
    (∀ name, name ∉ selected source →
       (name ∉ data_names r) ∧ (name ∉ error_names r)) ∧
    (source = "all" →
       selected source
       = ["google_trends"; "google_news"; "reddit"; "reuters"; "flipboard"]
       ∧ length (data_names r ++ error_names r) = 5%nat) ∧
    (source ≠ "all" → selected source = [source]).
Proof.
  intros source Hin. rewrite trending_fanout by done. fold source.
  eexists. split; [reflexivity|].
  unfold data_names, error_names.
  cbn [TrendingResponse.data TrendingResponse.errors].
  assert (Hsrc : ∀ name r, name ∈ selected source →
                 call_adapter w payload name = Returned r →
                 SourceResult.source r = name).
  { intros name r [_ Hn]%elem_of_selected. by apply call_adapter_source. }
  pose proof (collected_names _ _ Hsrc) as Hperm.
  assert (Hnd : NoDup ((SourceResult.source <$>
                          returned_of (call_adapter w payload) (selected source))
                       ++ (SourceError.source <$>
                          raised_of (call_adapter w payload) (selected source)))).
  { rewrite Hperm. apply NoDup_selected. }
  split; [done|]. split; [done|].
  apply NoDup_app in Hnd as (_ & Hdisj & _).
  repeat split.
  - intros name Hn. rewrite <- Hperm in Hn. apply elem_of_app in Hn as [Hn|Hn].
    + left. split; [done|]. by apply Hdisj.
    + right. split; [|done]. intros Hd. by apply (Hdisj name).
  - intros Hd. apply H. rewrite <- Hperm. apply elem_of_app. by left.
  - intros He. apply H. rewrite <- Hperm. apply elem_of_app. by right.
  - rewrite H. apply selected_all.
  - rewrite Hperm, H. reflexivity.
  - intros Hne. by apply selected_one.
Qed.

Lemma trending_partition_witness :
  lower "ALL" ∈ allowed ∧
  ∃ r, trending world_up (request_of "ALL" 3 "US") = (selected "all", Respond r) ∧
    data_names r ++ error_names r ≡ₚ selected "all" ∧
    NoDup (data_names r ++ error_names r).
Proof.
  assert (Hin : lower "ALL" ∈ allowed) by (vm_compute; reflexivity).
  split; [exact Hin|].
  destruct (trending_partition world_up (request_of "ALL" 3 "US") Hin)
    as (r & Hr & Hperm & Hnd & _).
  exists r. repeat split; assumption.
Defined.

(** C2. For every selected adapter of a request with a valid source: the
    adapter is invoked (the adapters invoked are exactly the selected ones,
    in order, whatever each of them did); if its call raises [e], the one
    entry of [errors] under its name is [{source: name, error: e}] and [data]
    has none under its name; if it returns [x], the one entry of [data]
    under its name is [x] and [errors] has none.  What it leaves in the two
    lists is the same in every world where its own call has the same outcome,
    whatever the other adapters do there. *)
Theorem safe_call_isolates w payload name :
  let source := lower (TrendingRequest.source payload) in
  source ∈ allowed →
  name ∈ selected source →
  ∃ r, trending w payload = (selected source, Respond r) ∧
    match call_adapter w payload name with
    | Raised e =>
      errors_of name r = [SourceError.mk name e] ∧ data_of name r = []
    | Returned x =>
      data_of name r = [x] ∧ errors_of name r = []
    end ∧
    ∀ w', call_adapter w' payload name = call_adapter w payload name →
      ∃ r', trending w' payload = (selected source, Respond r') ∧
        data_of name r' = data_of name r ∧
        errors_of name r' = errors_of name r.
Proof.
  intros source Hin Hname.
  assert (Hsrc : ∀ v n x, n ∈ selected source →
                 call_adapter v payload n = Returned x →
                 SourceResult.source x = n).
  { intros v n x [_ Hn]%elem_of_selected. by apply call_adapter_source. }
  assert (Hone : ∀ v, ∃ r, trending v payload = (selected source, Respond r) ∧
            data_of name r = data_entry name (call_adapter v payload name) ∧
            errors_of name r = error_entry name (call_adapter v payload name)).
  { intros v. rewrite trending_fanout by done. fold source.
    eexists. split; [reflexivity|]. unfold data_of, errors_of.
    cbn [TrendingResponse.data TrendingResponse.errors].
    rewrite returned_of_name, raised_of_name
      by eauto using NoDup_selected.
    by rewrite !decide_True by done. }
  destruct (Hone w) as (r & Hr & Hd & He). exists r.
  split; [done|]. split.
  - rewrite Hd, He. by destruct (call_adapter w payload name).
  - intros w' Hsame. destruct (Hone w') as (r' & Hr' & Hd' & He').
    exists r'. by rewrite Hd', He', Hd, He, Hsame.
Qed.

Lemma safe_call_isolates_witness :
  lower "all" ∈ allowed ∧ "flipboard" ∈ selected "all" ∧
  ∃ r, trending world_up (request_of "all" 5 "IN") = (selected "all", Respond r) ∧
    length (data_of "flipboard" r) = 1%nat ∧ errors_of "flipboard" r = [].
Proof.
  assert (Hin : lower "all" ∈ allowed) by (vm_compute; reflexivity).
  assert (Hsel : "flipboard" ∈ selected "all")
    by compute_done.
  split; [exact Hin|]. split; [exact Hsel|].
  destruct (safe_call_isolates world_up (request_of "all" 5 "IN")
              "flipboard" Hin Hsel) as (r & Hr & Hentry & _).
  exists r. split; [exact Hr|].
  remember (call_adapter world_up (request_of "all" 5 "IN") "flipboard")
    as o eqn:Ho.
  vm_compute in Ho. subst o. destruct Hentry as [Hd He].
  rewrite Hd, He. split; reflexivity.
Defined.

(** C3. The limit that [/trending] works with is [max(1, min(n, 10))]: that
    is the value of [clamp_limit] (1 below the range, [n] inside it, 10
    above; 0, 5, 999 and -3 give 1, 5, 10 and 1), it is the [limit] of every
    response, and it is the limit that every selected adapter is called
    with: what an adapter leaves in [data] or in [errors] is the entry of its
    call at that limit.  The handler does on [n] exactly what it does on the
    clamped value.  No value of [n] is rejected: the only error of the
    handler is the 400 of an invalid source. *)
Theorem trending_limit_clamped w payload :
  let n := TrendingRequest.limit payload in
  let limit := Z.max 1 (Z.min n 10) in
  let source := lower (TrendingRequest.source payload) in
  let country := TrendingRequest.country payload in
  clamp_limit n = limit ∧
  (n < 1 → clamp_limit n = 1) ∧
  (1 ≤ n ≤ 10 → clamp_limit n = n) ∧
  (10 < n → clamp_limit n = 10) ∧
  (clamp_limit 0 = 1 ∧ clamp_limit 5 = 5 ∧ clamp_limit 999 = 10
   ∧ clamp_limit (-3) = 1) ∧
  trending w payload = trending w (with_limit payload limit) ∧
  match trending w payload with
  | (_, Respond r) => TrendingResponse.limit r = limit
  | (_, HTTPException status_code _) =>
    status_code = 400 ∧ (source ∉ allowed)
  | (_, Uncaught _) => False
  end ∧
  (source ∈ allowed →
   ∃ r, trending w payload = (selected source, Respond r) ∧
     TrendingResponse.limit r = limit ∧
     (included source "google_trends" →
      data_of "google_trends" r
      = data_entry "google_trends" (get_google_trends w limit country) ∧
      errors_of "google_trends" r
      = error_entry "google_trends" (get_google_trends w limit country)) ∧
     (included source "google_news" →
      data_of "google_news" r
      = data_entry "google_news"
          (get_google_news w limit country
             (TrendingRequest.language payload)) ∧
      errors_of "google_news" r
      = error_entry "google_news"
          (get_google_news w limit country
             (TrendingRequest.language payload))) ∧
     (included source "reddit" →
      data_of "reddit" r
      = data_entry "reddit"
          (get_reddit w limit (TrendingRequest.subreddit payload)) ∧
      errors_of "reddit" r
      = error_entry "reddit"
          (get_reddit w limit (TrendingRequest.subreddit payload))) ∧
     (included source "reuters" →
      data_of "reuters" r = data_entry "reuters" (get_reuters w limit) ∧
      errors_of "reuters" r = error_entry "reuters" (get_reuters w limit)) ∧
     (included source "flipboard" →
      data_of "flipboard" r = data_entry "flipboard" (get_flipboard w limit) ∧
      errors_of "flipboard" r
      = error_entry "flipboard" (get_flipboard w limit))).
Proof.
  intros n limit source country.
  split; [done|]. unfold clamp_limit.
  split; [lia|]. split; [lia|]. split; [lia|].
  split; [done|]. split; [|split].
  - unfold trending, with_limit. cbn [TrendingRequest.limit
      TrendingRequest.source TrendingRequest.country TrendingRequest.language
      TrendingRequest.subreddit].
    fold n. fold limit. replace (clamp_limit limit) with (clamp_limit n)
      by (unfold clamp_limit, limit; lia).
    reflexivity.
  - destruct (decide (source ∈ allowed)) as [Hin|Hin].
    + by rewrite trending_fanout.
    + by rewrite trending_invalid.
  - intros Hin.
    destruct (trending_entries w payload Hin) as (r & Hr & Hl & Hentry).
    exists r. split; [exact Hr|]. split; [exact Hl|].
    assert (Hsel : ∀ name, name ∈ ADAPTERS → included source name →
                   name ∈ selected source).
    { intros name Hn Hi. by apply elem_of_selected. }
    split; [|split; [|split; [|split]]]; intros Hi; split.
    all: match goal with
         | |- data_of ?name _ = _ =>
           exact (proj1 (Hentry name (Hsel name ltac:(compute_done) Hi)))
         | |- errors_of ?name _ = _ =>
           exact (proj2 (Hentry name (Hsel name ltac:(compute_done) Hi)))
         end.
Qed.

Lemma trending_limit_clamped_witness :
  lower "reuters" ∈ allowed ∧
  ∃ r, trending world_long (request_of "reuters" 999 "IN")
       = (selected "reuters", Respond r) ∧
    TrendingResponse.limit r = 10 ∧
    data_of "reuters" r
    = [SourceResult.mk "reuters" (replicate 10 (TrendItem.mk "t" "" "")) None].
Proof.
  assert (Hin : lower "reuters" ∈ allowed) by (vm_compute; reflexivity).
  split; [exact Hin|].
  destruct (trending_limit_clamped world_long (request_of "reuters" 999 "IN"))
    as (_ & _ & _ & _ & _ & _ & _ & Hused).
  destruct (Hused Hin) as (r & Hr & Hl & _ & _ & _ & Hreuters & _).
  exists r. split; [exact Hr|]. split; [exact Hl|].
  destruct Hreuters as [Hd _]; [right; reflexivity|].
  rewrite Hd. reflexivity.
Defined.

(** C4. A request whose lower-cased source is not in [allowed] is answered
    with the 400 "Invalid source" and no adapter has been invoked; a request
    whose lower-cased source is in [allowed], that is one of the six names,
    is not rejected.  Only the lower-cased form counts: two requests whose
    sources have the same lower-cased form are rejected together or not at
    all. *)
Theorem trending_source_validation w payload :
  let source := lower (TrendingRequest.source payload) in
  (source ∉ allowed →
     trending w payload = ([], HTTPException 400 "Invalid source")) ∧
  (source ∈ allowed →
     ∃ r, trending w payload = (selected source, Respond r)) ∧
  (source ∈ allowed ↔
     source = "all" ∨ source = "google_trends" ∨ source = "google_news"
     ∨ source = "reddit" ∨ source = "reuters" ∨ source = "flipboard") ∧
  (∀ payload', lower (TrendingRequest.source payload') = source →
     (trending w payload' = ([], HTTPException 400 "Invalid source")
      ↔ trending w payload = ([], HTTPException 400 "Invalid source"))).
Proof.
  intros source. split; [apply trending_invalid|]. split.
  { intros Hin. rewrite trending_fanout by done. eauto. }
  split; [apply allowed_cases|].
  assert (Hrej : ∀ p, trending w p = ([], HTTPException 400 "Invalid source")
                      ↔ lower (TrendingRequest.source p) ∉ allowed).
  { intros p. split; [|apply trending_invalid].
    intros Hp Hin. by rewrite trending_fanout in Hp. }
  intros payload' Hsame. by rewrite !Hrej, Hsame.
Qed.

Lemma trending_source_validation_witness :
  trending world_up (request_of "twitter" 5 "IN")
  = ([], HTTPException 400 "Invalid source")
  ∧ ∃ r, trending world_up (request_of "ReDdIt" 5 "IN")
         = (selected "reddit", Respond r).
Proof.
  split.
  - apply (proj1 (trending_source_validation world_up
                    (request_of "twitter" 5 "IN"))).
    compute_done.
  - apply (proj1 (proj2 (trending_source_validation world_up
                           (request_of "ReDdIt" 5 "IN")))).
    vm_compute. reflexivity.
Defined.

(** C5. On every request with a valid source, the adapter names of [data]
    and those of [errors] are each in the order google_trends, google_news,
    reddit, reuters, flipboard, restricted to the selected adapters; the
    adapters are invoked in that same order, which is one constant list
    whatever the source. *)
Theorem trending_order w payload :
  let source := lower (TrendingRequest.source payload) in
  source ∈ allowed →
  ∃ r, trending w payload = (selected source, Respond r) ∧
    data_names r `sublist_of` selected source ∧
    error_names r `sublist_of` selected source ∧
    selected source `sublist_of`
      ["google_trends"; "google_news"; "reddit"; "reuters"; "flipboard"].
Proof.
  intros source Hin. rewrite trending_fanout by done. fold source.
  eexists. split; [reflexivity|]. unfold data_names, error_names.
  cbn [TrendingResponse.data TrendingResponse.errors].
  rewrite raised_names, returned_names.
  - split; [apply sublist_filter|]. split; [apply sublist_filter|].
    apply selected_sublist.
  - intros name r [_ Hn]%elem_of_selected. by apply call_adapter_source.
Qed.

Lemma trending_order_witness :
  lower "All" ∈ allowed ∧
  ∃ r, trending world_up (request_of "All" 5 "IN") = (selected "all", Respond r) ∧
    data_names r `sublist_of` selected "all" ∧
    error_names r `sublist_of` selected "all".
Proof.
  assert (Hin : lower "All" ∈ allowed) by (vm_compute; reflexivity).
  split; [exact Hin|].
  destruct (trending_order world_up (request_of "All" 5 "IN") Hin)
    as (r & Hr & Hd & He & _).
  exists r. repeat split; assumption.
Defined.

(** C6. Every request with a valid source is answered with a body whose
    [success] is true; when every selected adapter raised, [data] is empty,
    [errors] names them all and [success] is still true.  The handler never
    lets an exception escape, and the only [HTTPException] it raises is the
    400 of an invalid source. *)
Theorem trending_always_success w payload :
  let source := lower (TrendingRequest.source payload) in
  (source ∈ allowed →
     ∃ r, trending w payload = (selected source, Respond r) ∧
       TrendingResponse.success r = true ∧
       ((∀ name, name ∈ selected source →
           returns (call_adapter w payload name) = false) →
        TrendingResponse.data r = [] ∧ error_names r = selected source)) ∧
  (∀ status_code detail,
     (trending w payload).2 = HTTPException status_code detail →
     status_code = 400 ∧ detail = "Invalid source" ∧ (source ∉ allowed)) ∧
  (∀ e, (trending w payload).2 ≠ Uncaught e).
Proof.
  intros source. split; [|split].
  - intros Hin. rewrite trending_fanout by done. fold source.
    eexists. split; [reflexivity|]. split; [reflexivity|].
    intros Hall. unfold error_names.
    cbn [TrendingResponse.data TrendingResponse.errors].
    rewrite raised_names. revert Hall. generalize (selected source).
    intros l Hall. unfold returned_of. induction l as [|a l IH]; [done|].
    cbn [omap list_omap]. rewrite filter_cons.
    pose proof (Hall a ltac:(left)) as Ha.
    destruct (call_adapter w payload a); [done|].
    destruct IH as [IH1 IH2].
    { intros name Hn. apply Hall. by right. }
    cbn. rewrite IH1. split; [done|]. by rewrite IH2.
  - intros status_code detail.
    destruct (decide (source ∈ allowed)) as [Hin|Hin].
    + by rewrite trending_fanout.
    + rewrite trending_invalid by done. by intros [= <- <-].
  - intros e. destruct (decide (source ∈ allowed)) as [Hin|Hin].
    + by rewrite trending_fanout.
    + by rewrite trending_invalid.
Qed.

Lemma trending_always_success_witness :
  lower "all" ∈ allowed ∧
  ∃ r, trending world_down (request_of "all" 5 "IN") = (selected "all", Respond r) ∧
    TrendingResponse.success r = true ∧
    TrendingResponse.data r = [] ∧ error_names r = selected "all".
Proof.
  assert (Hin : lower "all" ∈ allowed) by (vm_compute; reflexivity).
  split; [exact Hin|].
  destruct (proj1 (trending_always_success world_down
                     (request_of "all" 5 "IN")) Hin)
    as (r & Hr & Hs & Hall).
  exists r. split; [exact Hr|]. split; [exact Hs|]. apply Hall.
  intros name Hn. change (lower _) with "all" in Hn.
  rewrite selected_all in Hn. unfold ADAPTERS in Hn.
  rewrite !elem_of_cons, elem_of_nil in Hn.
  destruct Hn as [->|[->|[->|[->|[->|[]]]]]]; vm_compute; reflexivity.
Defined.

(** C7. When the client id or the client secret of the forum is absent,
    [get_reddit] returns [{source: "reddit", items: [], warning: "Reddit
    keys missing"}] and does not raise; a request for the source reddit then
    has that one result in [data] and nothing in [errors]. *)
Theorem reddit_soft_degrade w payload :
  REDDIT_CLIENT_ID w = None ∨ REDDIT_CLIENT_SECRET w = None →
  (∀ limit subreddit_name,
     get_reddit w limit subreddit_name
     = Returned (SourceResult.mk "reddit" [] (Some "Reddit keys missing"))) ∧
  (lower (TrendingRequest.source payload) = "reddit" →
   trending w payload =
     (["reddit"],
      Respond (TrendingResponse.mk true "reddit"
                 (clamp_limit (TrendingRequest.limit payload))
                 [SourceResult.mk "reddit" [] (Some "Reddit keys missing")]
                 []))).
Proof.
  intros Habsent.
  assert (Hget : ∀ limit subreddit_name,
            get_reddit w limit subreddit_name
            = Returned (SourceResult.mk "reddit" [] (Some "Reddit keys missing"))).
  { intros limit subreddit_name. unfold get_reddit.
    destruct Habsent as [-> | ->]; cbn [truthy andb negb]; [done|].
    by rewrite andb_false_r. }
  split; [exact Hget|].
  intros Hsrc. rewrite trending_fanout by (rewrite Hsrc; compute_done).
  rewrite Hsrc.
  replace (selected "reddit") with ["reddit"] by (vm_compute; reflexivity).
  unfold returned_of, raised_of. cbn [omap list_omap].
  replace (call_adapter w payload "reddit")
    with (get_reddit w (clamp_limit (TrendingRequest.limit payload))
            (TrendingRequest.subreddit payload)) by reflexivity.
  by rewrite Hget.
Qed.

Lemma reddit_soft_degrade_witness :
  (REDDIT_CLIENT_ID world_bare = None ∨ REDDIT_CLIENT_SECRET world_bare = None) ∧
  trending world_bare (request_of "reddit" 5 "IN") =
    (["reddit"],
     Respond (TrendingResponse.mk true "reddit" 5
                [SourceResult.mk "reddit" [] (Some "Reddit keys missing")] [])).
Proof.
  assert (H : REDDIT_CLIENT_ID world_bare = None
              ∨ REDDIT_CLIENT_SECRET world_bare = None) by (left; reflexivity).
  split; [exact H|].
  apply (proj2 (reddit_soft_degrade world_bare (request_of "reddit" 5 "IN") H)).
  reflexivity.
Defined.

(* ------------------------------------------------------------------ *)
(** ** The structured-trends adapter *)

(** C8. The table has the five entries IN, US, GB, CA and AU.  The adapter
    looks the country code up in upper case; a code that the table does not
    know gets the region [india], the first entry, and nothing is raised:
    [pn] is total.  With the terms that the provider returns for the region,
    the adapter returns those that [head(limit)] keeps, the first [limit] of
    them, each term [t] wrapped as [{title: t, link: "", published: ""}];
    it raises only what the provider raises. *)
Theorem pn_table_and_fallback w limit country :
  (size pn_map = 5%nat ∧ pn_map !! "IN" = Some "india"
   ∧ pn_map !! "US" = Some "united_states"
   ∧ pn_map !! "GB" = Some "united_kingdom"
   ∧ pn_map !! "CA" = Some "canada" ∧ pn_map !! "AU" = Some "australia") ∧
  (pn_map !! upper country = None → pn country = "india") ∧
  (∀ region, pn_map !! upper country = Some region → pn country = region) ∧
  (∀ terms,
     trending_searches w (pn country) = Returned terms →
     get_google_trends w limit country
     = Returned (SourceResult.mk "google_trends"
                   ((λ t, TrendItem.mk t "" "") <$> slice_to terms limit)
                   None)
     ∧ (0 ≤ limit → slice_to terms limit = take (Z.to_nat limit) terms)) ∧
  (∀ e, trending_searches w (pn country) = Raised e →
        get_google_trends w limit country = Raised e).
Proof.
  split; [by vm_compute|]. unfold pn.
  split; [by intros ->|]. split; [by intros region ->|].
  unfold get_google_trends, pn. split.
  - intros terms Hterms. rewrite Hterms. split; [done|].
    apply slice_to_nonneg.
  - by intros e ->.
Qed.

Lemma pn_table_and_fallback_witness :
  pn "ZZ" = "india" ∧ pn "us" = "united_states" ∧
  get_google_trends world_up 2 "us"
  = Returned (SourceResult.mk "google_trends"
                [TrendItem.mk "a" "" ""; TrendItem.mk "b" "" ""] None).
Proof.
  destruct (pn_table_and_fallback world_up 2 "ZZ") as (_ & Hzz & _).
  destruct (pn_table_and_fallback world_up 2 "us")
    as (_ & _ & Hus & Hwrap & _).
  split; [apply Hzz; reflexivity|]. split; [apply Hus; reflexivity|].
  destruct (Hwrap ["a"; "b"; "c"] eq_refl) as [Hget _].
  rewrite Hget. reflexivity.
Defined.

(** C10. The region does not depend on the letter case of the country
    code: a code and its upper-cased form get the same region and the same
    answer of the adapter, [str.upper] being applied before the lookup and
    keeping what it returns; [us] and [US] both get [united_states], not the
    fallback. *)
Theorem pn_case_insensitive w limit country :
  pn country = pn (upper country) ∧
  get_google_trends w limit country = get_google_trends w limit (upper country) ∧
  pn "us" = "united_states" ∧ pn "US" = "united_states" ∧
  pn "uſ" = "united_states".
Proof.
  assert (Hup : pn country = pn (upper country))
    by (unfold pn; by rewrite upper_idem).
  split; [done|].
  split; [unfold get_google_trends; by rewrite <- Hup|].
  repeat split; vm_compute; reflexivity.
Qed.

(* ------------------------------------------------------------------ *)
(** ** [/generate-image] *)

(** With no image-provider key in the environment, an empty prompt is
    answered with the 500 of the missing key, not with a 400. *)
Lemma generate_image_empty_prompt_counterexample :
  ¬ (∀ w payload,
       ImageRequest.prompt payload = "" →
       status_of (generate_image w payload).2 = 400).
Proof.
  intros H.
  specialize (H world_bare (ImageRequest.mk "" "landscape") eq_refl).
  vm_compute in H. discriminate H.
Qed.

(** C9, amended. On an empty prompt no call to the image provider is made;
    the answer is the 400 "Prompt is required" when the image-provider key
    is configured, and the 500 of the missing key when it is not. *)
Theorem generate_image_empty_prompt w payload :
  ImageRequest.prompt payload = "" →
  (generate_image w payload).1 = [] ∧
  (truthy (PEXELS_API_KEY w) = true →
     generate_image w payload = ([], HTTPException 400 "Prompt is required")) ∧
  (truthy (PEXELS_API_KEY w) = false →
     generate_image w payload
     = ([], HTTPException 500 "PEXELS_API_KEY missing in Render ENV")).
Proof.
  intros Hprompt. unfold generate_image. rewrite Hprompt.
  destruct (truthy (PEXELS_API_KEY w)); cbn; by repeat split.
Qed.

Lemma generate_image_empty_prompt_witness :
  ImageRequest.prompt (ImageRequest.mk "" "portrait") = "" ∧
  generate_image world_up (ImageRequest.mk "" "portrait")
  = ([], HTTPException 400 "Prompt is required").
Proof.
  split; [reflexivity|].
  apply (proj1 (proj2 (generate_image_empty_prompt world_up
                         (ImageRequest.mk "" "portrait") eq_refl))).
  reflexivity.
Defined.

(* ------------------------------------------------------------------ *)
(** ** [/generate-image], the whole handler *)

Lemma truthy_Some o :
  truthy o = true ↔ ∃ s, o = Some s ∧ s ≠ "".
Proof.
  destruct o as [s|]; cbn.
  - rewrite negb_true_iff. split.
    + intros H. exists s. split; [done|]. by apply String.eqb_neq.
    + intros (s' & [= <-] & Hne). by apply String.eqb_neq.
  - split; [done|]. by intros (s & ? & _).
Qed.

(** What the handler does once the key and the prompt are there. *)
Lemma generate_image_call w payload key :
  PEXELS_API_KEY w = Some key → key ≠ "" →
  ImageRequest.prompt payload ≠ "" →
  generate_image w payload =
    ([pexels_call key payload],
     match requests_get w (pexels_call key payload) with
     | Raised e => HTTPException 500 e
     | Returned response =>
       if negb (PexelsReply.status_code response =? 200) then
         HTTPException 500 (PexelsReply.text response)
       else
         match PexelsReply.json response with
         | Raised e => Uncaught e
         | Returned data =>
           match data with
           | None | Some [] => HTTPException 404 "No images found"
           | Some (photo :: _) =>
             match Photo.src_large photo, Photo.photographer photo with
             | Returned large, Returned name =>
               Respond (ImageResponse.mk true large name "pexels")
             | Raised e, _ => Uncaught e
             | _, Raised e => Uncaught e
             end
           end
         end
     end).
Proof.
  intros Hkey Hne Hprompt. unfold generate_image. rewrite Hkey.
  cbn [truthy default]. apply String.eqb_neq in Hne, Hprompt.
  by rewrite Hne, Hprompt.
Qed.

(** X1. Without an image-provider key, unset or set to the empty string,
    every request is answered with the 500 of the missing key, whatever the
    payload, and the image provider is not called. *)
Theorem generate_image_missing_key w payload :
  PEXELS_API_KEY w = None ∨ PEXELS_API_KEY w = Some "" →
  generate_image w payload
  = ([], HTTPException 500 "PEXELS_API_KEY missing in Render ENV").
Proof. intros [H|H]; unfold generate_image; by rewrite H. Qed.

Lemma generate_image_missing_key_witness :
  (PEXELS_API_KEY world_bare = None ∨ PEXELS_API_KEY world_bare = Some "") ∧
  generate_image world_bare (ImageRequest.mk "sunset" "landscape")
  = ([], HTTPException 500 "PEXELS_API_KEY missing in Render ENV").
Proof.
  assert (H : PEXELS_API_KEY world_bare = None
              ∨ PEXELS_API_KEY world_bare = Some "") by (left; reflexivity).
  split; [exact H|].
  exact (generate_image_missing_key world_bare
           (ImageRequest.mk "sunset" "landscape") H).
Defined.

(** X2. The image provider is called at most once per request, and it is
    called exactly when the key and the prompt are both non-empty; the one
    call carries the key as authorization, the prompt as query, the
    orientation of the payload, one result per page and a timeout of 10. *)
Theorem generate_image_calls w payload :
  ((generate_image w payload).1 = [] ↔
     truthy (PEXELS_API_KEY w) = false ∨ ImageRequest.prompt payload = "") ∧
  (∀ key, PEXELS_API_KEY w = Some key → key ≠ "" →
     ImageRequest.prompt payload ≠ "" →
     (generate_image w payload).1 =
       [PexelsCall.mk "https://api.pexels.com/v1/search" key
          (ImageRequest.prompt payload) 1
          (ImageRequest.orientation payload) 10]) ∧
  (length (generate_image w payload).1 ≤ 1)%nat.
Proof.
  split; [|split].
  - destruct (truthy (PEXELS_API_KEY w)) eqn:Hk.
    + apply truthy_Some in Hk as (key & Hkey & Hne).
      destruct (decide (ImageRequest.prompt payload = "")) as [Hp|Hp].
      * unfold generate_image. rewrite Hkey, Hp. cbn [truthy default].
        apply String.eqb_neq in Hne. rewrite Hne. cbn. tauto.
      * rewrite (generate_image_call w payload key) by done. cbn.
        split; [done|]. by intros [|].
    + unfold generate_image. rewrite Hk. cbn. tauto.
  - intros key Hkey Hne Hp.
    by rewrite (generate_image_call w payload key).
  - unfold generate_image.
    destruct (truthy (PEXELS_API_KEY w)); cbn; [|lia].
    destruct (String.eqb _ ""); cbn; lia.
Qed.

Lemma generate_image_calls_witness :
  (generate_image world_up (ImageRequest.mk "cat" "portrait")).1
  = [PexelsCall.mk "https://api.pexels.com/v1/search" "pexels-key" "cat" 1
       "portrait" 10].
Proof.
  apply (proj1 (proj2 (generate_image_calls world_up
                         (ImageRequest.mk "cat" "portrait")))
           "pexels-key"); [reflexivity|discriminate|discriminate].
Defined.

(** X3. With key and prompt in place, a failure of the upstream call is a
    500 whose detail is the text of the exception, and an answer with a
    status other than 200 is a 500 whose detail is the body of the answer. *)
Theorem generate_image_upstream_failure w payload key :
  PEXELS_API_KEY w = Some key → key ≠ "" →
  ImageRequest.prompt payload ≠ "" →
  (∀ e, requests_get w (pexels_call key payload) = Raised e →
        (generate_image w payload).2 = HTTPException 500 e) ∧
  (∀ response,
     requests_get w (pexels_call key payload) = Returned response →
     PexelsReply.status_code response ≠ 200 →
     (generate_image w payload).2
     = HTTPException 500 (PexelsReply.text response)).
Proof.
  intros Hkey Hne Hp. rewrite (generate_image_call w payload key) by done.
  split.
  - by intros e ->.
  - intros response -> Hstatus. cbn.
    apply Z.eqb_neq in Hstatus. by rewrite Hstatus.
Qed.

Lemma generate_image_upstream_failure_witness :
  (generate_image world_down (ImageRequest.mk "cat" "landscape")).2
  = HTTPException 500 "connection refused"
  ∧ (generate_image
       (world_with_pexels (Returned (PexelsReply.mk 429 "rate limited"
                                       (Raised "no json"))))
       (ImageRequest.mk "cat" "landscape")).2
    = HTTPException 500 "rate limited".
Proof.
  split.
  - apply (proj1 (generate_image_upstream_failure world_down
                    (ImageRequest.mk "cat" "landscape") "pexels-key"
                    eq_refl ltac:(discriminate) ltac:(discriminate))).
    reflexivity.
  - apply (proj2 (generate_image_upstream_failure
                    (world_with_pexels _)
                    (ImageRequest.mk "cat" "landscape") "pexels-key"
                    eq_refl ltac:(discriminate) ltac:(discriminate))
             (PexelsReply.mk 429 "rate limited" (Raised "no json")));
      [reflexivity|discriminate].
Defined.

(** X4. With key and prompt in place and an answer of status 200: a
    document without photos, or with an empty list of them, is a 404 "No
    images found"; otherwise the body is built from the first photo alone,
    with [success] true and [source] pexels, whatever photos follow it. *)
Theorem generate_image_first_photo w payload key response :
  PEXELS_API_KEY w = Some key → key ≠ "" →
  ImageRequest.prompt payload ≠ "" →
  requests_get w (pexels_call key payload) = Returned response →
  PexelsReply.status_code response = 200 →
  (PexelsReply.json response = Returned None
   ∨ PexelsReply.json response = Returned (Some []) →
   (generate_image w payload).2 = HTTPException 404 "No images found") ∧
  (∀ photo rest large name,
     PexelsReply.json response = Returned (Some (photo :: rest)) →
     Photo.src_large photo = Returned large →
     Photo.photographer photo = Returned name →
     (generate_image w payload).2
     = Respond (ImageResponse.mk true large name "pexels")).
Proof.
  intros Hkey Hne Hp Hget Hstatus.
  rewrite (generate_image_call w payload key) by done.
  rewrite Hget. cbn [snd]. rewrite Hstatus. cbn [Z.eqb negb Pos.eqb].
  split.
  - by intros [-> | ->].
  - by intros photo rest large name -> -> ->.
Qed.

Lemma generate_image_first_photo_witness :
  (generate_image
     (world_with_pexels (Returned (PexelsReply.mk 200 "{}" (Returned None))))
     (ImageRequest.mk "cat" "landscape")).2
  = HTTPException 404 "No images found"
  ∧ (generate_image world_up (ImageRequest.mk "cat" "landscape")).2
    = Respond (ImageResponse.mk true "http://img" "Ann" "pexels").
Proof.
  split.
  - apply (proj1 (generate_image_first_photo (world_with_pexels _)
                    (ImageRequest.mk "cat" "landscape") "pexels-key"
                    (PexelsReply.mk 200 "{}" (Returned None))
                    eq_refl ltac:(discriminate) ltac:(discriminate)
                    eq_refl eq_refl)).
    left. reflexivity.
  - apply (proj2 (generate_image_first_photo world_up
                    (ImageRequest.mk "cat" "landscape") "pexels-key" _
                    eq_refl ltac:(discriminate) ltac:(discriminate)
                    eq_refl eq_refl)
             (Photo.mk (Returned "http://img") (Returned "Ann")) []);
      reflexivity.
Defined.

(** X5. With key and prompt in place and an answer of status 200, a body
    that cannot be read as a JSON object, or a first photo without its
    [src]/[large] or [photographer] key, is not handled: the exception
    leaves the handler uncaught, which the framework answers with a 500. *)
Theorem generate_image_uncaught w payload key response :
  PEXELS_API_KEY w = Some key → key ≠ "" →
  ImageRequest.prompt payload ≠ "" →
  requests_get w (pexels_call key payload) = Returned response →
  PexelsReply.status_code response = 200 →
  (∀ e, PexelsReply.json response = Raised e →
        (generate_image w payload).2 = Uncaught e) ∧
  (∀ photo rest e,
     PexelsReply.json response = Returned (Some (photo :: rest)) →
     Photo.src_large photo = Raised e →
     (generate_image w payload).2 = Uncaught e) ∧
  (∀ photo rest large e,
     PexelsReply.json response = Returned (Some (photo :: rest)) →
     Photo.src_large photo = Returned large →
     Photo.photographer photo = Raised e →
     (generate_image w payload).2 = Uncaught e).
Proof.
  intros Hkey Hne Hp Hget Hstatus.
  rewrite (generate_image_call w payload key) by done.
  rewrite Hget. cbn [snd]. rewrite Hstatus. cbn [Z.eqb negb Pos.eqb].
  split; [by intros e ->|]. split.
  - by intros photo rest e -> ->.
  - by intros photo rest large e -> -> ->.
Qed.

Lemma generate_image_uncaught_witness :
  generate_image
    (world_with_pexels
       (Returned (PexelsReply.mk 200 "<html>" (Raised "Expecting value"))))
    (ImageRequest.mk "cat" "landscape")
  = ([pexels_call "pexels-key" (ImageRequest.mk "cat" "landscape")],
     Uncaught "Expecting value")
  ∧ status_of (Uncaught (A := ImageResponse.t) "Expecting value") = 500.
Proof.
  split; [|reflexivity].
  pose proof (proj1 (generate_image_uncaught (world_with_pexels _)
                    (ImageRequest.mk "cat" "landscape") "pexels-key"
                    (PexelsReply.mk 200 "<html>" (Raised "Expecting value"))
                    eq_refl ltac:(discriminate) ltac:(discriminate)
                    eq_refl eq_refl) "Expecting value" eq_refl) as H.
  rewrite <- H. reflexivity.
Defined.

(** X6. A body is returned only after an upstream call that was answered
    with status 200 and a first photo: then [success] is true, [source] is
    pexels, and the URL and the photographer are those of that photo. *)
Theorem generate_image_success_inv w payload calls r :
  generate_image w payload = (calls, Respond r) →
  ImageResponse.success r = true ∧ ImageResponse.source r = "pexels" ∧
  ImageRequest.prompt payload ≠ "" ∧
  ∃ key response photo rest,
    PEXELS_API_KEY w = Some key ∧ key ≠ "" ∧
    calls = [pexels_call key payload] ∧
    requests_get w (pexels_call key payload) = Returned response ∧
    PexelsReply.status_code response = 200 ∧
    PexelsReply.json response = Returned (Some (photo :: rest)) ∧
    Photo.src_large photo = Returned (ImageResponse.image_url r) ∧
    Photo.photographer photo = Returned (ImageResponse.photographer r).
Proof.
  destruct (truthy (PEXELS_API_KEY w)) eqn:Hk.
  2:{ unfold generate_image. rewrite Hk. cbn. by intros [= _ ?]. }
  apply truthy_Some in Hk as (key & Hkey & Hne).
  destruct (decide (ImageRequest.prompt payload = "")) as [Hp|Hp].
  { unfold generate_image. rewrite Hkey, Hp. cbn [truthy default].
    apply String.eqb_neq in Hne. rewrite Hne. cbn. by intros [= _ ?]. }
  rewrite (generate_image_call w payload key) by done.
  destruct (requests_get w (pexels_call key payload)) as [response|e] eqn:Hget;
    [|by intros [= _ ?]].
  destruct (PexelsReply.status_code response =? 200) eqn:Hstatus;
    cbn [negb]; [|by intros [= _ ?]].
  apply Z.eqb_eq in Hstatus.
  destruct (PexelsReply.json response) as [[[|photo rest]|]|e] eqn:Hjson;
    try by intros [= _ ?].
  destruct (Photo.src_large photo) as [large|e] eqn:Hlarge;
    [|by intros [= _ ?]].
  destruct (Photo.photographer photo) as [name|e] eqn:Hname;
    [|by intros [= _ ?]].
  intros [= <- <-]. cbn. do 3 (split; [done|]).
  exists key, response, photo, rest. by rewrite Hlarge, Hname.
Qed.

Lemma generate_image_success_inv_witness :
  generate_image world_up (ImageRequest.mk "cat" "landscape")
  = ([pexels_call "pexels-key" (ImageRequest.mk "cat" "landscape")],
     Respond (ImageResponse.mk true "http://img" "Ann" "pexels"))
  ∧ ImageResponse.source (ImageResponse.mk true "http://img" "Ann" "pexels")
    = "pexels".
Proof.
  assert (H : generate_image world_up (ImageRequest.mk "cat" "landscape")
    = ([pexels_call "pexels-key" (ImageRequest.mk "cat" "landscape")],
       Respond (ImageResponse.mk true "http://img" "Ann" "pexels")))
    by reflexivity.
  split; [exact H|].
  exact (proj1 (proj2 (generate_image_success_inv _ _ _ _ H))).
Defined.

(** X7. The status of an answer of [/generate-image] is 200, 400, 404 or
    500, and it is 400 only for an empty prompt, 404 only after an upstream
    call. *)
Theorem generate_image_statuses w payload :
  let status := status_of (generate_image w payload).2 in
  (status = 200 ∨ status = 400 ∨ status = 404 ∨ status = 500) ∧
  (status = 400 → ImageRequest.prompt payload = ""
                  ∧ (generate_image w payload).1 = []) ∧
  (status = 404 ∨ status = 200 →
     ∃ call, (generate_image w payload).1 = [call]).
Proof.
  cbv zeta.
  destruct (truthy (PEXELS_API_KEY w)) eqn:Hk.
  2:{ unfold generate_image. rewrite Hk. cbn.
      split; [tauto|]. split; [done|]. by intros [|]. }
  apply truthy_Some in Hk as (key & Hkey & Hne).
  destruct (decide (ImageRequest.prompt payload = "")) as [Hp|Hp].
  { unfold generate_image. rewrite Hkey, Hp. cbn [truthy default].
    apply String.eqb_neq in Hne. rewrite Hne. cbn.
    split; [tauto|]. split; [done|]. by intros [|]. }
  rewrite (generate_image_call w payload key) by done. cbn [fst snd].
  assert (Hcall : ∃ call, [pexels_call key payload] = [call]) by eauto.
  destruct (requests_get w (pexels_call key payload)) as [response|e];
    [|cbn; split; [tauto|]; split; [done|]; by intros [|]].
  destruct (PexelsReply.status_code response =? 200); cbn [negb];
    [|cbn; split; [tauto|]; split; [done|]; by intros [|]].
  destruct (PexelsReply.json response) as [[[|photo rest]|]|e];
    try (cbn; split; [tauto|]; split; [done|]; by intros [|]).
  destruct (Photo.src_large photo), (Photo.photographer photo);
    cbn; (split; [tauto|]; split; [done|]; by intros [|]).
Qed.

Lemma generate_image_statuses_witness :
  status_of (generate_image world_up (ImageRequest.mk "" "landscape")).2 = 400
  ∧ ImageRequest.prompt (ImageRequest.mk "" "landscape") = "".
Proof.
  assert (H : status_of (generate_image world_up
                           (ImageRequest.mk "" "landscape")).2 = 400)
    by reflexivity.
  split; [exact H|].
  exact (proj1 (proj1 (proj2 (generate_image_statuses world_up
                                (ImageRequest.mk "" "landscape"))) H)).
Defined.

(* ------------------------------------------------------------------ *)
(** ** The adapters on their own *)

Lemma length_slice_to {A} (l : list A) n :
  length (slice_to l n)
  = if 0 <=? n then Nat.min (Z.to_nat n) (length l)
    else (length l - Z.to_nat (- n))%nat.
Proof.
  unfold slice_to. destruct (0 <=? n); rewrite length_take; lia.
Qed.

Lemma lookup_slice_to {A} (l : list A) n i x :
  slice_to l n !! i = Some x → l !! i = Some x.
Proof.
  unfold slice_to. destruct (0 <=? n); by intros [? _]%lookup_take_Some.
Qed.

Lemma rss_top_returned w rss_url limit entries :
  feedparser_parse w rss_url = Returned entries →
  rss_top w rss_url limit
  = Returned (item_of_entry <$> slice_to entries limit).
Proof. intros H. unfold rss_top. by rewrite H. Qed.

Lemma rss_top_raised w rss_url limit e :
  rss_top w rss_url limit = Raised e ↔ feedparser_parse w rss_url = Raised e.
Proof.
  unfold rss_top, mbind, outcome_bind, mret, outcome_ret.
  destruct (feedparser_parse w rss_url); split; congruence.
Qed.

(** X8. When the feed is parsed, [rss_top] with a limit that is not
    negative returns min(limit, number of entries) items, none for a limit
    of 0; the item at each position is made from the entry at the same
    position of the feed, and an attribute the entry lacks is the empty
    string. *)
Theorem rss_top_items w rss_url limit entries :
  feedparser_parse w rss_url = Returned entries →
  0 ≤ limit →
  ∃ items, rss_top w rss_url limit = Returned items ∧
    length items = Nat.min (Z.to_nat limit) (length entries) ∧
    (limit = 0 → items = []) ∧
    ∀ i item, items !! i = Some item →
      ∃ entry, entries !! i = Some entry ∧
        TrendItem.title item = default "" (Entry.title entry) ∧
        TrendItem.link item = default "" (Entry.link entry) ∧
        TrendItem.published item = default "" (Entry.published entry).
Proof.
  intros Hfeed Hlimit. rewrite (rss_top_returned _ _ _ _ Hfeed).
  eexists. split; [reflexivity|]. split; [|split].
  - rewrite length_fmap, length_slice_to.
    by rewrite (proj2 (Z.leb_le 0 limit) Hlimit).
  - intros ->. reflexivity.
  - intros i item (entry & -> & Hentry)%list_lookup_fmap_Some.
    exists entry. split; [by eapply lookup_slice_to|done].
Qed.

Lemma rss_top_items_witness :
  ∃ items, rss_top world_all_up reuters_url 2 = Returned items ∧
    length items = 2%nat ∧
    items !! 1%nat = Some (TrendItem.mk "" "l2" "").
Proof.
  destruct (rss_top_items world_all_up reuters_url 2 _ eq_refl ltac:(lia))
    as (items & Hitems & Hlen & _).
  exists items. split; [exact Hitems|]. split; [exact Hlen|].
  vm_compute in Hitems. injection Hitems as <-. reflexivity.
Defined.

(** X9. With a negative limit [rss_top] returns the items of all the
    entries of the feed but the last [-limit], in order: as many items as
    there are entries beyond [-limit], hence none exactly when the feed has
    at most [-limit] entries. *)
Theorem rss_top_negative_limit w rss_url limit entries :
  feedparser_parse w rss_url = Returned entries →
  limit < 0 →
  ∃ items, rss_top w rss_url limit = Returned items ∧
    length items = (length entries - Z.to_nat (- limit))%nat ∧
    (items = [] ↔ (length entries ≤ Z.to_nat (- limit))%nat) ∧
    ∀ i item, items !! i = Some item →
      ∃ entry, entries !! i = Some entry ∧ item = item_of_entry entry.
Proof.
  intros Hfeed Hlimit. rewrite (rss_top_returned _ _ _ _ Hfeed).
  eexists. split; [reflexivity|].
  assert (Hlen : length (item_of_entry <$> slice_to entries limit)
                 = (length entries - Z.to_nat (- limit))%nat).
  { rewrite length_fmap, length_slice_to.
    by rewrite (proj2 (Z.leb_gt 0 limit) Hlimit). }
  split; [exact Hlen|]. split.
  - rewrite <- length_zero_iff_nil, Hlen. lia.
  - intros i item (entry & -> & Hentry)%list_lookup_fmap_Some.
    exists entry. split; [by eapply lookup_slice_to|done].
Qed.

Lemma rss_top_negative_limit_witness :
  rss_top world_all_up flipboard_url (-1)
  = Returned [TrendItem.mk "e1" "" ""; TrendItem.mk "" "l2" ""]
  ∧ rss_top world_all_up flipboard_url (-5) = Returned [].
Proof.
  destruct (rss_top_negative_limit world_all_up flipboard_url (-1) _ eq_refl
              ltac:(lia)) as (items & Hitems & _).
  destruct (rss_top_negative_limit world_all_up flipboard_url (-5) _ eq_refl
              ltac:(lia)) as (none & Hnone & _ & Hempty & _).
  split.
  - rewrite Hitems. vm_compute in Hitems. by injection Hitems as <-.
  - rewrite Hnone. f_equal. apply Hempty. vm_compute. lia.
Defined.

(** X10. A feed adapter raises exactly when parsing its feed raises, with
    the same exception; when it returns, the result has the adapter's name,
    the items of [rss_top] and no warning.  The feed of the news adapter is
    the URL built from the language and the country as they were given;
    those of the two others are fixed. *)
Theorem feed_adapters_propagate w limit country language :
  (∀ e, get_google_news w limit country language = Raised e
        ↔ feedparser_parse w (google_news_url country language) = Raised e) ∧
  (∀ e, get_reuters w limit = Raised e
        ↔ feedparser_parse w reuters_url = Raised e) ∧
  (∀ e, get_flipboard w limit = Raised e
        ↔ feedparser_parse w flipboard_url = Raised e) ∧
  (∀ x, get_google_news w limit country language = Returned x →
        SourceResult.warning x = None ∧
        rss_top w (google_news_url country language) limit
        = Returned (SourceResult.items x)) ∧
  (∀ x, get_reuters w limit = Returned x →
        SourceResult.warning x = None ∧
        rss_top w reuters_url limit = Returned (SourceResult.items x)) ∧
  (∀ x, get_flipboard w limit = Returned x →
        SourceResult.warning x = None ∧
        rss_top w flipboard_url limit = Returned (SourceResult.items x)).
Proof.
  unfold get_google_news, get_reuters, get_flipboard.
  fold (google_news_url country language). fold reuters_url flipboard_url.
  split; [|split; [|split; [|split; [|split]]]].
  all: unfold mbind, outcome_bind, mret, outcome_ret.
  1-3: intros e; rewrite <- (rss_top_raised w _ limit);
       destruct (rss_top w _ limit); split; congruence.
  all: intros x; destruct (rss_top w _ limit);
       [by intros [= <-]|done].
Qed.

Lemma feed_adapters_propagate_witness :
  get_reuters world_up 5 = Raised "feed unreachable"
  ∧ ∃ x, get_flipboard world_up 1 = Returned x ∧
      SourceResult.warning x = None ∧
      rss_top world_up flipboard_url 1 = Returned (SourceResult.items x).
Proof.
  destruct (feed_adapters_propagate world_up 5 "IN" "en")
    as (_ & Hr & _).
  destruct (feed_adapters_propagate world_up 1 "IN" "en")
    as (_ & _ & _ & _ & _ & Hf).
  split; [apply Hr; reflexivity|].
  eexists. split; [reflexivity|]. apply Hf. reflexivity.
Defined.

(** X11. The region handed to the trends provider is always one of the five
    regions of the table, so the adapter gives the same answer in two worlds
    whose providers agree on those five regions. *)
Theorem pn_range w w' limit country :
  pn country ∈ REGIONS ∧
  ((∀ region, region ∈ REGIONS →
      trending_searches w region = trending_searches w' region) →
   get_google_trends w limit country = get_google_trends w' limit country).
Proof.
  assert (Hpn : pn country ∈ REGIONS).
  { unfold pn. destruct (pn_map !! upper country) as [region|] eqn:Hlook.
    - apply elem_of_list_to_map_2 in Hlook. cbn [default].
      rewrite !elem_of_cons, elem_of_nil in Hlook.
      destruct Hlook as [[= _ ->]|[[= _ ->]|[[= _ ->]|[[= _ ->]|[[= _ ->]|[]]]]]];
        compute_done.
    - compute_done. }
  split; [exact Hpn|].
  intros Hagree. unfold get_google_trends. by rewrite (Hagree _ Hpn).
Qed.

Lemma pn_range_witness :
  get_google_trends world_up 3 "zz" = get_google_trends world_all_up 3 "zz".
Proof.
  apply (proj2 (pn_range world_up world_all_up 3 "zz")).
  intros region _. reflexivity.
Defined.

(** X12. With both forum credentials non-empty, [get_reddit] returns one
    item per post that the forum returned, in the same order and without
    cutting the list itself: the title and the URL of the post, and an
    empty [published]; there is no warning.  It raises exactly what the
    forum raises. *)
Theorem get_reddit_with_credentials w limit subreddit_name :
  truthy (REDDIT_CLIENT_ID w) = true →
  truthy (REDDIT_CLIENT_SECRET w) = true →
  (∀ posts, subreddit_hot w subreddit_name limit = Returned posts →
     ∃ x, get_reddit w limit subreddit_name = Returned x ∧
       SourceResult.source x = "reddit" ∧ SourceResult.warning x = None ∧
       length (SourceResult.items x) = length posts ∧
       ∀ i post, posts !! i = Some post →
         SourceResult.items x !! i
         = Some (TrendItem.mk (Post.title post) (Post.url post) "")) ∧
  (∀ e, get_reddit w limit subreddit_name = Raised e
        ↔ subreddit_hot w subreddit_name limit = Raised e).
Proof.
  intros Hid Hsecret. unfold get_reddit. rewrite Hid, Hsecret.
  cbn [andb negb]. unfold mbind, outcome_bind, mret, outcome_ret. split.
  - intros posts ->. eexists. split; [reflexivity|].
    cbn [SourceResult.source SourceResult.warning SourceResult.items].
    split; [done|]. split; [done|]. split; [apply length_fmap|].
    intros i post Hpost. by rewrite list_lookup_fmap, Hpost.
  - intros e. destruct (subreddit_hot w subreddit_name limit);
      split; congruence.
Qed.

Lemma get_reddit_with_credentials_witness :
  ∃ x, get_reddit world_up 5 "python" = Returned x ∧
    SourceResult.items x = [TrendItem.mk "p1" "http://r/1" ""].
Proof.
  destruct (proj1 (get_reddit_with_credentials world_up 5 "python"
                     eq_refl eq_refl) [Post.mk "p1" "http://r/1"] eq_refl)
    as (x & Hx & _).
  exists x. split; [exact Hx|].
  vm_compute in Hx. injection Hx as <-. reflexivity.
Defined.

(** X13. A forum credential that is set to the empty string counts as
    missing: the adapter returns the empty result with the warning and does
    not consult the forum. *)
Theorem get_reddit_empty_credential w limit subreddit_name :
  REDDIT_CLIENT_ID w = Some "" ∨ REDDIT_CLIENT_SECRET w = Some "" →
  get_reddit w limit subreddit_name
  = Returned (SourceResult.mk "reddit" [] (Some "Reddit keys missing")).
Proof.
  intros [H|H]; unfold get_reddit; rewrite H; cbn [truthy String.eqb negb andb];
    [done|by rewrite andb_false_r].
Qed.

Lemma get_reddit_empty_credential_witness :
  get_reddit (world_with_reddit_keys (Some "id") (Some "")) 5 "python"
  = Returned (SourceResult.mk "reddit" [] (Some "Reddit keys missing")).
Proof.
  apply (get_reddit_empty_credential
           (world_with_reddit_keys (Some "id") (Some "")) 5 "python").
  right. reflexivity.
Defined.

(** The number of items of the adapters that cut their list. *)
Lemma get_google_trends_length w limit country x :
  0 ≤ limit → get_google_trends w limit country = Returned x →
  (length (SourceResult.items x) ≤ Z.to_nat limit)%nat.
Proof.
  intros Hl. unfold get_google_trends, mbind, outcome_bind, mret, outcome_ret.
  destruct (trending_searches w (pn country)); [|done].
  intros [= <-]. cbn. rewrite length_fmap, length_slice_to.
  rewrite (proj2 (Z.leb_le 0 limit) Hl). lia.
Qed.

Lemma rss_top_length w rss_url limit items :
  0 ≤ limit → rss_top w rss_url limit = Returned items →
  (length items ≤ Z.to_nat limit)%nat.
Proof.
  intros Hl. unfold rss_top, mbind, outcome_bind, mret, outcome_ret.
  destruct (feedparser_parse w rss_url); [|done].
  intros [= <-]. rewrite length_fmap, length_slice_to.
  rewrite (proj2 (Z.leb_le 0 limit) Hl). lia.
Qed.

Lemma feed_adapter_length w limit country language x :
  0 ≤ limit →
  get_google_news w limit country language = Returned x
  ∨ get_reuters w limit = Returned x ∨ get_flipboard w limit = Returned x →
  (length (SourceResult.items x) ≤ Z.to_nat limit)%nat.
Proof.
  intros Hl.
  unfold get_google_news, get_reuters, get_flipboard,
    mbind, outcome_bind, mret, outcome_ret.
  intros [H|[H|H]];
    match type of H with
    | context [rss_top w ?u limit] =>
      pose proof (rss_top_length w u limit) as Hlen;
      destruct (rss_top w u limit); [|done]
    end;
    injection H as <-; by apply Hlen.
Qed.

(* ------------------------------------------------------------------ *)
(** ** [/trending], what a response tells *)

Lemma trending_respond_inv w payload calls r :
  trending w payload = (calls, Respond r) →
  let source := lower (TrendingRequest.source payload) in
  source ∈ allowed ∧ calls = selected source ∧
  r = TrendingResponse.mk true source
        (clamp_limit (TrendingRequest.limit payload))
        (returned_of (call_adapter w payload) (selected source))
        (raised_of (call_adapter w payload) (selected source)).
Proof.
  intros H source.
  destruct (decide (source ∈ allowed)) as [Hin|Hin].
  - rewrite trending_fanout in H by done. by injection H as <- <-.
  - by rewrite trending_invalid in H.
Qed.

Lemma elem_of_returned_of call names x :
  x ∈ returned_of call names ↔ ∃ name, name ∈ names ∧ call name = Returned x.
Proof.
  unfold returned_of. rewrite list_elem_of_omap. split.
  - intros (name & Hn & Hc). exists name. split; [done|].
    destruct (call name); congruence.
  - intros (name & Hn & Hc). exists name. by rewrite Hc.
Qed.

Lemma call_adapter_cases w payload name :
  name ∈ ADAPTERS →
  let limit := clamp_limit (TrendingRequest.limit payload) in
  (name = "google_trends" ∧
   call_adapter w payload name
   = get_google_trends w limit (TrendingRequest.country payload))
  ∨ (name = "google_news" ∧
     call_adapter w payload name
     = get_google_news w limit (TrendingRequest.country payload)
         (TrendingRequest.language payload))
  ∨ (name = "reddit" ∧
     call_adapter w payload name
     = get_reddit w limit (TrendingRequest.subreddit payload))
  ∨ (name = "reuters" ∧ call_adapter w payload name = get_reuters w limit)
  ∨ (name = "flipboard" ∧ call_adapter w payload name = get_flipboard w limit).
Proof.
  intros Hin. unfold ADAPTERS in Hin.
  rewrite !elem_of_cons, elem_of_nil in Hin.
  destruct Hin as [->|[->|[->|[->|[->|[]]]]]]; cbv zeta; tauto.
Qed.

Lemma get_reddit_falsy w limit subreddit_name :
  truthy (REDDIT_CLIENT_ID w) && truthy (REDDIT_CLIENT_SECRET w) = false →
  get_reddit w limit subreddit_name
  = Returned (SourceResult.mk "reddit" [] (Some "Reddit keys missing")).
Proof. intros H. unfold get_reddit. by rewrite H. Qed.

(** A request for one adapter: one call, one entry. *)
Lemma trending_single w payload name :
  lower (TrendingRequest.source payload) = name →
  name ∈ ADAPTERS →
  trending w payload =
    ([name],
     Respond (TrendingResponse.mk true name
                (clamp_limit (TrendingRequest.limit payload))
                (data_entry name (call_adapter w payload name))
                (error_entry name (call_adapter w payload name)))).
Proof.
  intros Hs Hin.
  assert (Hall : name ∈ allowed ∧ name ≠ "all").
  { unfold ADAPTERS in Hin. rewrite !elem_of_cons, elem_of_nil in Hin.
    rewrite allowed_cases.
    destruct Hin as [->|[->|[->|[->|[->|[]]]]]]; split; auto 7; discriminate. }
  destruct Hall as [Hall Hne].
  rewrite trending_fanout by (by rewrite Hs). rewrite Hs.
  rewrite selected_one by done. unfold returned_of, raised_of.
  cbn [omap list_omap]. by destruct (call_adapter w payload name).
Qed.

(** X14. In every response, a result of the trends adapter or of a feed
    adapter has at most [limit] items, [limit] being the clamped limit of
    the response, hence at most 10. *)
Theorem trending_items_bounded w payload calls r x :
  trending w payload = (calls, Respond r) →
  x ∈ TrendingResponse.data r →
  SourceResult.source x ≠ "reddit" →
  Z.of_nat (length (SourceResult.items x)) ≤ TrendingResponse.limit r ≤ 10.
Proof.
  intros (Hvalid & _ & ->)%trending_respond_inv Hx Hsrc.
  cbn [TrendingResponse.data TrendingResponse.limit] in *.
  pose proof (clamp_limit_range (TrendingRequest.limit payload)) as Hrange.
  split; [|lia].
  apply elem_of_returned_of in Hx as (name & Hname & Hcall).
  apply elem_of_selected in Hname as [_ Hname].
  assert (Hl : 0 ≤ clamp_limit (TrendingRequest.limit payload)) by lia.
  cut (length (SourceResult.items x)
       ≤ Z.to_nat (clamp_limit (TrendingRequest.limit payload)))%nat; [lia|].
  destruct (call_adapter_cases w payload name Hname)
    as [[-> E]|[[-> E]|[[-> E]|[[-> E]|[-> E]]]]]; rewrite E in Hcall.
  - by eapply get_google_trends_length.
  - eapply feed_adapter_length; eauto.
  - by apply get_reddit_source in Hcall.
  - eapply (feed_adapter_length w _ "" ""); eauto.
  - eapply (feed_adapter_length w _ "" ""); eauto.
Qed.

Lemma trending_items_bounded_witness :
  let x := SourceResult.mk "google_trends"
             [TrendItem.mk "a" "" ""; TrendItem.mk "b" "" ""] None in
  let r := TrendingResponse.mk true "google_trends" 2 [x] [] in
  trending world_up (request_of "google_trends" 2 "US")
  = (["google_trends"], Respond r)
  ∧ Z.of_nat (length (SourceResult.items x)) ≤ TrendingResponse.limit r ≤ 10.
Proof.
  intros x r.
  assert (H : trending world_up (request_of "google_trends" 2 "US")
              = (["google_trends"], Respond r)) by reflexivity.
  split; [exact H|].
  exact (trending_items_bounded _ _ _ _ x H ltac:(left) ltac:(discriminate)).
Defined.

(** X15. The locale fields reach only the adapters that take them.  For
    two requests with the same source and limit: the answers for reuters
    and for flipboard are the same whatever the other fields; those for
    reddit are the same when the subreddit is; those for google_trends are
    the same when the country is, up to letter case; those for google_news
    are the same when the country and the language are. *)
Theorem trending_locale_reach w p p' :
  TrendingRequest.source p' = TrendingRequest.source p →
  TrendingRequest.limit p' = TrendingRequest.limit p →
  let source := lower (TrendingRequest.source p) in
  (source = "reuters" ∨ source = "flipboard" → trending w p' = trending w p) ∧
  (source = "reddit" →
   TrendingRequest.subreddit p' = TrendingRequest.subreddit p →
   trending w p' = trending w p) ∧
  (source = "google_trends" →
   upper (TrendingRequest.country p') = upper (TrendingRequest.country p) →
   trending w p' = trending w p) ∧
  (source = "google_news" →
   TrendingRequest.country p' = TrendingRequest.country p →
   TrendingRequest.language p' = TrendingRequest.language p →
   trending w p' = trending w p).
Proof.
  intros Hsrc Hlim source.
  assert (Hone : ∀ name, source = name → name ∈ ADAPTERS →
            call_adapter w p' name = call_adapter w p name →
            trending w p' = trending w p).
  { intros name Hs Hin Hcall.
    rewrite (trending_single w p name), (trending_single w p' name);
      [|by rewrite ?Hsrc..].
    by rewrite Hcall, Hlim. }
  repeat split.
  - intros [Hs|Hs]; apply (Hone _ Hs); [compute_done| |compute_done|];
      unfold call_adapter; cbn [String.eqb Ascii.eqb Bool.eqb];
      by rewrite Hlim.
  - intros Hs Hsub. apply (Hone _ Hs); [compute_done|].
    unfold call_adapter; cbn [String.eqb Ascii.eqb Bool.eqb].
    by rewrite Hlim, Hsub.
  - intros Hs Hc. apply (Hone _ Hs); [compute_done|].
    unfold call_adapter; cbn [String.eqb Ascii.eqb Bool.eqb].
    unfold get_google_trends, pn. by rewrite Hlim, Hc.
  - intros Hs Hc Hl. apply (Hone _ Hs); [compute_done|].
    unfold call_adapter; cbn [String.eqb Ascii.eqb Bool.eqb].
    by rewrite Hlim, Hc, Hl.
Qed.

Lemma trending_locale_reach_witness :
  trending world_up (TrendingRequest.mk "Reuters" 3 "US" "fr" "news")
  = trending world_up (TrendingRequest.mk "Reuters" 3 "IN" "en" "all")
  ∧ trending world_up (TrendingRequest.mk "google_trends" 3 "us" "fr" "news")
    = trending world_up (TrendingRequest.mk "google_trends" 3 "US" "en" "all").
Proof.
  split.
  - apply (proj1 (trending_locale_reach world_up
                    (TrendingRequest.mk "Reuters" 3 "IN" "en" "all")
                    (TrendingRequest.mk "Reuters" 3 "US" "fr" "news")
                    eq_refl eq_refl)).
    left. reflexivity.
  - apply (proj1 (proj2 (proj2 (trending_locale_reach world_up
                    (TrendingRequest.mk "google_trends" 3 "US" "en" "all")
                    (TrendingRequest.mk "google_trends" 3 "us" "fr" "news")
                    eq_refl eq_refl)))); reflexivity.
Defined.

(** X16. Whatever the request, a response names the source in lower case,
    and that name is one of the allowed ones; its limit is between 1 and
    10; the adapters called are the selected ones, and [data] and [errors]
    together have one entry for each of them. *)
Theorem trending_response_echo w payload calls r :
  trending w payload = (calls, Respond r) →
  TrendingResponse.requested_source r = lower (TrendingRequest.source payload) ∧
  TrendingResponse.requested_source r ∈ allowed ∧
  1 ≤ TrendingResponse.limit r ≤ 10 ∧
  calls = selected (TrendingResponse.requested_source r) ∧
  (length (TrendingResponse.data r) + length (TrendingResponse.errors r)
   = length calls)%nat ∧
  (1 ≤ length calls ≤ 5)%nat.
Proof.
  intros (Hvalid & -> & ->)%trending_respond_inv.
  cbn [TrendingResponse.requested_source TrendingResponse.limit
       TrendingResponse.data TrendingResponse.errors].
  split; [done|]. split; [done|]. split; [apply clamp_limit_range|].
  split; [done|]. split.
  - generalize (selected (lower (TrendingRequest.source payload))).
    intros l. unfold returned_of, raised_of.
    induction l as [|a l IH]; [done|]. cbn [omap list_omap].
    destruct (call_adapter w payload a); cbn [length]; lia.
  - destruct (decide (lower (TrendingRequest.source payload) = "all"))
      as [E|E].
    + rewrite E, selected_all. cbn. lia.
    + rewrite selected_one by done. cbn. lia.
Qed.

Lemma trending_response_echo_witness :
  ∃ calls r, trending world_up (request_of "FlipBoard" 50 "IN") = (calls, Respond r) ∧
    TrendingResponse.requested_source r = "flipboard" ∧
    TrendingResponse.limit r = 10.
Proof.
  eexists _, _. split; [reflexivity|].
  destruct (trending_response_echo world_up (request_of "FlipBoard" 50 "IN")
              _ _ eq_refl) as (Hs & _).
  split; [exact Hs|reflexivity].
Defined.

(** X17. In a response, a result that carries a warning is the reddit
    result for missing credentials: its source is reddit, it has no items,
    and the client id or the client secret is missing or empty. *)
Theorem trending_warning_only_reddit w payload calls r x :
  trending w payload = (calls, Respond r) →
  x ∈ TrendingResponse.data r →
  SourceResult.warning x ≠ None →
  x = SourceResult.mk "reddit" [] (Some "Reddit keys missing") ∧
  (truthy (REDDIT_CLIENT_ID w) = false
   ∨ truthy (REDDIT_CLIENT_SECRET w) = false).
Proof.
  intros (Hvalid & _ & ->)%trending_respond_inv Hx Hwarn.
  cbn [TrendingResponse.data] in Hx.
  apply elem_of_returned_of in Hx as (name & Hname & Hcall).
  apply elem_of_selected in Hname as [_ Hname].
  destruct (call_adapter_cases w payload name Hname)
    as [[-> E]|[[-> E]|[[-> E]|[[-> E]|[-> E]]]]]; rewrite E in Hcall;
    clear E; revert Hcall;
    unfold get_google_trends, get_google_news, get_reddit, get_reuters,
      get_flipboard, mbind, outcome_bind, mret, outcome_ret.
  - destruct (trending_searches _ _); [|done]. intros [= <-]. by destruct Hwarn.
  - destruct (rss_top _ _ _); [|done]. intros [= <-]. by destruct Hwarn.
  - destruct (truthy (REDDIT_CLIENT_ID w)) eqn:Hid;
      destruct (truthy (REDDIT_CLIENT_SECRET w)) eqn:Hsec; cbn [andb negb];
      try (intros [= <-]; split; [done|tauto]).
    destruct (subreddit_hot _ _ _); [|done]. intros [= <-]. by destruct Hwarn.
  - destruct (rss_top _ _ _); [|done]. intros [= <-]. by destruct Hwarn.
  - destruct (rss_top _ _ _); [|done]. intros [= <-]. by destruct Hwarn.
Qed.

Lemma trending_warning_only_reddit_witness :
  let x := SourceResult.mk "reddit" [] (Some "Reddit keys missing") in
  let r := TrendingResponse.mk true "reddit" 5 [x] [] in
  trending world_bare (request_of "reddit" 5 "IN") = (["reddit"], Respond r)
  ∧ (truthy (REDDIT_CLIENT_ID world_bare) = false
     ∨ truthy (REDDIT_CLIENT_SECRET world_bare) = false).
Proof.
  intros x r.
  assert (H : trending world_bare (request_of "reddit" 5 "IN")
              = (["reddit"], Respond r)) by reflexivity.
  split; [exact H|].
  exact (proj2 (trending_warning_only_reddit _ _ _ _ x H
                  ltac:(left) ltac:(discriminate))).
Defined.

(** X18. When a forum credential is missing or empty, reddit is never in
    [errors]: for every request that selects it, the source all included,
    its one entry is the empty result with the warning, in [data]. *)
Theorem reddit_never_errors_without_keys w payload :
  truthy (REDDIT_CLIENT_ID w) = false
  ∨ truthy (REDDIT_CLIENT_SECRET w) = false →
  let source := lower (TrendingRequest.source payload) in
  source = "all" ∨ source = "reddit" →
  ∃ r, trending w payload = (selected source, Respond r) ∧
    data_of "reddit" r
    = [SourceResult.mk "reddit" [] (Some "Reddit keys missing")] ∧
    errors_of "reddit" r = [].
Proof.
  intros Hkeys source Hs.
  assert (Hin : source ∈ allowed) by (apply allowed_cases; tauto).
  assert (Hsel : "reddit" ∈ selected source).
  { apply elem_of_selected. split; [|compute_done].
    unfold included. tauto. }
  rewrite trending_fanout by done. fold source.
  eexists. split; [reflexivity|]. unfold data_of, errors_of.
  cbn [TrendingResponse.data TrendingResponse.errors].
  assert (Hsrc : ∀ n x, n ∈ selected source →
                 call_adapter w payload n = Returned x →
                 SourceResult.source x = n).
  { intros n x [_ Hn]%elem_of_selected. by apply call_adapter_source. }
  rewrite returned_of_name, raised_of_name by eauto using NoDup_selected.
  rewrite !decide_True by done.
  replace (call_adapter w payload "reddit")
    with (get_reddit w (clamp_limit (TrendingRequest.limit payload))
            (TrendingRequest.subreddit payload)) by reflexivity.
  rewrite get_reddit_falsy; [done|].
  destruct Hkeys as [-> | ->]; [done|apply andb_false_r].
Qed.

Lemma reddit_never_errors_without_keys_witness :
  ∃ r, trending world_bare (request_of "ALL" 5 "IN") = (selected "all", Respond r) ∧
    data_of "reddit" r
    = [SourceResult.mk "reddit" [] (Some "Reddit keys missing")] ∧
    errors_of "reddit" r = [].
Proof.
  apply (reddit_never_errors_without_keys world_bare (request_of "ALL" 5 "IN"));
    left; reflexivity.
Defined.

(** X19. When every selected adapter returns, [errors] is empty and [data]
    holds their results in invocation order, one for each. *)
Theorem trending_all_returned w payload :
  let source := lower (TrendingRequest.source payload) in
  source ∈ allowed →
  (∀ name, name ∈ selected source →
     returns (call_adapter w payload name) = true) →
  ∃ r, trending w payload = (selected source, Respond r) ∧
    TrendingResponse.errors r = [] ∧ data_names r = selected source ∧
    TrendingResponse.data r
    = omap (λ name, match call_adapter w payload name with
                    | Returned x => Some x
                    | Raised _ => None
                    end) (selected source).
Proof.
  intros source Hin Hall. rewrite trending_fanout by done. fold source.
  eexists. split; [reflexivity|]. unfold data_names.
  cbn [TrendingResponse.data TrendingResponse.errors].
  split; [|split; [|done]].
  - revert Hall. generalize (selected source). intros l Hall.
    unfold raised_of. induction l as [|a l IH]; [done|].
    cbn [omap list_omap]. pose proof (Hall a ltac:(left)) as Ha.
    destruct (call_adapter w payload a); [|done].
    apply IH. intros name Hn. apply Hall. by right.
  - rewrite returned_names.
    + revert Hall. generalize (selected source). intros l Hall.
      induction l as [|a l IH]; [done|].
      rewrite filter_cons_True by (apply Is_true_true, Hall; left).
      f_equal. apply IH. intros name Hn. apply Hall. by right.
    + intros name x [_ Hn]%elem_of_selected. by apply call_adapter_source.
Qed.

Lemma trending_all_returned_witness :
  ∃ r, trending world_all_up (request_of "all" 2 "IN") = (selected "all", Respond r) ∧
    TrendingResponse.errors r = [] ∧ data_names r = selected "all".
Proof.
  destruct (trending_all_returned world_all_up (request_of "all" 2 "IN"))
    as (r & Hr & He & Hd & _).
  - vm_compute. reflexivity.
  - intros name Hn. change (lower _) with "all" in Hn.
    rewrite selected_all in Hn. unfold ADAPTERS in Hn.
    rewrite !elem_of_cons, elem_of_nil in Hn.
    destruct Hn as [->|[->|[->|[->|[->|[]]]]]]; vm_compute; reflexivity.
  - exists r. repeat split; assumption.
Defined.
